(** * OppAttach backend: payment and application lifecycle

    A shallow embedding of the application routes
    ([routes/applications.js], in its Paystack and in its M-Pesa form) and
    of the Paystack adapter ([utils/paystack.js]), followed by the
    properties of the payment lifecycle that are checked against them.

    JavaScript values are kept as the handlers see them: request bodies are
    JSON values, a missing property is [VUndefined], and the coercions the
    handlers rely on ([!x], [x ?? y], [x || y], [Number(x)], [String(x)])
    are written out.  A number is a binary64 number of the runtime, kept
    by its exact value: the finite ones are rationals (the two zeros are
    one), and every arithmetic operation rounds its exact result to the
    nearest binary64 number, ties to even, as the runtime does. *)

From Stdlib Require Import Bool List String Ascii Arith ZArith NArith QArith Qround Qabs Lia.
From Stdlib Require Import DecimalString DecimalN.
Import ListNotations.
Close Scope Q_scope.
Open Scope list_scope.
Open Scope string_scope.
Set Warnings "-register-all".

(** ** JavaScript values and coercions *)

Module JS.

Inductive number :=
| NaN
| Inf (negative : bool)
| Num (q : Q).

Inductive value :=
| VUndefined
| VNull
| VBool (b : bool)
| VNum (n : number)
| VStr (s : string)
| VArr (items : list value)
| VObj (props : list (string * value)).

(** [!!v] *)
Definition truthy (v : value) : bool :=
  match v with
  | VUndefined | VNull => false
  | VBool b => b
  | VNum NaN => false
  | VNum (Inf _) => true
  | VNum (Num q) => negb (Qeq_bool q 0)
  | VStr s => negb (s =? "")
  | VArr _ | VObj _ => true
  end.

(** [v == null] *)
Definition nullish (v : value) : bool :=
  match v with
  | VUndefined | VNull => true
  | _ => false
  end.

(** [a ?? b] *)
Definition coalesce (a b : value) : value := if nullish a then b else a.

(** [a || b] *)
Definition or_else (a b : value) : value := if truthy a then a else b.

(** Own properties of an object, each key once. *)
Fixpoint lookup (k : string) (props : list (string * value)) : value :=
  match props with
  | [] => VUndefined
  | (k', v) :: rest => if k =? k' then v else lookup k rest
  end.

(** [v?.k] for the property names the handlers read; none of them is a
    built-in property of a string, number, boolean or array. *)
Definition get (v : value) (k : string) : value :=
  match v with
  | VObj props => lookup k props
  | _ => VUndefined
  end.

(** [v === 'literal'] *)
Definition is_string (v : value) (lit : string) : bool :=
  match v with
  | VStr s => s =? lit
  | _ => false
  end.

Definition num_of_Z (z : Z) : number := Num (inject_Z z).

(** [2^k] *)
Definition pow2 (k : Z) : Q :=
  if (0 <=? k)%Z then inject_Z (2 ^ k) else 1 # Z.to_pos (2 ^ (- k)).

(** The exponent of the leading bit of a positive rational [n/d], the
    [k] with [2^k <= n/d < 2^(k+1)]: it is [log2 n - log2 d] or one
    less. *)
Definition ilog2 (q : Q) : Z :=
  let k := (Z.log2 (Qnum q) - Z.log2 (Zpos (Qden q)))%Z in
  if Qle_bool (pow2 k) q then k else (k - 1)%Z.

(** The integer nearest to [q], a tie going to the even one. *)
Definition nearestEven (q : Q) : Z :=
  let f := Qfloor q in
  match Qcompare (q - inject_Z f) (1 # 2) with
  | Lt => f
  | Gt => (f + 1)%Z
  | Eq => if Z.even f then f else (f + 1)%Z
  end.

(** The binary64 number nearest to the exact result [x], ties to even:
    53 significant bits, no spacing finer than [2^-1074], and infinity
    once the rounded magnitude reaches [2^1024]. *)
Definition round64 (x : Q) : number :=
  let q := Qred x in
  if Qeq_bool q 0 then Num 0
  else
    let e := Z.max (ilog2 (Qabs q) - 52) (-1074) in
    let r := (inject_Z (nearestEven (q / pow2 e)) * pow2 e)%Q in
    if Qle_bool (pow2 1024) (Qabs r) then Inf (Qnum q <? 0)%Z
    else Num (Qred r).

(** An operation of a number with a finite positive constant ([x * c],
    [x / c], [x - c], [c + x]): [NaN] and the infinities come out as they
    went in, and the exact result on a finite number is rounded. *)
Definition rounded (f : Q -> Q) (n : number) : number :=
  match n with
  | NaN => NaN
  | Inf s => Inf s
  | Num q => round64 (f q)
  end.

(** [x * 100] and [x / 100] *)
Definition times100 (n : number) : number :=
  rounded (fun q => (q * inject_Z 100)%Q) n.

Definition div100 (n : number) : number :=
  rounded (fun q => (q / inject_Z 100)%Q) n.

(** [Math.round]: the nearest integer, halves upward; exact on a
    binary64 number. *)
Definition Math_round (n : number) : number :=
  match n with
  | NaN => NaN
  | Inf s => Inf s
  | Num q => Num (inject_Z (Qfloor (q + (1 # 2))))
  end.

(** Decimal digits of a clock reading or counter, as a template literal
    prints a non-negative integer. *)
Definition decimal (n : N) : string := NilEmpty.string_of_uint (N.to_uint n).

(** What the host provides and the sources only call: the JSON parser
    ([None] is a SyntaxError), [Number] and [String] on the values that go
    through parsing or [ToPrimitive] ([None] is a TypeError), the keyed
    hash of the webhook signature, the ObjectId cast of a string that is
    not 24 hexadecimal characters ([None] is a CastError), the equality
    match of a query value against a stored field, and
    [String.prototype.trim]. *)
Record Runtime := {
  JSON_parse : string -> option value;
  ToNumberOther : value -> option number;
  ToStringOther : value -> option string;
  hmac_sha512_hex : string -> string -> string;
  castObjectIdOther : string -> option string;
  queryMatches : value -> value -> bool;
  trim : string -> string
}.

Section Coercions.
Variable rt : Runtime.

(** [Number(v)] *)
Definition Number (v : value) : option number :=
  match v with
  | VUndefined => Some NaN
  | VNull => Some (num_of_Z 0)
  | VBool true => Some (num_of_Z 1)
  | VBool false => Some (num_of_Z 0)
  | VNum n => Some n
  | _ => ToNumberOther rt v
  end.

(** [String(v)]; an integer of magnitude below 2^53 prints as its
    decimal digits, which are the shortest that read back as that number. *)
Definition String_ (v : value) : option string :=
  match v with
  | VUndefined => Some "undefined"
  | VNull => Some "null"
  | VBool true => Some "true"
  | VBool false => Some "false"
  | VStr s => Some s
  | VNum (Num (Qmake z 1)) =>
      if (Z.abs z <? 2 ^ 53)%Z then Some (NilEmpty.string_of_int (Z.to_int z))
      else ToStringOther rt v
  | _ => ToStringOther rt v
  end.
End Coercions.

End JS.

Import JS.

(** ** Strings: the reference convention *)

Definition isDigit (c : ascii) : bool :=
  (48 <=? nat_of_ascii c)%nat && (nat_of_ascii c <=? 57)%nat.

Fixpoint allDigits (s : string) : bool :=
  match s with
  | EmptyString => true
  | String c s' => isDigit c && allDigits s'
  end.

Definition isEmpty (s : string) : bool :=
  match s with
  | EmptyString => true
  | _ => false
  end.

(** [s.startsWith(p)] *)
Definition startsWith (s p : string) : bool := String.prefix p s.

(** [s.replace(/^APP-/, '')] *)
Definition replace_APP_prefix (s : string) : string :=
  if startsWith s "APP-" then substring 4 (String.length s - 4) s else s.

(** [s.replace(/-\d+$/, '')]: the leftmost hyphen that is followed by one
    or more digits up to the end of the string is where the match starts. *)
Fixpoint replace_dash_digits_end (s : string) : string :=
  match s with
  | EmptyString => EmptyString
  | String c s' =>
      if Ascii.eqb c "-"%char && negb (isEmpty s') && allDigits s'
      then EmptyString
      else String c (replace_dash_digits_end s')
  end.

(** Hexadecimal form of a document id: 24 characters [0-9a-f]. *)
Definition isLowerHex (c : ascii) : bool :=
  isDigit c || ((97 <=? nat_of_ascii c)%nat && (nat_of_ascii c <=? 102)%nat).

Definition isUpperHex (c : ascii) : bool :=
  (65 <=? nat_of_ascii c)%nat && (nat_of_ascii c <=? 70)%nat.

Fixpoint allChars (p : ascii -> bool) (s : string) : bool :=
  match s with
  | EmptyString => true
  | String c s' => p c && allChars p s'
  end.

Definition isObjectIdHex (s : string) : bool :=
  (String.length s =? 24)%nat && allChars isLowerHex s.

Definition lowerHexChar (c : ascii) : ascii :=
  if isUpperHex c then ascii_of_nat (nat_of_ascii c + 32) else c.

Fixpoint toLowerHex (s : string) : string :=
  match s with
  | EmptyString => EmptyString
  | String c s' => String (lowerHexChar c) (toLowerHex s')
  end.

(** ** Errors and results *)

Inductive exn :=
| Error (message : string)
| TypeError
| CastError
| HostError (message : string).

Inductive result (A : Type) :=
| Ok (a : A)
| Throw (e : exn).
Arguments Ok {A} a.
Arguments Throw {A} e.

Definition bind {A B : Type} (r : result A) (k : A -> result B) : result B :=
  match r with
  | Ok a => k a
  | Throw e => Throw e
  end.

Notation "x <- r ;; k" := (bind r (fun x => k))
  (at level 61, r at next level, right associativity).

Definition of_option {A : Type} (e : exn) (o : option A) : result A :=
  match o with
  | Some a => Ok a
  | None => Throw e
  end.

(** ** Data model *)

(** Modelled from the spec: [models/Application.js] is not among the
    sources.  The status is the closed enum of the data model,
    [pending_payment -> submitted -> under_review -> shortlisted | rejected
    | accepted]. *)
Inductive Status :=
| pending_payment
| submitted
| under_review
| shortlisted
| rejected
| accepted.

Definition status_eqb (a b : Status) : bool :=
  match a, b with
  | pending_payment, pending_payment
  | submitted, submitted
  | under_review, under_review
  | shortlisted, shortlisted
  | rejected, rejected
  | accepted, accepted => true
  | _, _ => false
  end.

Definition status_name (s : Status) : string :=
  match s with
  | pending_payment => "pending_payment"
  | submitted => "submitted"
  | under_review => "under_review"
  | shortlisted => "shortlisted"
  | rejected => "rejected"
  | accepted => "accepted"
  end.

(** Position in the order of the lifecycle; the three outcomes of the
    review share the last position. *)
Definition rank (s : Status) : nat :=
  match s with
  | pending_payment => 0
  | submitted => 1
  | under_review => 2
  | shortlisted | rejected | accepted => 3
  end.

Module Application.

(** Modelled from the spec: the Application document of
    [models/Application.js], with the attributes of the data model under
    the names the handlers use.  A field holds the value last assigned to
    it ([VUndefined] while unset); casting and validation by the schema
    are not represented. *)
Record t := mk {
  _id : string;
  userId : string;
  opportunityId : string;
  resumeUrl : string;
  recommendationLetterUrl : value;
  coverLetter : value;
  status : Status;
  mpesaCheckoutRequestId : value;
  mpesaTransactionId : value;
  paymentTransactionId : value;
  amountPaid : value
}.

Definition set_status (s : Status) (a : t) : t :=
  mk (_id a) (userId a) (opportunityId a) (resumeUrl a) (recommendationLetterUrl a)
     (coverLetter a) s (mpesaCheckoutRequestId a) (mpesaTransactionId a)
     (paymentTransactionId a) (amountPaid a).

Definition set_resumeUrl (v : string) (a : t) : t :=
  mk (_id a) (userId a) (opportunityId a) v (recommendationLetterUrl a)
     (coverLetter a) (status a) (mpesaCheckoutRequestId a) (mpesaTransactionId a)
     (paymentTransactionId a) (amountPaid a).

Definition set_recommendationLetterUrl (v : value) (a : t) : t :=
  mk (_id a) (userId a) (opportunityId a) (resumeUrl a) v
     (coverLetter a) (status a) (mpesaCheckoutRequestId a) (mpesaTransactionId a)
     (paymentTransactionId a) (amountPaid a).

Definition set_coverLetter (v : value) (a : t) : t :=
  mk (_id a) (userId a) (opportunityId a) (resumeUrl a) (recommendationLetterUrl a)
     v (status a) (mpesaCheckoutRequestId a) (mpesaTransactionId a)
     (paymentTransactionId a) (amountPaid a).

Definition set_mpesaCheckoutRequestId (v : value) (a : t) : t :=
  mk (_id a) (userId a) (opportunityId a) (resumeUrl a) (recommendationLetterUrl a)
     (coverLetter a) (status a) v (mpesaTransactionId a)
     (paymentTransactionId a) (amountPaid a).

Definition set_mpesaTransactionId (v : value) (a : t) : t :=
  mk (_id a) (userId a) (opportunityId a) (resumeUrl a) (recommendationLetterUrl a)
     (coverLetter a) (status a) (mpesaCheckoutRequestId a) v
     (paymentTransactionId a) (amountPaid a).

Definition set_paymentTransactionId (v : value) (a : t) : t :=
  mk (_id a) (userId a) (opportunityId a) (resumeUrl a) (recommendationLetterUrl a)
     (coverLetter a) (status a) (mpesaCheckoutRequestId a) (mpesaTransactionId a)
     v (amountPaid a).

Definition set_amountPaid (v : value) (a : t) : t :=
  mk (_id a) (userId a) (opportunityId a) (resumeUrl a) (recommendationLetterUrl a)
     (coverLetter a) (status a) (mpesaCheckoutRequestId a) (mpesaTransactionId a)
     (paymentTransactionId a) v.
End Application.

Module Opportunity.

(** Modelled from the spec: the Opportunity document of
    [models/Opportunity.js], read-only here: whether it is open, its type
    ([internship] or [attachment]), its title and its [applicationFee]
    ([VUndefined] when the record carries none). *)
Record t := mk {
  _id : string;
  isActive : bool;
  type : string;
  title : string;
  applicationFee : value
}.
End Opportunity.

Module User.

(** The authenticated user that [protect] puts on the request, with the
    fields the routes read. *)
Record t := mk {
  _id : string;
  email : string;
  name : string
}.
End User.

(** The application collection, in its natural (insertion) order. *)
Definition Store := list Application.t.

(** [process.env] *)
Record Env := {
  PAYSTACK_SECRET_KEY : option string;
  PAYSTACK_CALLBACK_URL : option string;
  FRONTEND_URL : option string
}.

(** ** The document store, as the handlers call it *)

Section Mongoose.
Variable rt : Runtime.

(** The cast of a string to a document id.  24 hexadecimal characters
    denote the id they spell, whatever their case. *)
Definition castObjectId (s : string) : option string :=
  if (String.length s =? 24)%nat
     && allChars (fun c => isLowerHex c || isUpperHex c) s
  then Some (toLowerHex s)
  else castObjectIdOther rt s.

(** [Application.findById(id)] *)
Definition findById (db : Store) (id : string) : result (option Application.t) :=
  oid <- of_option CastError (castObjectId id) ;;
  Ok (find (fun a => Application._id a =? oid) db).

(** [Application.findOne({ _id, userId })] *)
Definition findOwned (db : Store) (id userId : string) : result (option Application.t) :=
  oid <- of_option CastError (castObjectId id) ;;
  Ok (find (fun a => (Application._id a =? oid) && (Application.userId a =? userId)) db).

(** [Application.findOne({ _id, userId, status: 'pending_payment' })] *)
Definition findOwnedPending (db : Store) (id userId : string)
  : result (option Application.t) :=
  oid <- of_option CastError (castObjectId id) ;;
  Ok (find (fun a => (Application._id a =? oid) && (Application.userId a =? userId)
                     && status_eqb (Application.status a) pending_payment) db).

(** [Application.findOne({ userId, opportunityId })] *)
Definition findByUserAndOpportunity (db : Store) (userId opportunityId : string)
  : option Application.t :=
  find (fun a => (Application.userId a =? userId)
                 && (Application.opportunityId a =? opportunityId)) db.

(** [Application.findOne({ mpesaCheckoutRequestId })] *)
Definition findByCheckoutRequestId (db : Store) (q : value) : option Application.t :=
  find (fun a => queryMatches rt q (Application.mpesaCheckoutRequestId a)) db.

(** [Opportunity.findById(id)] *)
Definition Opportunity_findById (opps : list Opportunity.t) (id : string)
  : result (option Opportunity.t) :=
  oid <- of_option CastError (castObjectId id) ;;
  Ok (find (fun o => Opportunity._id o =? oid) opps).
End Mongoose.

(** [application.save()]: the document with that id is replaced. *)
Definition save (application : Application.t) (db : Store) : Store :=
  map (fun a => if Application._id a =? Application._id application
                then application else a) db.

(** [Application.create(doc)], the store having assigned [_id]. *)
Definition create (application : Application.t) (db : Store) : Store :=
  (db ++ [application])%list.

(** [Application.findByIdAndDelete(id)] *)
Definition deleteById (id : string) (db : Store) : Store :=
  filter (fun a => negb (Application._id a =? id)) db.

(** ** utils/paystack.js *)

Module Paystack.

(** The argument of [initializeTransaction]. *)
Record InitArgs := {
  reference : string;
  amount : value;
  currency : string;
  callbackUrl : string;
  cancelUrl : string;
  customer_email : string;
  customer_name : string
}.

(** The JSON body posted to [/transaction/initialize]. *)
Record InitBody := {
  body_reference : string;
  body_amount : number;
  body_currency : string;
  body_callback_url : string;
  body_email : string;
  body_customer_name : string;
  body_cancel_action : option string
}.

(** The argument of [chargeMpesa]. *)
Record ChargeArgs := {
  charge_reference : string;
  charge_amount : value;
  charge_currency : string;
  charge_email : string;
  charge_phone : string;
  charge_customer_name : string
}.

Section Adapter.
Variable rt : Runtime.
Variable env : Env.

Definition configured (o : option string) : option string :=
  match o with
  | Some s => if isEmpty s then None else Some s
  | None => None
  end.

(** [Math.round(Number(amount) * 100)] *)
Definition amountInSmallest (amount : value) : result number :=
  n <- of_option TypeError (Number rt amount) ;;
  Ok (Math_round (times100 n)).

(** The request body that [initializeTransaction] builds. *)
Definition initBody (args : InitArgs) : result InitBody :=
  match configured (PAYSTACK_SECRET_KEY env) with
  | None => Throw (Error "PAYSTACK_SECRET_KEY is not set")
  | Some _ =>
      a <- amountInSmallest (amount args) ;;
      Ok {| body_reference := reference args;
            body_amount := a;
            body_currency := if isEmpty (currency args) then "KES" else currency args;
            body_callback_url := callbackUrl args;
            body_email := customer_email args;
            body_customer_name :=
              if isEmpty (customer_name args) then "Applicant" else customer_name args;
            body_cancel_action :=
              if isEmpty (cancelUrl args) then None else Some (cancelUrl args) |}
  end.

(** [initializeTransaction]; [post] is the provider's answer to the
    request, parsed. *)
Definition initializeTransaction (post : InitBody -> result value) (args : InitArgs)
  : result (value * value) :=
  body <- initBody args ;;
  data <- post body ;;
  if nullish data then Throw TypeError
  else if negb (truthy (get data "status"))
          || negb (truthy (get (get data "data") "authorization_url"))
  then
    msg <- of_option TypeError
             (String_ rt (or_else (get data "message")
                                  (VStr "Paystack payment init failed"))) ;;
    Throw (Error msg)
  else Ok (get (get data "data") "authorization_url",
           get (get data "data") "reference").

(** [verifyWebhookSignature(payload, signature)] *)
Definition verifyWebhookSignature (payload : string) (signature : value) : bool :=
  match configured (PAYSTACK_SECRET_KEY env) with
  | None => true
  | Some secret => is_string signature (hmac_sha512_hex rt secret payload)
  end.
End Adapter.

End Paystack.

(** ** HTTP responses *)

Inductive Payload :=
| Message (message : string)
| ErrMessage (e : exn)
| ErrMessageOr (e : exn) (fallback : string)
| Doc (application : option Application.t)
| PaymentRequired (application : Application.t) (paymentLink amount : value)
| PaymentLink (paymentLink : value)
| ChargeStarted (reference status display_text : value)
| PhoneRequired (application : Application.t) (amount : value)
| StkSent (application : option Application.t) (checkoutRequestId : value).

Record Response := {
  code : nat;
  payload : Payload
}.

Definition respond (c : nat) (p : Payload) : Response := {| code := c; payload := p |}.

(** How a webhook delivery ends, after its acknowledgement: a plain
    [return], an exception that rejects the handler's promise, or the
    [save] of the settled application. *)
Inductive outcome :=
| Stopped
| Rejected (e : exn)
| Saved.

(** [s.replace(/\/$/, '')] *)
Fixpoint dropFinalSlash (s : string) : string :=
  match s with
  | EmptyString => EmptyString
  | String c s' =>
      if Ascii.eqb c "/"%char && isEmpty s' then EmptyString
      else String c (dropFinalSlash s')
  end.

(** [s.split('?')[0]] *)
Fixpoint beforeQuestionMark (s : string) : string :=
  match s with
  | EmptyString => EmptyString
  | String c s' =>
      if Ascii.eqb c "?"%char then EmptyString else String c (beforeQuestionMark s')
  end.

(** ** What both flows share *)

(** The multipart request of [POST /]; [phoneNumber] is read by the
    M-Pesa flow only. *)
Record Submission := {
  user : User.t;
  opportunityId : string;
  coverLetter : value;
  phoneNumber : value;
  resume : option string;
  recommendationLetter : option string
}.

(** The arguments of [initiateSTKPush]. *)
Record StkArgs := {
  stk_phone : value;
  stk_amount : value;
  stk_reference : string;
  stk_description : string
}.

(** What the outside world answers during one request: the blob upload,
    the payment providers, the clock, and the id the store assigns to a
    created document. *)
Record World := {
  uploadToCloudinary : string -> string -> result string;
  post : Paystack.InitBody -> result value;
  charge : Paystack.ChargeArgs -> result value;
  initiateSTKPush : StkArgs -> result value;
  now : N;
  newId : string
}.

(** The [try { ... } catch (err) { res.status(c).json(...) }] of a route
    that touches the store only in its last step. *)
Definition caught (c : nat) (db : Store) (r : result (Response * Store))
  : Response * Store :=
  match r with
  | Ok out => out
  | Throw e => (respond c (ErrMessage e), db)
  end.

(** [catch (err) { res.status(400).json({ message: err.message || fallback }) }] *)
Definition caughtOr (fallback : string) (db : Store) (r : result (Response * Store))
  : Response * Store :=
  match r with
  | Ok out => out
  | Throw e => (respond 400 (ErrMessageOr e fallback), db)
  end.

(** [.populate('opportunityId')] *)
Definition populate (opps : list Opportunity.t) (a : Application.t)
  : option Opportunity.t :=
  find (fun o => Opportunity._id o =? Application.opportunityId a) opps.

Section Submit.
Variable rt : Runtime.

(** [POST /]: everything up to and including the uploads; [inl] is an
    early response. *)
Definition checkSubmission (w : World) (opps : list Opportunity.t)
           (req : Submission) (db : Store)
  : result (Response
            + (Opportunity.t * option Application.t * string * string * value)) :=
  found <- Opportunity_findById rt opps (opportunityId req) ;;
  match found with
  | None => Ok (inl (respond 404 (Message "Opportunity not found")))
  | Some opportunity =>
      if negb (Opportunity.isActive opportunity)
      then Ok (inl (respond 400 (Message "Opportunity is closed")))
      else
        oid <- of_option CastError (castObjectId rt (opportunityId req)) ;;
        let existing := findByUserAndOpportunity db (User._id (user req)) oid in
        if match existing with
           | Some e => negb (status_eqb (Application.status e) pending_payment)
           | None => false
           end
        then Ok (inl (respond 400 (Message "You have already applied")))
        else
          match resume req with
          | None => Ok (inl (respond 400 (Message "Resume is required")))
          | Some resumeFile =>
              if (Opportunity.type opportunity =? "attachment")
                 && match recommendationLetter req with Some _ => false | None => true end
              then Ok (inl (respond 400
                        (Message "Recommendation letter is required for attachments")))
              else
                resumeUrl <- uploadToCloudinary w resumeFile
                               "internship-platform/resumes" ;;
                recommendationLetterUrl <-
                  match recommendationLetter req with
                  | None => Ok VNull
                  | Some recLetterFile =>
                      u <- uploadToCloudinary w recLetterFile
                             "internship-platform/recommendations" ;;
                      Ok (VStr u)
                  end ;;
                Ok (inr (opportunity, existing, oid, resumeUrl, recommendationLetterUrl))
          end
  end.

(** The document that [Application.create] is given in [POST /]. *)
Definition newApplication (id userId oid resumeUrl : string)
           (recommendationLetterUrl coverLetter : value) : Application.t :=
  Application.mk id userId oid resumeUrl recommendationLetterUrl
    (or_else coverLetter VUndefined) pending_payment
    VUndefined VUndefined VUndefined VUndefined.
End Submit.

(** ** routes/applications.js, Paystack flow *)

Module Routes.

(** A delivery to the webhook endpoint: the raw body that the raw-body
    parser leaves on the request, and the signature header. *)
Record Delivery := {
  rawBody : string;
  x_paystack_signature : value
}.

Section Handlers.
Variable rt : Runtime.
Variable env : Env.

(** [`APP-${application._id}-${Date.now()}`] *)
Definition paymentReference (id : string) (t : N) : string :=
  "APP-" ++ id ++ "-" ++ decimal t.

Definition baseUrl : string :=
  match Paystack.configured (PAYSTACK_CALLBACK_URL env) with
  | Some u => u
  | None =>
      dropFinalSlash (match FRONTEND_URL env with Some f => f | None => "" end)
      ++ "/app/applications"
  end.

(** The object that [getPaymentLink] hands to [initializeTransaction]. *)
Definition paymentRequest (t : N) (application : Application.t)
           (opportunity : option Opportunity.t) (u : User.t) : Paystack.InitArgs :=
  {| Paystack.reference := paymentReference (Application._id application) t;
     Paystack.amount :=
       coalesce (match opportunity with
                 | Some o => Opportunity.applicationFee o
                 | None => VUndefined
                 end) (VNum (num_of_Z 350));
     Paystack.currency := "KES";
     Paystack.callbackUrl :=
       baseUrl ++ "?payment=done&reference=APP-" ++ Application._id application;
     Paystack.cancelUrl := beforeQuestionMark baseUrl ++ "?cancelled=1";
     Paystack.customer_email := User.email u;
     Paystack.customer_name :=
       if isEmpty (User.name u) then "Applicant" else User.name u |}.

Definition getPaymentLink (w : World) (application : Application.t)
           (opportunity : option Opportunity.t) (u : User.t) : result value :=
  r <- Paystack.initializeTransaction rt env (post w)
         (paymentRequest (now w) application opportunity u) ;;
  Ok (fst r).

(** [rawBody ? JSON.parse(rawBody) : {}]; [None] when the parser throws. *)
Definition parseBody (req : Delivery) : option value :=
  if isEmpty (rawBody req) then Some (VObj []) else JSON_parse rt (rawBody req).

(** The application id inside a reference:
    [reference.replace(/^APP-/, '').replace(/-\d+$/, '')]. *)
Definition applicationIdOf (reference : string) : string :=
  replace_dash_digits_end (replace_APP_prefix reference).

(** The success transition on the application in hand: status,
    transaction id, and the amount when the event carries one. *)
Definition settled (id reference amount : value) (application : Application.t)
  : result Application.t :=
  txid <- of_option TypeError (String_ rt (coalesce id reference)) ;;
  let a1 := Application.set_paymentTransactionId (VStr txid)
              (Application.set_status submitted application) in
  if nullish amount then Ok a1
  else
    n <- of_option TypeError (Number rt amount) ;;
    Ok (Application.set_amountPaid (VNum (div100 n)) a1).

(** From the lookup to [application.save()]. *)
Definition settle (id reference amount : value) (found : option Application.t)
           (db : Store) : outcome * Store :=
  match found with
  | None => (Stopped, db)
  | Some application =>
      if negb (status_eqb (Application.status application) pending_payment)
      then (Stopped, db)
      else
        match settled id reference amount application with
        | Throw e => (Rejected e, db)
        | Ok a => (Saved, save a db)
        end
  end.

(** The handler on the parsed payload. *)
Definition processEvent (body : value) (db : Store) : outcome * Store :=
  let event := get body "event" in
  let data := get body "data" in
  if negb (is_string event "charge.success") || negb (truthy data)
  then (Stopped, db)
  else
    let reference := get data "reference" in
    let id := get data "id" in
    let amount := get data "amount" in
    if negb (truthy reference) then (Stopped, db)
    else
      match reference with
      | VStr ref =>
          if negb (startsWith ref "APP-") then (Stopped, db)
          else
            match findById rt db (applicationIdOf ref) with
            | Throw e => (Rejected e, db)
            | Ok found => settle id reference amount found db
            end
      | _ => (Rejected TypeError, db)
      end.

(** [paystackWebhookHandler], after [res.status(200).send()]. *)
Definition paystackWebhookHandler (req : Delivery) (db : Store) : outcome * Store :=
  match parseBody req with
  | None => (Stopped, db)
  | Some body => processEvent body db
  end.

(** [POST /]: create the application, or reuse the one that still
    awaits payment, then ask for a payment link. *)
Definition createApplication (w : World) (opps : list Opportunity.t)
           (req : Submission) (db : Store) : Response * Store :=
  match checkSubmission rt w opps req db with
  | Throw e => (respond 500 (ErrMessage e), db)
  | Ok (inl early) => (early, db)
  | Ok (inr (opportunity, existing, oid, resumeUrl, recommendationLetterUrl)) =>
      let reuse :=
        match existing with
        | Some e => if status_eqb (Application.status e) pending_payment
                    then Some e else None
        | None => None
        end in
      let application :=
        match reuse with
        | Some e =>
            Application.set_coverLetter
              (or_else (coverLetter req) (Application.coverLetter e))
              (Application.set_recommendationLetterUrl
                 (match recommendationLetter req with
                  | Some _ => recommendationLetterUrl
                  | None => Application.recommendationLetterUrl e
                  end)
                 (Application.set_resumeUrl resumeUrl e))
        | None =>
            newApplication (newId w) (User._id (user req)) oid resumeUrl
              recommendationLetterUrl (coverLetter req)
        end in
      let db' :=
        match reuse with
        | Some _ => save application db
        | None => create application db
        end in
      match getPaymentLink w application (Some opportunity) (user req) with
      | Throw e => (respond 500 (ErrMessage e), db')
      | Ok paymentLink =>
          (respond 200
             (PaymentRequired application paymentLink
                (coalesce (Opportunity.applicationFee opportunity)
                          (VNum (num_of_Z 350)))),
           db')
      end
  end.

(** [POST /:id/pay] *)
Definition pay (w : World) (opps : list Opportunity.t) (u : User.t) (id : string)
           (db : Store) : Response * Store :=
  caught 500 db
    (found <- findOwnedPending rt db id (User._id u) ;;
     match found with
     | None => Ok (respond 404 (Message "Application not found"), db)
     | Some application =>
         paymentLink <- getPaymentLink w application (populate opps application) u ;;
         Ok (respond 200 (PaymentLink paymentLink), db)
     end).

(** The object that [POST /:id/charge-mpesa] hands to [chargeMpesa]. *)
Definition chargeRequest (t : N) (application : Application.t)
           (opp : option Opportunity.t) (u : User.t) (phone : string)
  : Paystack.ChargeArgs :=
  {| Paystack.charge_reference := paymentReference (Application._id application) t;
     Paystack.charge_amount :=
       coalesce (match opp with
                 | Some o => Opportunity.applicationFee o
                 | None => VUndefined
                 end) (VNum (num_of_Z 350));
     Paystack.charge_currency := "KES";
     Paystack.charge_email := User.email u;
     Paystack.charge_phone := trim rt phone;
     Paystack.charge_customer_name :=
       if isEmpty (User.name u) then "Applicant" else User.name u |}.

(** [POST /:id/charge-mpesa] *)
Definition chargeMpesaRoute (w : World) (opps : list Opportunity.t) (u : User.t)
           (id : string) (body : value) (db : Store) : Response * Store :=
  caughtOr "M-Pesa charge failed" db
    (if nullish body then Throw TypeError
     else
       match get body "phone" with
       | VStr phone =>
           if isEmpty phone
           then Ok (respond 400 (Message "Phone number is required"), db)
           else
             found <- findOwnedPending rt db id (User._id u) ;;
             match found with
             | None => Ok (respond 404 (Message "Application not found"), db)
             | Some application =>
                 r <- charge w (chargeRequest (now w) application
                                  (populate opps application) u phone) ;;
                 if nullish r then Throw TypeError
                 else Ok (respond 200
                            (ChargeStarted (get r "reference") (get r "status")
                                           (get r "display_text")), db)
             end
       | _ => Ok (respond 400 (Message "Phone number is required"), db)
       end).

(** [PATCH /:id] *)
Definition updateApplication (u : User.t) (id : string) (body : value) (db : Store)
  : Response * Store :=
  caught 500 db
    (found <- findOwned rt db id (User._id u) ;;
     match found with
     | None => Ok (respond 404 (Message "Application not found"), db)
     | Some application =>
         if negb (status_eqb (Application.status application) pending_payment)
            && negb (status_eqb (Application.status application) submitted)
         then Ok (respond 400 (Message "Application can no longer be updated"), db)
         else if nullish body then Throw TypeError
         else
           let coverLetter := get body "coverLetter" in
           let application :=
             match coverLetter with
             | VUndefined => application
             | _ => Application.set_coverLetter coverLetter application
             end in
           let db' := save application db in
           Ok (respond 200
                 (Doc (find (fun a => Application._id a =? Application._id application)
                            db')),
               db')
     end).

(** [DELETE /:id] *)
Definition withdrawApplication (u : User.t) (id : string) (db : Store)
  : Response * Store :=
  caught 500 db
    (found <- findOwned rt db id (User._id u) ;;
     match found with
     | None => Ok (respond 404 (Message "Application not found"), db)
     | Some application =>
         if negb (status_eqb (Application.status application) pending_payment
                  || status_eqb (Application.status application) submitted)
         then Ok (respond 400 (Message "Application cannot be withdrawn"), db)
         else Ok (respond 200 (Message "Application withdrawn"),
                  deleteById (Application._id application) db)
     end).

(** The statuses an administrator may set. *)
Definition allowed : list Status :=
  [submitted; under_review; shortlisted; rejected; accepted].

(** [PATCH /admin/:id/status] *)
Definition adminUpdateStatus (id : string) (body : value) (db : Store)
  : Response * Store :=
  caught 500 db
    (if nullish body then Throw TypeError
     else
       let status := get body "status" in
       match (if truthy status
              then find (fun s => is_string status (status_name s)) allowed
              else None) with
       | None =>
           Ok (respond 400
                 (Message "Invalid status. Use: submitted, under_review, shortlisted, rejected, accepted"),
               db)
       | Some s =>
           found <- findById rt db id ;;
           match found with
           | None => Ok (respond 404 (Message "Application not found"), db)
           | Some a =>
               let application := Application.set_status s a in
               Ok (respond 200 (Doc (Some application)), save application db)
           end
       end).
End Handlers.
End Routes.


(** ** routes/applications.js, M-Pesa flow *)

Module MpesaRoutes.

Section Handlers.
Variable rt : Runtime.

(** [`APP-${application._id}`] *)
Definition accountReference (id : string) : string := "APP-" ++ id.

(** [fee || 500] *)
Definition feeOrDefault (opportunity : option Opportunity.t) : value :=
  or_else (match opportunity with
           | Some o => Opportunity.applicationFee o
           | None => VUndefined
           end) (VNum (num_of_Z 500)).

(** [`Application fee: ${opportunity?.title}`] *)
Definition description (opportunity : option Opportunity.t) : string :=
  "Application fee: " ++ match opportunity with
                         | Some o => Opportunity.title o
                         | None => "undefined"
                         end.

(** The arguments of the STK push for an application. *)
Definition stkRequest (phoneNumber : value) (application : Application.t)
           (opportunity : option Opportunity.t) : StkArgs :=
  {| stk_phone := phoneNumber;
     stk_amount := feeOrDefault opportunity;
     stk_reference := accountReference (Application._id application);
     stk_description := description opportunity |}.

(** [POST /]: always creates the application, then pushes the payment
    prompt when a phone number came with the request. *)
Definition createApplication (w : World) (opps : list Opportunity.t)
           (req : Submission) (db : Store) : Response * Store :=
  match checkSubmission rt w opps req db with
  | Throw e => (respond 500 (ErrMessage e), db)
  | Ok (inl early) => (early, db)
  | Ok (inr (opportunity, _, oid, resumeUrl, recommendationLetterUrl)) =>
      let application :=
        newApplication (newId w) (User._id (user req)) oid resumeUrl
          recommendationLetterUrl (coverLetter req) in
      let db1 := create application db in
      let amount := feeOrDefault (Some opportunity) in
      if negb (truthy (phoneNumber req))
      then (respond 200 (PhoneRequired application amount), db1)
      else
        match initiateSTKPush w (stkRequest (phoneNumber req) application (Some opportunity)) with
        | Throw e => (respond 500 (ErrMessage e), db1)
        | Ok stk =>
            if nullish stk then (respond 500 (ErrMessage TypeError), db1)
            else
              let application :=
                Application.set_mpesaCheckoutRequestId (get stk "CheckoutRequestID")
                  application in
              (respond 200 (StkSent (Some application) (get stk "CheckoutRequestID")),
               save application db1)
        end
  end.

(** [callbackMetadata.find((i) => i.Name === key)] *)
Fixpoint findItem (items : list value) (key : string) : result value :=
  match items with
  | [] => Ok VUndefined
  | i :: rest =>
      if nullish i then Throw TypeError
      else if is_string (get i "Name") key then Ok i
      else findItem rest key
  end.

(** [getItem(key)] *)
Definition getItem (callbackMetadata : value) (key : string) : result value :=
  match callbackMetadata with
  | VArr items => i <- findItem items key ;; Ok (get i "Value")
  | _ => Throw TypeError
  end.

(** [POST /mpesa-callback], after the acknowledgement. *)
Definition mpesaCallback (body : value) (db : Store) : outcome * Store :=
  let result := get (get body "Body") "stkCallback" in
  if negb (truthy result) then (Stopped, db)
  else
    let checkoutRequestId := get result "CheckoutRequestID" in
    let success :=
      match get result "ResultCode" with
      | VNum (Num q) => Qeq_bool q 0
      | _ => false
      end in
    let callbackMetadata :=
      or_else (get (get result "CallbackMetadata") "Item") (VArr []) in
    match (mpesaTransactionId <- getItem callbackMetadata "MpesaReceiptNumber" ;;
           amount <- getItem callbackMetadata "Amount" ;;
           Ok (mpesaTransactionId, amount)) with
    | Throw e => (Rejected e, db)
    | Ok (mpesaTransactionId, amount) =>
        match findByCheckoutRequestId rt db checkoutRequestId with
        | None => (Stopped, db)
        | Some application =>
            let a1 :=
              Application.set_status (if success then submitted else pending_payment)
                application in
            let a2 :=
              if success
              then Application.set_amountPaid amount
                     (Application.set_mpesaTransactionId mpesaTransactionId a1)
              else a1 in
            (Saved, save (Application.set_mpesaCheckoutRequestId VUndefined a2) db)
        end
    end.

(** [POST /:id/pay] *)
Definition pay (w : World) (opps : list Opportunity.t) (u : User.t) (id : string)
           (body : value) (db : Store) : Response * Store :=
  if nullish body then (respond 500 (ErrMessage TypeError), db)
  else
    let phoneNumber := get body "phoneNumber" in
    if negb (truthy phoneNumber)
    then (respond 400 (Message "Phone number is required"), db)
    else
      caught 500 db
        (found <- findOwnedPending rt db id (User._id u) ;;
         match found with
         | None => Ok (respond 404 (Message "Application not found"), db)
         | Some application =>
             stk <- initiateSTKPush w
                      (stkRequest phoneNumber application (populate opps application)) ;;
             if nullish stk then Throw TypeError
             else
               Ok (respond 200 (StkSent None (get stk "CheckoutRequestID")),
                   save (Application.set_mpesaCheckoutRequestId
                           (get stk "CheckoutRequestID") application) db)
         end).
End Handlers.

End MpesaRoutes.


(** ** Lifecycle operations *)

(** The operations that write the status of an existing application. *)
Inductive LifecycleOp :=
| PaystackWebhook (req : Routes.Delivery)
| MpesaCallback (body : value)
| AdminStatusEdit (id : string) (body : value).

Definition applyOp (rt : Runtime) (op : LifecycleOp) (db : Store) : Store :=
  match op with
  | PaystackWebhook req => snd (Routes.paystackWebhookHandler rt req db)
  | MpesaCallback body => snd (MpesaRoutes.mpesaCallback rt body db)
  | AdminStatusEdit id body => snd (Routes.adminUpdateStatus rt id body db)
  end.

Definition run (rt : Runtime) (ops : list LifecycleOp) (db : Store) : Store :=
  fold_left (fun d op => applyOp rt op d) ops db.

(** The status of the application with a given id, if it is stored. *)
Definition statusOf (id : string) (db : Store) : option Status :=
  option_map Application.status (find (fun a => Application._id a =? id) db).

(** Two documents that differ at most in the cover letter. *)
Definition sameExceptCoverLetter (a a' : Application.t) : Prop :=
  Application._id a' = Application._id a
  /\ Application.userId a' = Application.userId a
  /\ Application.opportunityId a' = Application.opportunityId a
  /\ Application.resumeUrl a' = Application.resumeUrl a
  /\ Application.recommendationLetterUrl a' = Application.recommendationLetterUrl a
  /\ Application.status a' = Application.status a
  /\ Application.mpesaCheckoutRequestId a' = Application.mpesaCheckoutRequestId a
  /\ Application.mpesaTransactionId a' = Application.mpesaTransactionId a
  /\ Application.paymentTransactionId a' = Application.paymentTransactionId a
  /\ Application.amountPaid a' = Application.amountPaid a.

(** One step of an application under a payment confirmation: the status
    stays, or goes from [pending_payment] to [submitted]. *)
Definition paymentStep (a b : Application.t) : Prop :=
  Application._id b = Application._id a
  /\ (Application.status b = Application.status a
      \/ (Application.status a = pending_payment /\ Application.status b = submitted)).

(** What an M-Pesa callback may do to an application. *)
Definition callbackStep (a b : Application.t) : Prop :=
  Application._id b = Application._id a
  /\ (Application.status b = Application.status a
      \/ Application.status b = submitted
      \/ Application.status b = pending_payment).

(** What an administrator's edit may do to an application. *)
Definition adminStep (a b : Application.t) : Prop :=
  Application._id b = Application._id a
  /\ (Application.status b = Application.status a
      \/ In (Application.status b) Routes.allowed).

(** The (user, opportunity) pair of an application, and the invariants of
    the collection: ids are unique, and so are the pairs. *)
Definition pairOf (a : Application.t) : string * string :=
  (Application.userId a, Application.opportunityId a).

Definition uniqueIds (db : Store) : Prop := NoDup (map Application._id db).

Definition onePerPair (db : Store) : Prop := NoDup (map pairOf db).

(** How many stored applications belong to a (user, opportunity) pair. *)
Definition countPair (userId opportunityId : string) (db : Store) : nat :=
  List.length (filter (fun a => (Application.userId a =? userId)
                           && (Application.opportunityId a =? opportunityId)) db).

(** ** A host for concrete runs *)

(** The JSON text of a payload made of objects, arrays, strings without
    escapes, booleans, [null] and integers. *)
Definition quote : string := String (ascii_of_nat 34) EmptyString.

Fixpoint jsonText (v : value) : string :=
  match v with
  | VUndefined | VNull => "null"
  | VBool true => "true"
  | VBool false => "false"
  | VNum (Num (Qmake z 1)) => NilEmpty.string_of_int (Z.to_int z)
  | VNum _ => "null"
  | VStr s => quote ++ s ++ quote
  | VArr items =>
      "[" ++ (fix elements (l : list value) : string :=
                match l with
                | [] => ""
                | [x] => jsonText x
                | x :: rest => jsonText x ++ "," ++ elements rest
                end) items ++ "]"
  | VObj props =>
      "{" ++ (fix members (l : list (string * value)) : string :=
                match l with
                | [] => ""
                | [(k, x)] => quote ++ k ++ quote ++ ":" ++ jsonText x
                | (k, x) :: rest =>
                    quote ++ k ++ quote ++ ":" ++ jsonText x ++ "," ++ members rest
                end) props ++ "}"
  end.

(** A parser that knows the payloads listed in [table]. *)
Fixpoint parseFrom (table : list (string * value)) (raw : string) : option value :=
  match table with
  | [] => None
  | (r, v) :: rest => if raw =? r then Some v else parseFrom rest raw
  end.

Definition sameString (q stored : value) : bool :=
  match q, stored with
  | VStr a, VStr b => a =? b
  | _, _ => false
  end.

Definition hostWith (payloads : list value) : Runtime :=
  {| JSON_parse := parseFrom (map (fun v => (jsonText v, v)) payloads);
     ToNumberOther := fun _ => Some NaN;
     ToStringOther := fun _ => Some "[object Object]";
     hmac_sha512_hex := fun secret payload => ("hmac:" ++ secret ++ ":" ++ payload)%string;
     castObjectIdOther := fun _ => None;
     queryMatches := sameString;
     trim := fun s => s |}.

Definition envWith (secret : string) : Env :=
  {| PAYSTACK_SECRET_KEY := Some secret;
     PAYSTACK_CALLBACK_URL := None;
     FRONTEND_URL := Some "https://oppattach.example/" |}.

Definition alice : User.t :=
  User.mk "65f0a1b2c3d4e5f6a7b8c9d0" "alice@example.com" "Alice".

Definition internship : Opportunity.t :=
  Opportunity.mk "65f0a1b2c3d4e5f6a7b8c9aa" true "internship" "Data intern" VUndefined.

Definition appId : string := "65f0a1b2c3d4e5f6a7b8c9d1".

Definition pendingApp : Application.t :=
  Application.mk appId (User._id alice) (Opportunity._id internship)
    "https://blobs.example/resume.pdf" VNull VUndefined pending_payment
    VUndefined VUndefined VUndefined VUndefined.

Definition chargeSuccess (reference : string) (id amount : value) : value :=
  VObj [("event", VStr "charge.success");
        ("data", VObj [("reference", VStr reference); ("id", id); ("amount", amount)])].

(** A success event for [pendingApp]: 350 KES, confirmed in cents. *)
Definition paidBody : value :=
  chargeSuccess "APP-65f0a1b2c3d4e5f6a7b8c9d1-1700000000000"
    (VNum (num_of_Z 4099260516)) (VNum (num_of_Z 35000)).

Definition paidRaw : string := jsonText paidBody.

(** The same event without [amount], and without [id] either. *)
Definition bareBody : value :=
  VObj [("event", VStr "charge.success");
        ("data", VObj [("reference", VStr "APP-65f0a1b2c3d4e5f6a7b8c9d1")])].

Definition bareRaw : string := jsonText bareBody.

(** An event whose reference lacks the prefix. *)
Definition foreignBody : value :=
  chargeSuccess "INV-42" (VNum (num_of_Z 7)) (VNum (num_of_Z 35000)).

Definition foreignRaw : string := jsonText foreignBody.

Definition host : Runtime := hostWith [paidBody; bareBody; foreignBody].

Definition deliver (raw : string) (signature : string) : Routes.Delivery :=
  {| Routes.rawBody := raw; Routes.x_paystack_signature := VStr signature |}.

Definition paidApp : Application.t :=
  Application.set_amountPaid (VNum (num_of_Z 350))
    (Application.set_paymentTransactionId (VStr "4099260516")
       (Application.set_status submitted pendingApp)).

(** The first payment attempt for [pendingApp], and what the adapter posts
    for it. *)
Definition firstRequest : Paystack.InitArgs :=
  Routes.paymentRequest (envWith "sk_live_1") 1700000000000 pendingApp (Some internship) alice.

Definition firstBody : Paystack.InitBody :=
  {| Paystack.body_reference := "APP-65f0a1b2c3d4e5f6a7b8c9d1-1700000000000";
     Paystack.body_amount := num_of_Z 35000;
     Paystack.body_currency := "KES";
     Paystack.body_callback_url :=
       "https://oppattach.example/app/applications?payment=done&reference=APP-65f0a1b2c3d4e5f6a7b8c9d1";
     Paystack.body_email := "alice@example.com";
     Paystack.body_customer_name := "Alice";
     Paystack.body_cancel_action :=
       Some "https://oppattach.example/app/applications?cancelled=1" |}.

(** A world in which the uploads and the providers answer, with the clock
    reading [t] and [id] as the next document id. *)
Definition world (id : string) (t : N) : World :=
  {| uploadToCloudinary := fun _ folder => Ok ("https://blobs.example/" ++ folder);
     post := fun b =>
       Ok (VObj [("status", VBool true);
                 ("data", VObj [("authorization_url", VStr "https://checkout.example/pay");
                                ("reference", VStr (Paystack.body_reference b))])]);
     charge := fun c =>
       Ok (VObj [("reference", VStr (Paystack.charge_reference c));
                 ("status", VStr "pay_offline")]);
     initiateSTKPush := fun _ => Ok (VObj [("CheckoutRequestID", VStr "ws_CO_0001")]);
     now := t;
     newId := id |}.

(** Alice applies for the internship, without a phone number. *)
Definition submission : Submission :=
  {| user := alice;
     opportunityId := Opportunity._id internship;
     coverLetter := VStr "Dear team";
     phoneNumber := VUndefined;
     resume := Some "%PDF-1.7 resume";
     recommendationLetter := None |}.

Definition secondId : string := "65f0a1b2c3d4e5f6a7b8c9d2".

Definition acceptedApp : Application.t := Application.set_status accepted paidApp.

(** Request bodies of [PATCH /:id] that agree on the cover letter. *)
Definition patchBody : value :=
  VObj [("coverLetter", VStr "Dear team"); ("status", VStr "accepted");
        ("amountPaid", VNum (num_of_Z 0))].

Definition patchBodyPlain : value := VObj [("coverLetter", VStr "Dear team")].

Definition statusBody (s : string) : value := VObj [("status", VStr s)].

(** The body of an M-Pesa callback for a checkout request. *)
Definition stkCallback (checkoutRequestId : string) (resultCode : Z) : value :=
  VObj [("Body",
         VObj [("stkCallback",
                VObj [("CheckoutRequestID", VStr checkoutRequestId);
                      ("ResultCode", VNum (num_of_Z resultCode))])])].


(** ** utils/paystack.js: the M-Pesa charge *)

Module Charge.

(** [\s], on the code units below 256. *)
Definition isSpace (c : ascii) : bool :=
  ((9 <=? nat_of_ascii c)%nat && (nat_of_ascii c <=? 13)%nat)
  || (nat_of_ascii c =? 32)%nat || (nat_of_ascii c =? 160)%nat.

(** [s.replace(/\s/g, '')] *)
Fixpoint removeSpaces (s : string) : string :=
  match s with
  | EmptyString => EmptyString
  | String c s' => if isSpace c then removeSpaces s' else String c (removeSpaces s')
  end.

(** [s.replace(/^\+/, '')] *)
Definition dropLeadingPlus (s : string) : string :=
  match s with
  | String c s' => if Ascii.eqb c "+"%char then s' else s
  | EmptyString => EmptyString
  end.

(** [s.slice(1)] *)
Definition slice1 (s : string) : string :=
  match s with
  | String _ s' => s'
  | EmptyString => EmptyString
  end.

(** The digits [chargeMpesa] makes of [phone]: no white space, no
    leading plus, and the country code in front. *)
Definition normalized (phone : string) : string :=
  let n := dropLeadingPlus (removeSpaces phone) in
  if startsWith n "0" then "254" ++ slice1 n
  else if negb (startsWith n "254") then "254" ++ n
  else n.

(** The JSON body posted to [/charge]. *)
Record Body := {
  email : string;
  amount : string;
  currency : string;
  reference : string;
  mobile_money_phone : string;
  mobile_money_provider : string;
  metadata_customer_name : string
}.

Definition defaultText : string := "Please complete authorization on your mobile phone".

Definition retryText : string :=
  "M-Pesa request could not be completed. Please try Card/Bank or check your phone number (use 2547XXXXXXXX).".

(** What [chargeMpesa] returns for the charge object [d]. *)
Definition chargeResult (ref : string) (d status : value) : value :=
  VObj [("reference", or_else (get d "reference") (VStr ref));
        ("status", status);
        ("display_text", or_else (get d "display_text") (VStr defaultText))].

Section Adapter.
Variable rt : Runtime.
Variable env : Env.

(** The request body that [chargeMpesa] builds. *)
Definition chargeBody (args : Paystack.ChargeArgs) : result Body :=
  match Paystack.configured (PAYSTACK_SECRET_KEY env) with
  | None => Throw (Error "PAYSTACK_SECRET_KEY is not set")
  | Some _ =>
      let n := normalized (Paystack.charge_phone args) in
      if (String.length n <? 12)%nat then Throw (Error "Invalid phone number")
      else
        a <- Paystack.amountInSmallest rt (Paystack.charge_amount args) ;;
        text <- of_option TypeError (String_ rt (VNum a)) ;;
        Ok {| email := Paystack.charge_email args;
              amount := text;
              currency := if isEmpty (Paystack.charge_currency args) then "KES"
                          else Paystack.charge_currency args;
              reference := Paystack.charge_reference args;
              mobile_money_phone := "+" ++ n;
              mobile_money_provider := "mpesa";
              metadata_customer_name := Paystack.charge_customer_name args |}
  end.

(** [throw new Error(v)] *)
Definition throwError (v : value) : result value :=
  m <- of_option TypeError (String_ rt v) ;;
  Throw (Error m).

(** What [chargeMpesa] makes of the provider's answer. *)
Definition chargeAnswer (ref : string) (data : value) : result value :=
  if nullish data then Throw TypeError
  else
    let d := or_else (get data "data") (VObj []) in
    if truthy (get data "status")
       && (is_string (get d "status") "pay_offline" || is_string (get d "status") "pending")
    then Ok (chargeResult ref d (get d "status"))
    else if negb (truthy (get data "status"))
    then
      let raw := or_else (get data "message") (VStr "") in
      throwError (if is_string raw "Charge attempted" then VStr retryText
                  else or_else raw (VStr "M-Pesa charge failed"))
    else if is_string (get d "status") "failed"
    then
      throwError (or_else (or_else (get d "gateway_response") (get d "message"))
                          (VStr "Payment could not be processed"))
    else Ok (chargeResult ref d (or_else (get d "status") (VStr "pay_offline"))).

(** [chargeMpesa]; [fetch] is the provider's answer to the request, parsed. *)
Definition chargeMpesa (fetch : Body -> result value) (args : Paystack.ChargeArgs)
  : result value :=
  body <- chargeBody args ;;
  data <- fetch body ;;
  chargeAnswer (Paystack.charge_reference args) data.
End Adapter.

End Charge.

(** ** utils/mpesa.js *)

Module Daraja.

(** The settings read from [process.env]. *)
Record Settings := {
  MPESA_CONSUMER_KEY : option string;
  MPESA_CONSUMER_SECRET : option string;
  MPESA_SHORTCODE : option string;
  MPESA_PASSKEY : option string;
  MPESA_CALLBACK_URL : option string
}.

(** [`${v}`] for a setting. *)
Definition template (o : option string) : string :=
  match o with
  | Some s => s
  | None => "undefined"
  end.

(** A response of [fetch]: [res.ok], [res.json()] and [res.text()]. *)
Record Http := {
  ok : bool;
  json : result value;
  text : result string
}.

(** The module's [cachedToken] and [tokenExpiry]. *)
Record TokenCache := {
  cachedToken : value;
  tokenExpiry : number
}.

Definition emptyCache : TokenCache :=
  {| cachedToken := VNull; tokenExpiry := num_of_Z 0 |}.

(** [Date.now() < tokenExpiry] *)
Definition before (t : N) (expiry : number) : bool :=
  match expiry with
  | NaN => false
  | Inf negative => negb negative
  | Num q => negb (Qle_bool q (inject_Z (Z.of_N t)))
  end.

(** [Date.now() + (expires_in - 60) * 1000], each of the three
    operations rounding its result; the clock reading is a whole number
    of milliseconds below [2^53], as every time value is. *)
Definition expiryAt (t : N) (expires_in : number) : number :=
  rounded (fun q => (inject_Z (Z.of_N t) + q)%Q)
    (rounded (fun q => (q * inject_Z 1000)%Q)
       (rounded (fun q => (q - inject_Z 60)%Q) expires_in)).

(** The JSON body posted to [/mpesa/stkpush/v1/processrequest]. *)
Record Body := {
  BusinessShortCode : option string;
  Password : string;
  Timestamp : string;
  TransactionType : string;
  Amount : value;
  PartyA : string;
  PartyB : option string;
  PhoneNumber : string;
  CallBackURL : option string;
  AccountReference : string;
  TransactionDesc : string
}.

(** What the outside answers during one call: the token endpoint (given
    the Basic credential), the STK endpoint (given the bearer token and
    the body), the clock at the two [Date.now()] and as
    [new Date().toISOString()], and the host's base64 encoder. *)
Record World := {
  oauth : string -> result Http;
  stkpush : value -> Body -> result Http;
  clockAtCheck : N;
  clockAtStore : N;
  isoNow : string;
  base64 : string -> string
}.

(** [s.replace(/[-:T.]/g, '')] *)
Fixpoint removeSeparators (s : string) : string :=
  match s with
  | EmptyString => EmptyString
  | String c s' =>
      if Ascii.eqb c "-"%char || Ascii.eqb c ":"%char || Ascii.eqb c "T"%char
         || Ascii.eqb c "."%char
      then removeSeparators s' else String c (removeSeparators s')
  end.

(** [new Date().toISOString().replace(/[-:T.]/g, '').slice(0, 14)] *)
Definition timestamp (iso : string) : string := substring 0 14 (removeSeparators iso).

(** [phone.replace(/^0/, '')] *)
Definition dropLeadingZero (s : string) : string :=
  match s with
  | String c s' => if Ascii.eqb c "0"%char then s' else s
  | EmptyString => EmptyString
  end.

(** [phone.startsWith('254') ? phone : `254${phone.replace(/^0/, '')}`] *)
Definition formattedPhone (phone : string) : string :=
  if startsWith phone "254" then phone else "254" ++ dropLeadingZero phone.

Section Adapter.
Variable rt : Runtime.
Variable settings : Settings.

(** [getAccessToken], on the cache it reads and writes. *)
Definition getAccessToken (w : World) (c : TokenCache) : result value * TokenCache :=
  if truthy (cachedToken c) && before (clockAtCheck w) (tokenExpiry c)
  then (Ok (cachedToken c), c)
  else
    match oauth w (base64 w (template (MPESA_CONSUMER_KEY settings) ++ ":"
                             ++ template (MPESA_CONSUMER_SECRET settings))) with
    | Throw e => (Throw e, c)
    | Ok res =>
        if negb (ok res) then (Throw (Error "M-Pesa auth failed"), c)
        else
          match json res with
          | Throw e => (Throw e, c)
          | Ok data =>
              if nullish data then (Throw TypeError, c)
              else
                let token := get data "access_token" in
                match Number rt (get data "expires_in") with
                | None =>
                    (Throw TypeError,
                     {| cachedToken := token; tokenExpiry := tokenExpiry c |})
                | Some e =>
                    (Ok token,
                     {| cachedToken := token;
                        tokenExpiry := expiryAt (clockAtStore w) e |})
                end
          end
    end.

(** The request body that [initiateSTKPush] builds for a phone string. *)
Definition stkBody (w : World) (phone : string) (args : StkArgs) : Body :=
  let t := timestamp (isoNow w) in
  {| BusinessShortCode := MPESA_SHORTCODE settings;
     Password := base64 w (template (MPESA_SHORTCODE settings)
                           ++ template (MPESA_PASSKEY settings) ++ t);
     Timestamp := t;
     TransactionType := "CustomerPayBillOnline";
     Amount := stk_amount args;
     PartyA := formattedPhone phone;
     PartyB := MPESA_SHORTCODE settings;
     PhoneNumber := formattedPhone phone;
     CallBackURL := MPESA_CALLBACK_URL settings;
     AccountReference := stk_reference args;
     TransactionDesc := stk_description args |}.

(** What [initiateSTKPush] makes of the provider's response. *)
Definition stkAnswer (res : Http) : result value :=
  if negb (ok res)
  then
    err <- text res ;;
    Throw (Error (if isEmpty err then "STK Push failed" else err))
  else
    data <- json res ;;
    if nullish data then Throw TypeError
    else Ok (VObj [("CheckoutRequestID", get data "CheckoutRequestID");
                   ("MerchantRequestID", get data "MerchantRequestID");
                   ("ResponseCode", get data "ResponseCode");
                   ("ResponseDescription", get data "ResponseDescription")]).

(** [initiateSTKPush(phone, amount, reference, description)] *)
Definition initiateSTKPush (w : World) (c : TokenCache) (args : StkArgs)
  : result value * TokenCache :=
  match getAccessToken w c with
  | (Throw e, c') => (Throw e, c')
  | (Ok token, c') =>
      match stk_phone args with
      | VStr phone =>
          (res <- stkpush w token (stkBody w phone args) ;; stkAnswer res, c')
      | _ => (Throw TypeError, c')
      end
  end.
End Adapter.

End Daraja.

(** ** routes/opportunities.js: saved opportunities *)

Module Opportunities.

(** The user document as [POST /:id/save] reads it: its id and its
    [savedOpportunities], ids in their hexadecimal form. *)
Record Account := {
  _id : string;
  savedOpportunities : option (list string)
}.

Inductive Answer :=
| SavedFlag (saved : bool)
| Refused (status : nat) (message : string)
| Failed (e : exn).

(** [list.findIndex((s) => s.toString() === id)] followed by
    [list.splice(idx, 1)]: [None] when no element is [id]. *)
Fixpoint spliceFirst (id : string) (l : list string) : option (list string) :=
  match l with
  | [] => None
  | s :: rest =>
      if s =? id then Some rest
      else option_map (cons s) (spliceFirst id rest)
  end.

(** The toggle on the list: the flag answered and the list saved. *)
Definition toggle (id : string) (l : list string) : bool * list string :=
  match spliceFirst id l with
  | Some l' => (false, l')
  | None => (true, (l ++ [id])%list)
  end.

(** [user.save()] *)
Definition saveAccount (u : Account) (users : list Account) : list Account :=
  map (fun x => if _id x =? _id u then u else x) users.

Section Handlers.
Variable rt : Runtime.

(** [POST /:id/save] *)
Definition saveOpportunity (opps : list Opportunity.t) (userId id : string)
           (users : list Account) : Answer * list Account :=
  match Opportunity_findById rt opps id with
  | Throw e => (Failed e, users)
  | Ok None => (Refused 404 "Opportunity not found", users)
  | Ok (Some opp) =>
      match find (fun x => _id x =? userId) users with
      | None => (Refused 401 "User not found", users)
      | Some u =>
          let l := match savedOpportunities u with Some l => l | None => [] end in
          let out := toggle (Opportunity._id opp) l in
          (SavedFlag (fst out),
           saveAccount {| _id := _id u; savedOpportunities := Some (snd out) |} users)
      end
  end.
End Handlers.

End Opportunities.

(** ** Frames *)

(** Two documents that differ at most in what a Paystack confirmation
    writes: status, transaction id and amount. *)
Definition sameExceptPayment (a a' : Application.t) : Prop :=
  Application._id a' = Application._id a
  /\ Application.userId a' = Application.userId a
  /\ Application.opportunityId a' = Application.opportunityId a
  /\ Application.resumeUrl a' = Application.resumeUrl a
  /\ Application.recommendationLetterUrl a' = Application.recommendationLetterUrl a
  /\ Application.coverLetter a' = Application.coverLetter a
  /\ Application.mpesaCheckoutRequestId a' = Application.mpesaCheckoutRequestId a
  /\ Application.mpesaTransactionId a' = Application.mpesaTransactionId a.

(** Two documents that differ at most in the status. *)
Definition sameExceptStatus (a a' : Application.t) : Prop :=
  a' = Application.set_status (Application.status a') a.

(** Two documents that differ at most in what an M-Pesa callback writes:
    status, receipt, amount and the outstanding checkout request. *)
Definition sameExceptMpesa (a a' : Application.t) : Prop :=
  Application._id a' = Application._id a
  /\ Application.userId a' = Application.userId a
  /\ Application.opportunityId a' = Application.opportunityId a
  /\ Application.resumeUrl a' = Application.resumeUrl a
  /\ Application.recommendationLetterUrl a' = Application.recommendationLetterUrl a
  /\ Application.coverLetter a' = Application.coverLetter a
  /\ Application.paymentTransactionId a' = Application.paymentTransactionId a.

(** Two documents that differ at most in the outstanding checkout request. *)
Definition sameExceptCheckout (a a' : Application.t) : Prop :=
  a' = Application.set_mpesaCheckoutRequestId (Application.mpesaCheckoutRequestId a') a.


(** ** More concrete runs *)

(** An attachment, for which a recommendation letter is required. *)
Definition attachment : Opportunity.t :=
  Opportunity.mk "65f0a1b2c3d4e5f6a7b8c9ab" true "attachment" "Field attachment"
    (VNum (num_of_Z 350)).

Definition attachmentSubmission : Submission :=
  {| user := alice;
     opportunityId := Opportunity._id attachment;
     coverLetter := VUndefined;
     phoneNumber := VUndefined;
     resume := Some "%PDF-1.7 resume";
     recommendationLetter := None |}.

(** A world whose payment providers cannot be reached. *)
Definition outage (id : string) (t : N) : World :=
  {| uploadToCloudinary := uploadToCloudinary (world id t);
     post := fun _ => Throw (HostError "fetch failed");
     charge := fun _ => Throw (HostError "fetch failed");
     initiateSTKPush := fun _ => Throw (HostError "fetch failed");
     now := t;
     newId := id |}.

Definition reviewedApp : Application.t := Application.set_status under_review paidApp.

(** A request for a status that an administrator may not set. *)
Definition backToPending : value := statusBody "pending_payment".

(** A process without the Paystack secret key. *)
Definition noKey : Env :=
  {| PAYSTACK_SECRET_KEY := None;
     PAYSTACK_CALLBACK_URL := None;
     FRONTEND_URL := Some "https://oppattach.example/" |}.

Definition phoneBody (phone : string) : value := VObj [("phone", VStr phone)].

Definition phoneNumberBody (phone : string) : value := VObj [("phoneNumber", VStr phone)].

(** An application with an STK push outstanding, and the callbacks for it. *)
Definition pushedApp : Application.t :=
  Application.set_mpesaCheckoutRequestId (VStr "ws_CO_0001") pendingApp.

Definition paidCallback : value :=
  VObj [("Body",
         VObj [("stkCallback",
                VObj [("CheckoutRequestID", VStr "ws_CO_0001");
                      ("ResultCode", VNum (num_of_Z 0));
                      ("CallbackMetadata",
                       VObj [("Item",
                              VArr [VObj [("Name", VStr "Amount");
                                          ("Value", VNum (num_of_Z 500))];
                                    VObj [("Name", VStr "MpesaReceiptNumber");
                                          ("Value", VStr "QK12ABCDEF")]])])])])].

Definition cancelledCallback : value := stkCallback "ws_CO_0001" 1032.

(** The parts of an M-Pesa callback body that the handler reads: the
    result object, its checkout request id and its metadata items. *)
Definition stkResult (body : value) : value := get (get body "Body") "stkCallback".

Definition checkoutOf (body : value) : value := get (stkResult body) "CheckoutRequestID".

Definition metadataOf (body : value) : value :=
  or_else (get (get (stkResult body) "CallbackMetadata") "Item") (VArr []).

(** [result.ResultCode === 0] *)
Definition succeeded (body : value) : bool :=
  match get (stkResult body) "ResultCode" with
  | VNum (Num q) => Qeq_bool q 0
  | _ => false
  end.


(** The world of a request in which [chargeMpesa] is the adapter of
    [utils/paystack.js] and [fetch] the provider behind it. *)
Definition withAdapter (rt : Runtime) (env : Env) (fetch : Charge.Body -> result value)
           (w : World) : World :=
  {| uploadToCloudinary := uploadToCloudinary w;
     post := post w;
     charge := Charge.chargeMpesa rt env fetch;
     initiateSTKPush := initiateSTKPush w;
     now := now w;
     newId := newId w |}.

(** A provider that accepts the charge and waits for the payer. *)
Definition payOffline (b : Charge.Body) : result value :=
  Ok (VObj [("status", VBool true);
            ("data", VObj [("reference", VStr (Charge.reference b));
                           ("status", VStr "pay_offline")])]).

(** A provider that turns the charge down with its generic message. *)
Definition chargeAttempted : value :=
  VObj [("status", VBool false); ("message", VStr "Charge attempted")].

Definition chargeArgs : Paystack.ChargeArgs :=
  Routes.chargeRequest host 1700000000000 pendingApp (Some internship) alice "0712 345 678".

(** No character of [s] is white space. *)
Definition noSpaces (s : string) : bool := allChars (fun c => negb (Charge.isSpace c)) s.

(** [toISOString()] of an instant, from its fields. *)
Definition isoString (year month day hour minute second millis : string) : string :=
  year ++ "-" ++ month ++ "-" ++ day ++ "T" ++ hour ++ ":" ++ minute ++ ":" ++ second
  ++ "." ++ millis ++ "Z".

(** The settings of a configured till, and a token endpoint that answers
    with a token good for [expires] seconds. *)
Definition till : Daraja.Settings :=
  {| Daraja.MPESA_CONSUMER_KEY := Some "key";
     Daraja.MPESA_CONSUMER_SECRET := Some "secret";
     Daraja.MPESA_SHORTCODE := Some "174379";
     Daraja.MPESA_PASSKEY := Some "passkey";
     Daraja.MPESA_CALLBACK_URL := Some "https://oppattach.example/api/applications/mpesa-callback" |}.

Definition tokenAnswer (token : string) (expires : Z) : Daraja.Http :=
  {| Daraja.ok := true;
     Daraja.json := Ok (VObj [("access_token", VStr token);
                              ("expires_in", VNum (num_of_Z expires))]);
     Daraja.text := Ok EmptyString |}.

Definition refused : Daraja.Http :=
  {| Daraja.ok := false; Daraja.json := Throw (HostError "no body"); Daraja.text := Ok EmptyString |}.

(** The same answer with [expires_in] as a string of digits, and a
    runtime whose [Number] reads such a string as the binary64 number
    nearest to the integer it spells, and the empty string as 0; no
    other string is coerced in these runs. *)
Definition tokenAnswerText (token expires : string) : Daraja.Http :=
  {| Daraja.ok := true;
     Daraja.json := Ok (VObj [("access_token", VStr token);
                              ("expires_in", VStr expires)]);
     Daraja.text := Ok EmptyString |}.

Definition readingDigits : Runtime :=
  {| JSON_parse := JSON_parse host;
     ToNumberOther := fun v =>
       match v with
       | VStr s =>
           if isEmpty s then Some (num_of_Z 0)
           else if allDigits s
           then match NilEmpty.uint_of_string s with
                | Some u => Some (round64 (inject_Z (Z.of_N (N.of_uint u))))
                | None => Some NaN
                end
           else Some NaN
       | _ => Some NaN
       end;
     ToStringOther := ToStringOther host;
     hmac_sha512_hex := hmac_sha512_hex host;
     castObjectIdOther := castObjectIdOther host;
     queryMatches := queryMatches host;
     trim := trim host |}.

(** A world of the Daraja adapter at clock reading [t], whose token
    endpoint answers [answer]. *)
Definition daraja (t : N) (answer : result Daraja.Http) : Daraja.World :=
  {| Daraja.oauth := fun _ => answer;
     Daraja.stkpush := fun _ _ => Throw (HostError "fetch failed");
     Daraja.clockAtCheck := t;
     Daraja.clockAtStore := t;
     Daraja.isoNow := isoString "2023" "11" "14" "22" "13" "20" "000";
     Daraja.base64 := fun s => s |}.

(** Alice's account as [POST /:id/save] reads it. *)
Definition aliceAccount (saved : option (list string)) : Opportunities.Account :=
  {| Opportunities._id := User._id alice; Opportunities.savedOpportunities := saved |}.

(** The saved list of an account, [user.savedOpportunities || []]. *)
Definition savedOf (u : Opportunities.Account) : list string :=
  match Opportunities.savedOpportunities u with Some l => l | None => [] end.

(** An opportunity whose fee is the first whole amount that does not
    survive the conversion to cents and back, the payment request for it,
    and the success event that brings back what the adapter sent. *)
Definition costly : Opportunity.t :=
  Opportunity.mk "65f0a1b2c3d4e5f6a7b8c9ac" true "internship" "Costly"
    (VNum (num_of_Z 360287970189641)).

Definition costlyRequest : Paystack.InitArgs :=
  Routes.paymentRequest (envWith "sk_live_1") 1700000000000 pendingApp (Some costly) alice.

Definition costlyBody : value :=
  chargeSuccess "APP-65f0a1b2c3d4e5f6a7b8c9d1-1700000000000"
    (VNum (num_of_Z 4099260516)) (VNum (num_of_Z 36028797018964096)).

Definition costlySent : Paystack.InitBody :=
  {| Paystack.body_reference := "APP-65f0a1b2c3d4e5f6a7b8c9d1-1700000000000";
     Paystack.body_amount := num_of_Z 36028797018964096;
     Paystack.body_currency := "KES";
     Paystack.body_callback_url :=
       "https://oppattach.example/app/applications?payment=done&reference=APP-65f0a1b2c3d4e5f6a7b8c9d1";
     Paystack.body_email := "alice@example.com";
     Paystack.body_customer_name := "Alice";
     Paystack.body_cancel_action :=
       Some "https://oppattach.example/app/applications?cancelled=1" |}.

(** [pendingApp] as that event settles it: 360287970189640.9375 paid. *)
Definition shortApp : Application.t :=
  Application.set_amountPaid (VNum (Num (5764607523034255 # 16)))
    (Application.set_paymentTransactionId (VStr "4099260516")
       (Application.set_status submitted pendingApp)).

(** The magnitude from which on a whole amount may not survive
    [x * 100]: from [2^55] on the binary64 numbers are eight apart, and
    [360287970189641 * 100] is the first product of an odd amount beyond
    it, halfway between two of them. *)
Definition wholeAmountLimit : Z := 360287970189641.

(** The Basic credential that [getAccessToken] presents. *)
Definition credential (settings : Daraja.Settings) (w : Daraja.World) : string :=
  Daraja.base64 w (Daraja.template (Daraja.MPESA_CONSUMER_KEY settings) ++ ":"
                   ++ Daraja.template (Daraja.MPESA_CONSUMER_SECRET settings)).

(** * Properties *)

(** ** Strings and ids *)

Ltac leb_cases :=
  repeat match goal with
         | |- context [(?a <=? ?b)%nat] => destruct (Nat.leb_spec a b)
         | H : context [(?a <=? ?b)%nat] |- _ => destruct (Nat.leb_spec a b)
         end;
  simpl in *; try reflexivity; try discriminate; try lia.

Lemma substring_all (s : string) : substring 0 (String.length s) s = s.
Proof.
  induction s as [|c s IH]; simpl; [reflexivity|]. now rewrite IH.
Qed.

Lemma replace_APP_prefix_app (s : string) : replace_APP_prefix ("APP-" ++ s) = s.
Proof.
  unfold replace_APP_prefix, startsWith. simpl.
  rewrite Nat.sub_0_r.
  replace (prefix "" s) with true by (destruct s; reflexivity).
  apply substring_all.
Qed.

Lemma startsWith_APP (s : string) : startsWith ("APP-" ++ s) "APP-" = true.
Proof. unfold startsWith. simpl. now destruct s. Qed.

Lemma lowerHex_not_dash (c : ascii) :
  isLowerHex c = true -> Ascii.eqb c "-"%char = false.
Proof.
  intros H. destruct (Ascii.eqb_spec c "-"%char) as [->|]; [|reflexivity].
  discriminate H.
Qed.

Lemma lowerHex_not_upper (c : ascii) : isLowerHex c = true -> isUpperHex c = false.
Proof.
  unfold isLowerHex, isUpperHex, isDigit. intros H.
  remember (nat_of_ascii c) as n. clear Heqn. leb_cases.
Qed.

Lemma dash_then_digits (c : ascii) (s d : string) :
  Ascii.eqb c "-"%char = false ->
  (Ascii.eqb c "-"%char && negb (isEmpty (s ++ d)) && allDigits (s ++ d)) = false.
Proof. intros ->. reflexivity. Qed.

(** A string of hexadecimal digits followed by a hyphen and digits loses
    exactly that tail. *)
Lemma replace_dash_digits_end_suffix (s d : string) :
  allChars isLowerHex s = true -> isEmpty d = false -> allDigits d = true ->
  replace_dash_digits_end (s ++ "-" ++ d) = s.
Proof.
  intros Hs Hd Hdig. induction s as [|c s IH]; simpl in *.
  - rewrite Hd, Hdig. reflexivity.
  - apply andb_true_iff in Hs as [Hc Hs].
    rewrite (lowerHex_not_dash c Hc). simpl. now rewrite IH.
Qed.

(** A string of hexadecimal digits has nothing to lose. *)
Lemma replace_dash_digits_end_hex (s : string) :
  allChars isLowerHex s = true -> replace_dash_digits_end s = s.
Proof.
  intros Hs. induction s as [|c s IH]; simpl in *; [reflexivity|].
  apply andb_true_iff in Hs as [Hc Hs].
  rewrite (lowerHex_not_dash c Hc). simpl. now rewrite IH.
Qed.

Lemma toLowerHex_hex (s : string) : allChars isLowerHex s = true -> toLowerHex s = s.
Proof.
  intros Hs. induction s as [|c s IH]; simpl in *; [reflexivity|].
  apply andb_true_iff in Hs as [Hc Hs].
  unfold lowerHexChar. rewrite (lowerHex_not_upper c Hc). now rewrite IH.
Qed.

Lemma allChars_weaken (p q : ascii -> bool) (s : string) :
  (forall c, p c = true -> q c = true) -> allChars p s = true -> allChars q s = true.
Proof.
  intros Hpq. induction s as [|c s IH]; simpl; [reflexivity|].
  intros H. apply andb_true_iff in H as [Hc Hs].
  now rewrite (Hpq c Hc), IH.
Qed.

(** The id of a stored document casts to itself. *)
Lemma castObjectId_hex (rt : Runtime) (id : string) :
  isObjectIdHex id = true -> castObjectId rt id = Some id.
Proof.
  unfold isObjectIdHex, castObjectId. intros H.
  apply andb_true_iff in H as [Hlen Hhex].
  rewrite Hlen. simpl.
  rewrite (allChars_weaken isLowerHex _ id); [|intros c Hc; now rewrite Hc|exact Hhex].
  now rewrite toLowerHex_hex.
Qed.

Lemma findById_hex (rt : Runtime) (db : Store) (id : string) :
  isObjectIdHex id = true ->
  findById rt db id = Ok (find (fun a => Application._id a =? id) db).
Proof.
  intros H. unfold findById. now rewrite castObjectId_hex.
Qed.

Lemma applicationIdOf_plain (id : string) :
  isObjectIdHex id = true -> Routes.applicationIdOf ("APP-" ++ id) = id.
Proof.
  intros H. unfold Routes.applicationIdOf. rewrite replace_APP_prefix_app.
  apply replace_dash_digits_end_hex.
  unfold isObjectIdHex in H. now apply andb_true_iff in H as [_ H].
Qed.

Lemma applicationIdOf_suffixed (id d : string) :
  isObjectIdHex id = true -> isEmpty d = false -> allDigits d = true ->
  Routes.applicationIdOf ("APP-" ++ id ++ "-" ++ d) = id.
Proof.
  intros H Hd Hdig. unfold Routes.applicationIdOf. rewrite replace_APP_prefix_app.
  apply replace_dash_digits_end_suffix; trivial.
  unfold isObjectIdHex in H. now apply andb_true_iff in H as [_ H].
Qed.

(** ** The store *)

Lemma find_save (a' : Application.t) (db : Store) :
  find (fun a => Application._id a =? Application._id a') (save a' db)
  = option_map (fun _ => a') (find (fun a => Application._id a =? Application._id a') db).
Proof.
  induction db as [|x db IH]; simpl; [reflexivity|].
  destruct (Application._id x =? Application._id a') eqn:E; simpl.
  - now rewrite String.eqb_refl.
  - now rewrite E.
Qed.

Lemma find_save_other (a' : Application.t) (db : Store) (id : string) :
  id <> Application._id a' ->
  option_map Application.status (find (fun a => Application._id a =? id) (save a' db))
  = option_map Application.status (find (fun a => Application._id a =? id) db).
Proof.
  intros Hne. induction db as [|x db IH]; simpl; [reflexivity|].
  destruct (Application._id x =? Application._id a') eqn:E; simpl.
  - apply String.eqb_eq in E.
    destruct (Application._id a' =? id) eqn:E1.
    + apply String.eqb_eq in E1. congruence.
    + rewrite E. rewrite E1. exact IH.
  - destruct (Application._id x =? id); [reflexivity|exact IH].
Qed.

(** [save] touches only documents with the id of the saved one, and
    replaces them by it. *)
Lemma save_Forall2 (a' : Application.t) (db : Store) :
  Forall2 (fun a b => b = a \/ (Application._id a = Application._id a' /\ b = a'))
          db (save a' db).
Proof.
  induction db as [|x db IH]; simpl; constructor; trivial.
  destruct (Application._id x =? Application._id a') eqn:E.
  - right. split; [now apply String.eqb_eq|reflexivity].
  - now left.
Qed.

Lemma Forall2_refl_on {A : Type} (R : A -> A -> Prop) (l : list A) :
  (forall x, R x x) -> Forall2 R l l.
Proof. intros HR. induction l; constructor; auto. Qed.

Lemma Forall2_trans_on {A : Type} (R : A -> A -> Prop) (l1 l2 l3 : list A) :
  (forall x y z, R x y -> R y z -> R x z) ->
  Forall2 R l1 l2 -> Forall2 R l2 l3 -> Forall2 R l1 l3.
Proof.
  intros HR H12. revert l3. induction H12; intros l3 H23; inversion H23; subst;
    constructor; eauto.
Qed.

Lemma Forall2_weaken {A : Type} (R S : A -> A -> Prop) (l1 l2 : list A) :
  (forall x y, R x y -> S x y) -> Forall2 R l1 l2 -> Forall2 S l1 l2.
Proof. intros HRS H. induction H; constructor; auto. Qed.

Lemma status_eqb_eq (a b : Status) : status_eqb a b = true <-> a = b.
Proof. destruct a, b; simpl; split; intros H; congruence. Qed.

(** ** The webhook handler *)

Section Webhook.
Variable rt : Runtime.

Lemma settled_fields (id reference amount : value) (a a' : Application.t) :
  Routes.settled rt id reference amount a = Ok a' ->
  Application._id a' = Application._id a
  /\ Application.status a' = submitted
  /\ pairOf a' = pairOf a.
Proof.
  unfold Routes.settled. intros H.
  destruct (String_ rt (coalesce id reference)) as [txid|]; simpl in H; [|discriminate].
  destruct (nullish amount).
  - inversion H; subst. now simpl.
  - destruct (Number rt amount) as [n|]; simpl in H; [|discriminate].
    inversion H; subst. now simpl.
Qed.

Lemma startsWith_APP_nonempty (ref : string) :
  startsWith ref "APP-" = true -> truthy (VStr ref) = true.
Proof. destruct ref; simpl; [discriminate|reflexivity]. Qed.

(** The handler on a success event whose reference carries the prefix:
    the lookup by the recovered id, then the transition. *)
Lemma handler_on_reference (req : Routes.Delivery) (db : Store) (body : value)
      (ref : string) :
  Routes.parseBody rt req = Some body ->
  is_string (get body "event") "charge.success" = true ->
  get (get body "data") "reference" = VStr ref ->
  startsWith ref "APP-" = true ->
  Routes.paystackWebhookHandler rt req db
  = match findById rt db (Routes.applicationIdOf ref) with
    | Throw e => (Rejected e, db)
    | Ok found =>
        Routes.settle rt (get (get body "data") "id") (VStr ref)
          (get (get body "data") "amount") found db
    end.
Proof.
  intros Hparse Hev Href Hpre.
  unfold Routes.paystackWebhookHandler, Routes.processEvent. rewrite Hparse, Hev, Href.
  assert (Hdata : truthy (get body "data") = true).
  { destruct (get body "data"); simpl in Href; try discriminate. reflexivity. }
  rewrite Hdata, (startsWith_APP_nonempty ref Hpre), Hpre. reflexivity.
Qed.

(** What a delivery that ends in [save] went through. *)
Lemma handler_Saved (req : Routes.Delivery) (db db1 : Store) :
  Routes.paystackWebhookHandler rt req db = (Saved, db1) ->
  exists body ref a a',
    Routes.parseBody rt req = Some body
    /\ is_string (get body "event") "charge.success" = true
    /\ get (get body "data") "reference" = VStr ref
    /\ startsWith ref "APP-" = true
    /\ findById rt db (Routes.applicationIdOf ref) = Ok (Some a)
    /\ Application.status a = pending_payment
    /\ Routes.settled rt (get (get body "data") "id") (VStr ref)
         (get (get body "data") "amount") a = Ok a'
    /\ db1 = save a' db.
Proof.
  unfold Routes.paystackWebhookHandler, Routes.processEvent. intros H.
  destruct (Routes.parseBody rt req) as [body|]; [|discriminate].
  destruct (is_string (get body "event") "charge.success") eqn:Hev; [|discriminate].
  destruct (truthy (get body "data")); simpl in H; [|discriminate].
  destruct (truthy (get (get body "data") "reference")); simpl in H; [|discriminate].
  destruct (get (get body "data") "reference") as [| | | |ref| |] eqn:Href; try discriminate.
  destruct (startsWith ref "APP-") eqn:Hpre; simpl in H; [|discriminate].
  destruct (findById rt db (Routes.applicationIdOf ref)) as [[a|]|] eqn:Hfind;
    simpl in H; try discriminate.
  destruct (status_eqb (Application.status a) pending_payment) eqn:Hst;
    simpl in H; [|discriminate].
  destruct (Routes.settled rt _ _ _ a) as [a'|] eqn:Hset; [|discriminate].
  exists body, ref, a, a'. apply status_eqb_eq in Hst.
  inversion H; subst. auto 10.
Qed.

(** A delivery either ends in [save] or leaves the store as it was. *)
Lemma handler_not_Saved (req : Routes.Delivery) (db : Store) :
  fst (Routes.paystackWebhookHandler rt req db) <> Saved ->
  snd (Routes.paystackWebhookHandler rt req db) = db.
Proof.
  unfold Routes.paystackWebhookHandler, Routes.processEvent, Routes.settle.
  repeat match goal with
         | |- context [match ?x with _ => _ end] => destruct x; simpl; try congruence
         end.
Qed.

Lemma findById_found (db : Store) (id : string) (a : Application.t) :
  findById rt db id = Ok (Some a) ->
  exists oid, castObjectId rt id = Some oid /\ Application._id a = oid
              /\ find (fun x => Application._id x =? oid) db = Some a.
Proof.
  unfold findById. destruct (castObjectId rt id) as [oid|]; simpl; [|discriminate].
  intros H. inversion H as [Hf]. exists oid. repeat split.
  apply find_some in Hf as [_ Hf]. now apply String.eqb_eq.
Qed.

End Webhook.

(** ** Amounts *)

Lemma Qred_inject_Z (z : Z) : Qred (inject_Z z) = inject_Z z.
Proof.
  unfold Qred, inject_Z.
  generalize (Z.ggcd_gcd z 1) (Z.ggcd_correct_divisors z 1).
  destruct (Z.ggcd z 1) as [g [aa bb]]. simpl. intros Hg [Ha Hb].
  rewrite Z.gcd_1_r in Hg. subst g.
  destruct aa, bb; simpl in *; subst; try discriminate; try reflexivity;
    inversion Hb; reflexivity.
Qed.

Lemma pow2_nonneg (e : Z) : (0 <= e)%Z -> pow2 e = inject_Z (2 ^ e).
Proof. intros H. unfold pow2. apply Z.leb_le in H. now rewrite H. Qed.

Lemma pow2_neg (e : Z) : (e < 0)%Z -> pow2 e = Qmake 1 (Z.to_pos (2 ^ (- e))).
Proof. intros H. unfold pow2. apply Z.leb_gt in H. now rewrite H. Qed.

Lemma pow2_positive (e : Z) : (0 < pow2 e)%Q.
Proof.
  unfold pow2. destruct (0 <=? e)%Z eqn:E.
  - apply Z.leb_le in E. unfold Qlt, inject_Z. simpl.
    rewrite Z.mul_1_r. apply Z.pow_pos_nonneg; lia.
  - reflexivity.
Qed.

(** An integer [m * 2^s] is [m * 2^(s - e)] units of [2^e], for every
    exponent [e] up to [s]. *)
Lemma scale_pow2 (m s e : Z) :
  (0 <= s)%Z -> (e <= s)%Z ->
  (inject_Z (m * 2 ^ (s - e)) * pow2 e == inject_Z (m * 2 ^ s))%Q.
Proof.
  intros Hs He. destruct (Z.le_gt_cases 0 e) as [H|H].
  - rewrite (pow2_nonneg e H), <- inject_Z_mult.
    rewrite <- Z.mul_assoc, <- Z.pow_add_r by lia.
    replace (s - e + e)%Z with s by lia. reflexivity.
  - rewrite (pow2_neg e H). unfold Qeq, Qmult, inject_Z. cbn [Qnum Qden].
    rewrite Pos.mul_1_l, Z2Pos.id by (apply Z.pow_pos_nonneg; lia).
    rewrite !Z.mul_1_r. replace (s - e)%Z with (s + - e)%Z by lia.
    rewrite Z.pow_add_r by lia. ring.
Qed.

Lemma nearestEven_int (q : Q) (c : Z) : (q == inject_Z c)%Q -> nearestEven q = c.
Proof.
  intros H. unfold nearestEven.
  assert (Hf : Qfloor q = c) by (rewrite H; apply Qfloor_Z).
  rewrite Hf.
  assert (Hc : ((q - inject_Z c) ?= (1 # 2))%Q = Lt).
  { rewrite H. apply Qlt_alt. setoid_replace (inject_Z c - inject_Z c)%Q with 0%Q by ring.
    reflexivity. }
  now rewrite Hc.
Qed.

Lemma ilog2_int (z : Z) : (0 < z)%Z -> ilog2 (inject_Z z) = Z.log2 z.
Proof.
  intros Hz. unfold ilog2, inject_Z. cbn [Qnum Qden].
  change (Z.log2 1) with 0%Z. rewrite Z.sub_0_r.
  assert (H : Qle_bool (pow2 (Z.log2 z)) (Qmake z 1) = true).
  { apply Qle_bool_iff. rewrite pow2_nonneg by apply Z.log2_nonneg.
    unfold Qle, inject_Z. cbn [Qnum Qden]. rewrite !Z.mul_1_r.
    apply Z.log2_spec. exact Hz. }
  now rewrite H.
Qed.

(** An integer with at most 53 significant bits is a binary64 number:
    rounding leaves it as it is. *)
Lemma round64_dyadic (q : Q) (m s : Z) :
  (q == inject_Z (m * 2 ^ s))%Q ->
  (0 <= s)%Z -> (Z.abs m < 2 ^ 53)%Z -> (Z.abs (m * 2 ^ s) < 2 ^ 1024)%Z ->
  round64 q = num_of_Z (m * 2 ^ s).
Proof.
  intros Hq Hs Hm Hbig. unfold round64.
  rewrite (Qred_complete _ _ Hq), Qred_inject_Z. cbv zeta.
  set (z := (m * 2 ^ s)%Z) in *.
  destruct (Z.eq_dec z 0) as [Hz|Hz].
  - rewrite Hz. reflexivity.
  - assert (Hnz : Qeq_bool (inject_Z z) 0 = false).
    { destruct (Qeq_bool (inject_Z z) 0) eqn:E; [|reflexivity].
      apply Qeq_bool_iff in E. unfold Qeq, inject_Z in E. simpl in E. lia. }
    rewrite Hnz.
    change (Qabs (inject_Z z)) with (inject_Z (Z.abs z)).
    rewrite ilog2_int by lia.
    assert (Hpow : (0 < 2 ^ s)%Z) by (apply Z.pow_pos_nonneg; lia).
    assert (HL : (Z.log2 (Z.abs z) < 53 + s)%Z).
    { apply Z.log2_lt_pow2; [lia|]. unfold z. rewrite Z.abs_mul, (Z.abs_eq (2 ^ s)) by lia.
      rewrite Z.pow_add_r by lia. apply Z.mul_lt_mono_pos_r; lia. }
    pose proof (Z.log2_nonneg (Z.abs z)) as HL0.
    set (e := Z.max (Z.log2 (Z.abs z) - 52) (-1074)).
    assert (He : (e <= s)%Z) by (unfold e; lia).
    pose proof (scale_pow2 m s e Hs He) as Hscale. fold z in Hscale.
    assert (Hdiv : (inject_Z z / pow2 e == inject_Z (m * 2 ^ (s - e)))%Q).
    { rewrite <- Hscale. apply Qdiv_mult_l.
      intros H0. pose proof (pow2_positive e) as Hp. rewrite H0 in Hp. discriminate. }
    rewrite (nearestEven_int _ _ Hdiv).
    assert (Hov : Qle_bool (pow2 1024) (Qabs (inject_Z (m * 2 ^ (s - e)) * pow2 e)) = false).
    { destruct (Qle_bool _ _) eqn:E; [|reflexivity].
      apply Qle_bool_iff in E. rewrite Hscale in E.
      change (Qabs (inject_Z z)) with (inject_Z (Z.abs z)) in E.
      rewrite pow2_nonneg in E by lia. rewrite <- Zle_Qle in E. lia. }
    rewrite Hov. unfold num_of_Z. f_equal.
    rewrite (Qred_complete _ _ Hscale). apply Qred_inject_Z.
Qed.

(** Every integer of magnitude below [2^53] is a binary64 number. *)
Lemma round64_int (q : Q) (z : Z) :
  (q == inject_Z z)%Q -> (Z.abs z < 2 ^ 53)%Z -> round64 q = num_of_Z z.
Proof.
  intros Hq Hz.
  assert (H1 : (z * 2 ^ 0)%Z = z) by (change (2 ^ 0)%Z with 1%Z; lia).
  rewrite <- H1. apply round64_dyadic; rewrite ?H1; trivial; [lia|].
  eapply Z.lt_trans; [exact Hz|]. apply Z.pow_lt_mono_r; lia.
Qed.

Lemma times100_int (n : Z) :
  (Z.abs n < wholeAmountLimit)%Z -> times100 (num_of_Z n) = num_of_Z (n * 100).
Proof.
  unfold wholeAmountLimit. intros Hn. unfold times100, rounded, num_of_Z.
  assert (Hbig : (Z.abs (n * 100) < 2 ^ 1024)%Z).
  { eapply Z.lt_trans; [|apply (Z.pow_lt_mono_r 2 56 1024); lia].
    change (2 ^ 56)%Z with 72057594037927936%Z. lia. }
  destruct (Z.lt_ge_cases (Z.abs (n * 100)) (2 ^ 55)) as [Hsmall|Hlarge].
  - replace (n * 100)%Z with (n * 25 * 2 ^ 2)%Z in *
      by (change (2 ^ 2)%Z with 4%Z; lia).
    apply round64_dyadic; trivial.
    + rewrite <- inject_Z_mult. change (2 ^ 2)%Z with 4%Z.
      replace (n * 25 * 4)%Z with (n * 100)%Z by lia. reflexivity.
    + lia.
    + change (2 ^ 55)%Z with (4 * 2 ^ 53)%Z in Hsmall.
      change (2 ^ 2)%Z with 4%Z in Hsmall. lia.
  - change (2 ^ 55)%Z with 36028797018963968%Z in Hlarge.
    assert (Hhalf : exists h, n = (2 * h)%Z /\ (Z.abs h <= 180143985094820)%Z).
    { assert (n = 360287970189640 \/ n = -360287970189640)%Z as [->| ->] by lia;
        [exists 180143985094820%Z|exists (-180143985094820)%Z]; split;
        try reflexivity; simpl; lia. }
    destruct Hhalf as (h & -> & Hh).
    replace (2 * h * 100)%Z with (h * 25 * 2 ^ 3)%Z in *
      by (change (2 ^ 3)%Z with 8%Z; lia).
    apply round64_dyadic; trivial.
    + rewrite <- inject_Z_mult. change (2 ^ 3)%Z with 8%Z.
      replace (h * 25 * 8)%Z with (2 * h * 100)%Z by lia. reflexivity.
    + lia.
    + change (2 ^ 53)%Z with 9007199254740992%Z. lia.
Qed.

Lemma Math_round_int (z : Z) : Math_round (num_of_Z z) = num_of_Z z.
Proof.
  unfold Math_round, num_of_Z. do 2 f_equal.
  unfold Qfloor, Qplus, inject_Z. cbn [Qnum Qden Pos.mul].
  replace (z * 2 + 1 * 1)%Z with (1 + z * 2)%Z by lia.
  rewrite Z.div_add by lia. reflexivity.
Qed.

Lemma div100_int (n : Z) :
  (Z.abs n < 2 ^ 53)%Z -> div100 (num_of_Z (n * 100)) = num_of_Z n.
Proof.
  intros Hn. unfold div100, rounded, num_of_Z. apply round64_int; [|exact Hn].
  rewrite inject_Z_mult. field.
Qed.

(** A whole amount below the limit becomes a hundred times itself. *)
Lemma amountInSmallest_int (rt : Runtime) (n : Z) :
  (Z.abs n < wholeAmountLimit)%Z ->
  Paystack.amountInSmallest rt (VNum (num_of_Z n)) = Ok (num_of_Z (n * 100)).
Proof.
  intros Hn. unfold Paystack.amountInSmallest.
  change (Number rt (VNum (num_of_Z n))) with (Some (num_of_Z n)).
  unfold of_option, bind. now rewrite times100_int, Math_round_int.
Qed.

(** ** Redelivery *)

(** After a delivery that saved, the same delivery stops. *)
Lemma handler_after_Saved (rt : Runtime) (req : Routes.Delivery)
        (db db1 : Store) :
  Routes.paystackWebhookHandler rt req db = (Saved, db1) ->
  Routes.paystackWebhookHandler rt req db1 = (Stopped, db1)
  /\ exists a a',
      In a db
      /\ Application.status a = pending_payment
      /\ Application._id a' = Application._id a
      /\ Application.status a' = submitted
      /\ db1 = save a' db
      /\ find (fun x => Application._id x =? Application._id a) db1 = Some a'.
Proof.
  intros H.
  destruct (handler_Saved rt req db db1 H)
    as (body & ref & a & a' & Hparse & Hev & Href & Hpre & Hfind & Hst & Hset & ->).
  destruct (settled_fields rt _ _ _ a a' Hset) as (Hid & Hst' & _).
  destruct (findById_found rt db _ a Hfind) as (oid & Hcast & Hoid & Hf).
  assert (Hf1 : find (fun x => Application._id x =? Application._id a) (save a' db) = Some a').
  { rewrite <- Hid, find_save, Hid, Hoid, Hf. reflexivity. }
  split.
  - rewrite (handler_on_reference rt req (save a' db) body ref Hparse Hev Href Hpre).
    unfold findById. rewrite Hcast. simpl. rewrite <- Hoid, Hf1.
    unfold Routes.settle. rewrite Hst'. reflexivity.
  - exists a, a'. repeat split; trivial.
    now apply find_some in Hf as [Hin _].
Qed.




(** Applying a delivery twice leaves the store as applying it once. *)
Lemma webhook_idempotent (rt : Runtime) (req : Routes.Delivery) (db : Store) :
  snd (Routes.paystackWebhookHandler rt req
         (snd (Routes.paystackWebhookHandler rt req db)))
  = snd (Routes.paystackWebhookHandler rt req db).
Proof.
  destruct (Routes.paystackWebhookHandler rt req db) as [o db1] eqn:H.
  assert (Hcases : o = Saved \/ db1 = db).
  { destruct o; [right|right|now left];
      rewrite <- (handler_not_Saved rt req db); rewrite H; simpl; congruence. }
  destruct Hcases as [->| ->].
  - simpl. now rewrite (proj1 (handler_after_Saved rt req db db1 H)).
  - simpl. now rewrite H.
Qed.

(** ** The reference convention *)

Lemma append_empty_r (s : string) : s ++ "" = s.
Proof. induction s as [|c s IH]; simpl; [reflexivity|now rewrite IH]. Qed.

Lemma settle_touches_one (rt : Runtime) (id reference amount : value)
      (found : option Application.t) (db : Store) (oid : string) :
  (forall a, found = Some a -> Application._id a = oid) ->
  Forall2 (fun a b => Application._id a <> oid -> b = a) db
          (snd (Routes.settle rt id reference amount found db)).
Proof.
  intros Hid. unfold Routes.settle.
  destruct found as [a|]; simpl; [|apply Forall2_refl_on; auto].
  destruct (status_eqb (Application.status a) pending_payment); simpl;
    [|apply Forall2_refl_on; auto].
  destruct (Routes.settled rt id reference amount a) as [a'|] eqn:Hset; simpl;
    [|apply Forall2_refl_on; auto].
  destruct (settled_fields rt _ _ _ a a' Hset) as (Hid' & _).
  eapply Forall2_weaken; [|apply save_Forall2].
  intros x y [->|[Hx ->]] Hne; [reflexivity|].
  exfalso. apply Hne. rewrite Hx, Hid'. now apply Hid.
Qed.

(** C6.  On a delivery whose payload carries the reference [ref]: if [ref]
    lacks the prefix [APP-] the handler stops and the store is unchanged;
    if [ref] is [APP-<id>] or [APP-<id>-<digits>] for a document id, a
    success event recovers exactly [id], proceeds with the application
    stored under [id], and leaves every other application as it was. *)
Theorem webhook_reference_resolution (rt : Runtime) (req : Routes.Delivery)
        (db : Store) (body : value) (ref : string) :
  Routes.parseBody rt req = Some body ->
  get (get body "data") "reference" = VStr ref ->
  (startsWith ref "APP-" = false ->
   Routes.paystackWebhookHandler rt req db = (Stopped, db))
  /\ (forall id suffix : string,
        ref = "APP-" ++ id ++ suffix ->
        isObjectIdHex id = true ->
        suffix = ""
        \/ (exists d, suffix = "-" ++ d /\ isEmpty d = false /\ allDigits d = true) ->
        is_string (get body "event") "charge.success" = true ->
        Routes.applicationIdOf ref = id
        /\ Routes.paystackWebhookHandler rt req db
           = Routes.settle rt (get (get body "data") "id") (VStr ref)
               (get (get body "data") "amount")
               (find (fun a => Application._id a =? id) db) db
        /\ Forall2 (fun a b => Application._id a <> id -> b = a) db
             (snd (Routes.paystackWebhookHandler rt req db))).
Proof.
  intros Hparse Href. split.
  - intros Hpre. unfold Routes.paystackWebhookHandler, Routes.processEvent.
    rewrite Hparse, Href, Hpre. simpl.
    destruct (negb (is_string (get body "event") "charge.success")
              || negb (truthy (get body "data"))); [reflexivity|].
    destruct (ref =? ""); reflexivity.
  - intros id suffix Hform Hhex Hsuffix Hev.
    assert (Hid : Routes.applicationIdOf ref = id).
    { subst ref. destruct Hsuffix as [->|(d & -> & Hd & Hdig)].
      - rewrite append_empty_r. now apply applicationIdOf_plain.
      - now apply applicationIdOf_suffixed. }
    assert (Hpre : startsWith ref "APP-" = true).
    { subst ref. apply startsWith_APP. }
    assert (Heq : Routes.paystackWebhookHandler rt req db
                  = Routes.settle rt (get (get body "data") "id") (VStr ref)
                      (get (get body "data") "amount")
                      (find (fun a => Application._id a =? id) db) db).
    { rewrite (handler_on_reference rt req db body ref Hparse Hev Href Hpre).
      rewrite Hid, (findById_hex rt db id Hhex). reflexivity. }
    repeat split; trivial.
    rewrite Heq. apply settle_touches_one.
    intros a Hf. apply find_some in Hf as [_ Hf]. now apply String.eqb_eq.
Qed.

Lemma webhook_reference_resolution_witness :
  Routes.paystackWebhookHandler host (deliver foreignRaw "") [pendingApp]
  = (Stopped, [pendingApp])
  /\ Routes.applicationIdOf "APP-65f0a1b2c3d4e5f6a7b8c9d1-1700000000000" = appId
  /\ Routes.paystackWebhookHandler host (deliver paidRaw "") [pendingApp]
     = Routes.settle host (get (get paidBody "data") "id")
         (VStr "APP-65f0a1b2c3d4e5f6a7b8c9d1-1700000000000")
         (get (get paidBody "data") "amount")
         (find (fun a => Application._id a =? appId) [pendingApp]) [pendingApp]
  /\ Forall2 (fun a b => Application._id a <> appId -> b = a) [pendingApp]
       (snd (Routes.paystackWebhookHandler host (deliver paidRaw "") [pendingApp])).
Proof.
  split.
  - apply (proj1 (webhook_reference_resolution host (deliver foreignRaw "") [pendingApp]
                    foreignBody "INV-42" eq_refl eq_refl)).
    reflexivity.
  - apply (proj2 (webhook_reference_resolution host (deliver paidRaw "") [pendingApp]
                    paidBody "APP-65f0a1b2c3d4e5f6a7b8c9d1-1700000000000"
                    eq_refl eq_refl) appId "-1700000000000").
    + reflexivity.
    + reflexivity.
    + right. exists "1700000000000". repeat split.
    + reflexivity.
Defined.

(** ** Events without an amount *)

(** C10.  A success event whose payload has no [amount], for an application
    in [pending_payment]: that application is saved as [submitted], its
    [paymentTransactionId] is the provider's transaction id as a string, or
    the reference when the payload has no [id] either, and [amountPaid] is
    what it was; it is what the store holds under its id afterwards. *)
Theorem webhook_without_amount (rt : Runtime) (req : Routes.Delivery) (db : Store)
        (body : value) (ref txid : string) (a : Application.t) :
  Routes.parseBody rt req = Some body ->
  is_string (get body "event") "charge.success" = true ->
  get (get body "data") "reference" = VStr ref ->
  startsWith ref "APP-" = true ->
  get (get body "data") "amount" = VUndefined ->
  findById rt db (Routes.applicationIdOf ref) = Ok (Some a) ->
  Application.status a = pending_payment ->
  String_ rt (coalesce (get (get body "data") "id") (VStr ref)) = Some txid ->
  exists a',
    Routes.paystackWebhookHandler rt req db = (Saved, save a' db)
    /\ In a db
    /\ Application._id a' = Application._id a
    /\ find (fun x => Application._id x =? Application._id a)
            (snd (Routes.paystackWebhookHandler rt req db)) = Some a'
    /\ Application.status a' = submitted
    /\ Application.paymentTransactionId a' = VStr txid
    /\ Application.amountPaid a' = Application.amountPaid a
    /\ (nullish (get (get body "data") "id") = true -> txid = ref)
    /\ (nullish (get (get body "data") "id") = false ->
        String_ rt (get (get body "data") "id") = Some txid).
Proof.
  intros Hparse Hev Href Hpre Hamount Hfind Hst Htx.
  set (a' := Application.set_paymentTransactionId (VStr txid)
               (Application.set_status submitted a)).
  exists a'.
  destruct (findById_found rt db _ a Hfind) as (oid & _ & Hoid & Hf).
  assert (Hrun : Routes.paystackWebhookHandler rt req db = (Saved, save a' db)).
  { rewrite (handler_on_reference rt req db body ref Hparse Hev Href Hpre), Hfind.
    unfold Routes.settle, Routes.settled. rewrite Hst, Htx, Hamount. reflexivity. }
  rewrite Hrun. cbn [snd]. repeat split; trivial.
  - now apply find_some in Hf as [Hin _].
  - change (Application._id a) with (Application._id a').
    rewrite find_save. change (Application._id a') with (Application._id a).
    now rewrite Hoid, Hf.
  - intros Hnull. unfold coalesce in Htx. rewrite Hnull in Htx. simpl in Htx. congruence.
  - intros Hnull. unfold coalesce in Htx. now rewrite Hnull in Htx.
Qed.

Lemma webhook_without_amount_witness :
  exists a',
    Routes.paystackWebhookHandler host (deliver bareRaw "") [pendingApp]
    = (Saved, save a' [pendingApp])
    /\ In pendingApp [pendingApp]
    /\ Application._id a' = Application._id pendingApp
    /\ find (fun x => Application._id x =? Application._id pendingApp)
            (snd (Routes.paystackWebhookHandler host (deliver bareRaw "") [pendingApp]))
       = Some a'
    /\ Application.status a' = submitted
    /\ Application.paymentTransactionId a' = VStr "APP-65f0a1b2c3d4e5f6a7b8c9d1"
    /\ Application.amountPaid a' = Application.amountPaid pendingApp
    /\ (nullish (get (get bareBody "data") "id") = true ->
        "APP-65f0a1b2c3d4e5f6a7b8c9d1" = "APP-65f0a1b2c3d4e5f6a7b8c9d1")
    /\ (nullish (get (get bareBody "data") "id") = false ->
        String_ host (get (get bareBody "data") "id")
        = Some "APP-65f0a1b2c3d4e5f6a7b8c9d1").
Proof.
  apply (webhook_without_amount host (deliver bareRaw "") [pendingApp] bareBody
           "APP-65f0a1b2c3d4e5f6a7b8c9d1" "APP-65f0a1b2c3d4e5f6a7b8c9d1" pendingApp);
    reflexivity.
Defined.

(** ** The amount, there and back *)

(** C8, as the code has it.  An integer amount [n] of whole units whose
    magnitude is below 360287970189641 leaves the adapter as
    [round(n * 100)], which is [n * 100]; when the success event brings
    that number back, the handler divides it by 100 and the application
    that the reference names is saved with [amountPaid = n]: it is what
    the store holds under its id afterwards. *)
Theorem amount_round_trip (rt : Runtime) (env : Env) (n : Z)
        (args : Paystack.InitArgs) (sent : Paystack.InitBody)
        (req : Routes.Delivery) (db : Store) (body : value) (ref txid : string)
        (a : Application.t) :
  (Z.abs n < wholeAmountLimit)%Z ->
  Paystack.amount args = VNum (num_of_Z n) ->
  Paystack.initBody rt env args = Ok sent ->
  Routes.parseBody rt req = Some body ->
  is_string (get body "event") "charge.success" = true ->
  get (get body "data") "reference" = VStr ref ->
  startsWith ref "APP-" = true ->
  get (get body "data") "amount" = VNum (Paystack.body_amount sent) ->
  findById rt db (Routes.applicationIdOf ref) = Ok (Some a) ->
  Application.status a = pending_payment ->
  String_ rt (coalesce (get (get body "data") "id") (VStr ref)) = Some txid ->
  Paystack.body_amount sent = num_of_Z (n * 100)
  /\ exists a',
      Routes.paystackWebhookHandler rt req db = (Saved, save a' db)
      /\ In a db
      /\ Application._id a' = Application._id a
      /\ find (fun x => Application._id x =? Application._id a)
              (snd (Routes.paystackWebhookHandler rt req db)) = Some a'
      /\ Application.status a' = submitted
      /\ Application.amountPaid a' = VNum (num_of_Z n).
Proof.
  intros Hn Hamt Hsent Hparse Hev Href Hpre Hback Hfind Hst Htx.
  assert (Hsub : Paystack.body_amount sent = num_of_Z (n * 100)).
  { unfold Paystack.initBody in Hsent.
    destruct (Paystack.configured (PAYSTACK_SECRET_KEY env)); [|discriminate].
    rewrite Hamt, (amountInSmallest_int rt n Hn) in Hsent. simpl in Hsent.
    inversion Hsent; subst. reflexivity. }
  split; [exact Hsub|].
  set (a' := Application.set_amountPaid (VNum (num_of_Z n))
               (Application.set_paymentTransactionId (VStr txid)
                  (Application.set_status submitted a))).
  exists a'.
  destruct (findById_found rt db _ a Hfind) as (oid & _ & Hoid & Hf).
  assert (Hsafe : (Z.abs n < 2 ^ 53)%Z).
  { unfold wholeAmountLimit in Hn. change (2 ^ 53)%Z with 9007199254740992%Z. lia. }
  assert (Hrun : Routes.paystackWebhookHandler rt req db = (Saved, save a' db)).
  { rewrite (handler_on_reference rt req db body ref Hparse Hev Href Hpre), Hfind.
    unfold Routes.settle, Routes.settled. rewrite Hst, Htx, Hback, Hsub.
    cbn [status_eqb negb of_option bind nullish Number].
    now rewrite (div100_int n Hsafe). }
  rewrite Hrun. cbn [snd]. repeat split; trivial.
  - now apply find_some in Hf as [Hin _].
  - change (Application._id a) with (Application._id a').
    rewrite find_save. change (Application._id a') with (Application._id a).
    now rewrite Hoid, Hf.
Qed.

Lemma amount_round_trip_witness :
  Paystack.body_amount firstBody = num_of_Z (350 * 100)
  /\ exists a',
      Routes.paystackWebhookHandler host (deliver paidRaw "") [pendingApp]
      = (Saved, save a' [pendingApp])
      /\ In pendingApp [pendingApp]
      /\ Application._id a' = Application._id pendingApp
      /\ find (fun x => Application._id x =? Application._id pendingApp)
              (snd (Routes.paystackWebhookHandler host (deliver paidRaw "") [pendingApp]))
         = Some a'
      /\ Application.status a' = submitted
      /\ Application.amountPaid a' = VNum (num_of_Z 350).
Proof.
  apply (amount_round_trip host (envWith "sk_live_1") 350 firstRequest firstBody
           (deliver paidRaw "") [pendingApp] paidBody
           "APP-65f0a1b2c3d4e5f6a7b8c9d1-1700000000000" "4099260516" pendingApp);
    reflexivity.
Defined.

(** C8, as the claim has it: the whole amount 360287970189641 does not
    come back.  Its product by 100 lies halfway between two binary64
    numbers, so the adapter sends 36028797018964096, and the handler,
    given that number back, stores 360287970189640.9375. *)
Lemma amount_round_trip_fails :
  Paystack.amount costlyRequest = VNum (num_of_Z 360287970189641)
  /\ Paystack.initBody (hostWith [costlyBody]) (envWith "sk_live_1") costlyRequest
     = Ok costlySent
  /\ Paystack.body_amount costlySent = num_of_Z 36028797018964096
  /\ get (get costlyBody "data") "amount" = VNum (Paystack.body_amount costlySent)
  /\ Routes.paystackWebhookHandler (hostWith [costlyBody])
       (deliver (jsonText costlyBody) "") [pendingApp]
     = (Saved, [shortApp])
  /\ Application.amountPaid shortApp = VNum (Num (Qmake 5764607523034255 16))
  /\ Application.amountPaid shortApp <> VNum (num_of_Z 360287970189641).
Proof.
  split; [reflexivity|]. split; [vm_compute; reflexivity|].
  split; [reflexivity|]. split; [reflexivity|].
  split; [vm_compute; reflexivity|].
  split; [reflexivity|]. discriminate.
Qed.

(** ** The owner's update *)

Lemma NoDup_map_In_eq {A B : Type} (f : A -> B) (l : list A) (x y : A) :
  NoDup (map f l) -> In x l -> In y l -> f x = f y -> x = y.
Proof.
  induction l as [|z l IH]; simpl; [tauto|].
  intros Hnd Hx Hy Hf. inversion Hnd as [|? ? Hnotin Hnd']; subst.
  destruct Hx as [->|Hx], Hy as [->|Hy]; trivial.
  - exfalso. apply Hnotin. rewrite Hf. now apply in_map.
  - exfalso. apply Hnotin. rewrite <- Hf. now apply in_map.
  - now apply IH.
Qed.

(** Saving a new version of a stored document relates every document to
    its successor by any reflexive relation that relates the two versions. *)
Lemma save_frame (R : Application.t -> Application.t -> Prop)
      (a a' : Application.t) (db : Store) :
  uniqueIds db -> In a db -> Application._id a' = Application._id a ->
  (forall x, R x x) -> R a a' ->
  Forall2 R db (save a' db).
Proof.
  intros Hnd Ha Hid Hrefl HR.
  eapply Forall2_weaken with
    (R := fun x y => In x db /\ (y = x \/ (Application._id x = Application._id a' /\ y = a'))).
  - intros x y [Hin [->|[Hx ->]]]; [apply Hrefl|].
    assert (x = a) as ->; [|exact HR].
    apply (NoDup_map_In_eq Application._id db); trivial. congruence.
  - assert (Hsub : forall l, incl l db ->
              Forall2 (fun x y => In x db /\
                         (y = x \/ (Application._id x = Application._id a' /\ y = a')))
                      l (save a' l)).
    { induction l as [|z l IH]; intros Hincl; simpl; constructor.
      - split; [apply Hincl; now left|].
        destruct (Application._id z =? Application._id a') eqn:E.
        + right. split; [now apply String.eqb_eq|reflexivity].
        + now left.
      - apply IH. intros w Hw. apply Hincl. now right. }
    apply Hsub, incl_refl.
Qed.

Lemma sameExceptCoverLetter_refl (a : Application.t) : sameExceptCoverLetter a a.
Proof. unfold sameExceptCoverLetter. repeat split. Qed.

Lemma sameExceptCoverLetter_set (v : value) (a : Application.t) :
  sameExceptCoverLetter a (Application.set_coverLetter v a).
Proof. unfold sameExceptCoverLetter. repeat split. Qed.

Lemma findOwned_found (rt : Runtime) (db : Store) (id userId : string)
      (a : Application.t) :
  findOwned rt db id userId = Ok (Some a) -> In a db.
Proof.
  unfold findOwned. destruct (castObjectId rt id); simpl; [|discriminate].
  intros H. inversion H as [Hf]. now apply find_some in Hf as [Hin _].
Qed.

(** C9.  [PATCH /:id] on a collection with unique ids: every application
    is, after the request, what it was before except possibly for its
    cover letter; and two request bodies that agree on [coverLetter]
    have the same effect and the same response. *)
Theorem owner_update_frame (rt : Runtime) (u : User.t) (id : string) (body : value)
        (db : Store) :
  uniqueIds db ->
  Forall2 sameExceptCoverLetter db (snd (Routes.updateApplication rt u id body db))
  /\ forall body' : value,
      nullish body = false -> nullish body' = false ->
      get body' "coverLetter" = get body "coverLetter" ->
      Routes.updateApplication rt u id body' db = Routes.updateApplication rt u id body db.
Proof.
  intros Hnd. split.
  - unfold Routes.updateApplication, caught.
    destruct (findOwned rt db id (User._id u)) as [[a|]|] eqn:Hfind; simpl;
      try (apply Forall2_refl_on, sameExceptCoverLetter_refl).
    apply findOwned_found in Hfind.
    destruct (negb (status_eqb (Application.status a) pending_payment)
              && negb (status_eqb (Application.status a) submitted)); simpl;
      [apply Forall2_refl_on, sameExceptCoverLetter_refl|].
    destruct (nullish body); simpl;
      [apply Forall2_refl_on, sameExceptCoverLetter_refl|].
    destruct (get body "coverLetter") eqn:Hc;
      (apply (save_frame sameExceptCoverLetter a); trivial;
       [apply sameExceptCoverLetter_refl
       |try apply sameExceptCoverLetter_refl; apply sameExceptCoverLetter_set]).
  - intros body' Hn Hn' Heq. unfold Routes.updateApplication.
    now rewrite Hn, Hn', Heq.
Qed.

Lemma owner_update_frame_witness :
  Forall2 sameExceptCoverLetter [pendingApp]
    (snd (Routes.updateApplication host alice appId patchBody [pendingApp]))
  /\ Routes.updateApplication host alice appId patchBodyPlain [pendingApp]
     = Routes.updateApplication host alice appId patchBody [pendingApp].
Proof.
  assert (Hnd : uniqueIds [pendingApp]).
  { unfold uniqueIds. simpl. constructor; [simpl; tauto|constructor]. }
  destruct (owner_update_frame host alice appId patchBody [pendingApp] Hnd) as [Hframe Hsame].
  split; [exact Hframe|].
  apply Hsame; reflexivity.
Defined.

(** ** Signatures *)

(** The handler does not read the signature header. *)
Lemma handler_ignores_signature (rt : Runtime) (raw : string) (s1 s2 : value)
      (db : Store) :
  Routes.paystackWebhookHandler rt
    {| Routes.rawBody := raw; Routes.x_paystack_signature := s1 |} db
  = Routes.paystackWebhookHandler rt
      {| Routes.rawBody := raw; Routes.x_paystack_signature := s2 |} db.
Proof. reflexivity. Qed.

(** C1.  A success event for an application in [pending_payment] whose
    signature header fails [verifyWebhookSignature] (the secret being
    configured, the header is not the keyed hash of the raw body) is
    processed all the same: [paystackWebhookHandler] saves the application
    as [submitted]. *)
Theorem forged_delivery_settles (rt : Runtime) (env : Env) (req : Routes.Delivery)
        (db : Store) (body : value) (ref : string) (a a' : Application.t) :
  Paystack.verifyWebhookSignature rt env (Routes.rawBody req)
    (Routes.x_paystack_signature req) = false ->
  Routes.parseBody rt req = Some body ->
  is_string (get body "event") "charge.success" = true ->
  get (get body "data") "reference" = VStr ref ->
  startsWith ref "APP-" = true ->
  findById rt db (Routes.applicationIdOf ref) = Ok (Some a) ->
  Application.status a = pending_payment ->
  Routes.settled rt (get (get body "data") "id") (VStr ref)
    (get (get body "data") "amount") a = Ok a' ->
  Routes.paystackWebhookHandler rt req db = (Saved, save a' db)
  /\ In a db
  /\ Application.status a' = submitted
  /\ Application.status a' <> Application.status a
  /\ find (fun x => Application._id x =? Application._id a) (save a' db) = Some a'.
Proof.
  intros _ Hparse Hev Href Hpre Hfind Hst Hset.
  destruct (settled_fields rt _ _ _ a a' Hset) as (Hid & Hst' & _).
  destruct (findById_found rt db _ a Hfind) as (oid & _ & Hoid & Hf).
  rewrite (handler_on_reference rt req db body ref Hparse Hev Href Hpre), Hfind.
  unfold Routes.settle. rewrite Hst, Hset. simpl. repeat split; trivial.
  - now apply find_some in Hf as [Hin _].
  - congruence.
  - rewrite <- Hid, find_save, Hid, Hoid, Hf. reflexivity.
Qed.

Lemma forged_delivery_settles_witness :
  Routes.paystackWebhookHandler host (deliver paidRaw "forged") [pendingApp]
  = (Saved, save paidApp [pendingApp])
  /\ In pendingApp [pendingApp]
  /\ Application.status paidApp = submitted
  /\ Application.status paidApp <> Application.status pendingApp
  /\ find (fun x => Application._id x =? Application._id pendingApp)
       (save paidApp [pendingApp]) = Some paidApp.
Proof.
  apply (forged_delivery_settles host (envWith "sk_live_1") (deliver paidRaw "forged")
           [pendingApp] paidBody "APP-65f0a1b2c3d4e5f6a7b8c9d1-1700000000000"
           pendingApp paidApp);
    reflexivity.
Defined.

(** ** The default fee *)

(** C7.  For an opportunity without [applicationFee], the Paystack flow
    asks for 350 at creation, at re-pay and at the M-Pesa charge, and the
    M-Pesa flow asks for 500 in its STK push. *)
Theorem default_fee (rt : Runtime) (env : Env) (t : N) (a : Application.t)
        (o : Opportunity.t) (u : User.t) (phone : string) (phoneNumber : value) :
  Opportunity.applicationFee o = VUndefined ->
  Paystack.amount (Routes.paymentRequest env t a (Some o) u) = VNum (num_of_Z 350)
  /\ Paystack.charge_amount (Routes.chargeRequest rt t a (Some o) u phone)
     = VNum (num_of_Z 350)
  /\ stk_amount (MpesaRoutes.stkRequest phoneNumber a (Some o)) = VNum (num_of_Z 500).
Proof.
  intros Hfee. unfold Routes.paymentRequest, Routes.chargeRequest, MpesaRoutes.stkRequest,
    MpesaRoutes.feeOrDefault. simpl. rewrite Hfee. repeat split.
Qed.

Lemma default_fee_witness :
  Paystack.amount (Routes.paymentRequest (envWith "sk_live_1") 1700000000000 pendingApp
                     (Some internship) alice) = VNum (num_of_Z 350)
  /\ Paystack.charge_amount (Routes.chargeRequest host 1700000000000 pendingApp
                               (Some internship) alice "0712345678")
     = VNum (num_of_Z 350)
  /\ stk_amount (MpesaRoutes.stkRequest (VStr "0712345678") pendingApp (Some internship))
     = VNum (num_of_Z 500).
Proof.
  apply (default_fee host (envWith "sk_live_1") 1700000000000 pendingApp internship alice
           "0712345678" (VStr "0712345678")).
  reflexivity.
Defined.

(** ** One application per user and opportunity *)

Lemma map_save_id (a' : Application.t) (db : Store) :
  map Application._id (save a' db) = map Application._id db.
Proof.
  induction db as [|x db IH]; simpl; [reflexivity|]. rewrite IH. f_equal.
  destruct (Application._id x =? Application._id a') eqn:E; [|reflexivity].
  apply String.eqb_eq in E. congruence.
Qed.

Lemma Forall2_map_eq {A B : Type} (f : A -> B) (l l' : list A) :
  Forall2 (fun x y => f y = f x) l l' -> map f l' = map f l.
Proof. induction 1; simpl; congruence. Qed.

Lemma map_save_pair (e a' : Application.t) (db : Store) :
  uniqueIds db -> In e db -> Application._id a' = Application._id e ->
  pairOf a' = pairOf e ->
  map pairOf (save a' db) = map pairOf db.
Proof.
  intros Hnd Hin Hid Hpair. apply Forall2_map_eq.
  apply (save_frame (fun x y => pairOf y = pairOf x) e a' db); auto.
Qed.

Lemma NoDup_snoc {A : Type} (l : list A) (x : A) :
  NoDup l -> ~ In x l -> NoDup (l ++ [x])%list.
Proof.
  induction l as [|y l IH]; simpl; intros Hnd Hx.
  - constructor; [tauto|constructor].
  - inversion Hnd; subst. constructor.
    + rewrite in_app_iff. simpl. intros [H|[H|[]]]; [tauto|]. apply Hx. now left.
    + apply IH; tauto.
Qed.

Lemma find_pair_none (db : Store) (userId oid : string) :
  findByUserAndOpportunity db userId oid = None -> ~ In (userId, oid) (map pairOf db).
Proof.
  unfold findByUserAndOpportunity. intros Hnone Hin.
  apply in_map_iff in Hin as [x [Hx Hin]].
  pose proof (find_none _ _ Hnone x Hin) as Hf. simpl in Hf.
  unfold pairOf in Hx. inversion Hx; subst.
  now rewrite !String.eqb_refl in Hf.
Qed.

Lemma find_pair_some (db : Store) (userId oid : string) (e : Application.t) :
  findByUserAndOpportunity db userId oid = Some e -> In e db /\ pairOf e = (userId, oid).
Proof.
  unfold findByUserAndOpportunity. intros H. apply find_some in H as [Hin H].
  apply andb_true_iff in H as [H1 H2].
  apply String.eqb_eq in H1, H2. unfold pairOf. split; congruence.
Qed.

(** What [POST /] knows once its checks and uploads are through. *)
Lemma checkSubmission_passed (rt : Runtime) (w : World) (opps : list Opportunity.t)
      (req : Submission) (db : Store) (o : Opportunity.t)
      (existing : option Application.t) (oid resumeUrl : string) (letterUrl : value) :
  checkSubmission rt w opps req db = Ok (inr (o, existing, oid, resumeUrl, letterUrl)) ->
  existing = findByUserAndOpportunity db (User._id (user req)) oid
  /\ forall e, existing = Some e -> Application.status e = pending_payment.
Proof.
  unfold checkSubmission. intros H.
  destruct (Opportunity_findById rt opps (opportunityId req)) as [[o'|]|];
    simpl in H; try discriminate.
  destruct (negb (Opportunity.isActive o')); [discriminate|].
  destruct (castObjectId rt (opportunityId req)) as [oid'|]; simpl in H; [|discriminate].
  destruct (findByUserAndOpportunity db (User._id (user req)) oid') as [e|] eqn:Hex.
  - destruct (status_eqb (Application.status e) pending_payment) eqn:Hst; simpl in H;
      [|discriminate].
    destruct (resume req); [|discriminate].
    destruct (_ && _); [discriminate|].
    destruct (uploadToCloudinary w _ _); simpl in H; [|discriminate].
    destruct (recommendationLetter req);
      [destruct (uploadToCloudinary w _ _); simpl in H; [|discriminate]|];
      inversion H; subst; (split; [now rewrite Hex|]);
      intros e' He'; inversion He'; subst; now apply status_eqb_eq.
  - destruct (resume req); [|discriminate].
    destruct (_ && _); [discriminate|].
    destruct (uploadToCloudinary w _ _); simpl in H; [|discriminate].
    destruct (recommendationLetter req);
      [destruct (uploadToCloudinary w _ _); simpl in H; [|discriminate]|];
      inversion H; subst; (split; [now rewrite Hex|]); intros e' He'; discriminate.
Qed.

(** The Paystack flow keeps the ids and the (user, opportunity) pairs of
    the collection unique, the store handing out an unused id. *)
Lemma createApplication_one_per_pair (rt : Runtime) (env : Env) (w : World)
      (opps : list Opportunity.t) (req : Submission) (db : Store) :
  uniqueIds db -> onePerPair db -> ~ In (newId w) (map Application._id db) ->
  uniqueIds (snd (Routes.createApplication rt env w opps req db))
  /\ onePerPair (snd (Routes.createApplication rt env w opps req db)).
Proof.
  intros Hids Hpairs Hfresh. unfold Routes.createApplication.
  destruct (checkSubmission rt w opps req db)
    as [[early|[[[[o existing] oid] resumeUrl] letterUrl]]|] eqn:Hcheck; simpl; auto.
  destruct (checkSubmission_passed _ _ _ _ _ _ _ _ _ _ Hcheck) as [Hex Hpending].
  assert (Hsnd : forall (r1 r2 : Response) (d : Store) (x : result value),
             snd (match x with
                  | Ok l => (r1, d)
                  | Throw e => (r2, d)
                  end) = d) by (intros ? ? ? []; reflexivity).
  destruct existing as [e|].
  - rewrite (Hpending e eq_refl). simpl.
    destruct (Routes.getPaymentLink rt env w _ (Some o) (user req)); simpl;
      (symmetry in Hex; apply find_pair_some in Hex as [Hin _];
       unfold uniqueIds, onePerPair;
       rewrite map_save_id, (map_save_pair e); auto).
  - simpl.
    destruct (Routes.getPaymentLink rt env w _ (Some o) (user req)); simpl;
      (unfold uniqueIds, onePerPair, create; rewrite !map_app; simpl; split;
       [apply NoDup_snoc; auto
       |apply NoDup_snoc; auto; apply find_pair_none; now symmetry]).
Qed.

(** C4.  Alice submits twice for the same opportunity while her first
    application awaits payment.  In the M-Pesa flow the second request is
    answered 200 and a second application is stored for the pair; in the
    Paystack flow the same request reuses the stored application. *)
Theorem resubmission_while_pending :
  let first :=
    snd (MpesaRoutes.createApplication host (world appId 1700000000000) [internship]
           submission []) in
  let again :=
    MpesaRoutes.createApplication host (world secondId 1700000060000) [internship]
      submission first in
  let sibling :=
    Routes.createApplication host (envWith "sk_live_1") (world secondId 1700000060000)
      [internship] submission first in
  map Application.status first = [pending_payment]
  /\ code (fst again) = 200
  /\ map Application._id (snd again) = [appId; secondId]
  /\ map Application.status (snd again) = [pending_payment; pending_payment]
  /\ countPair (User._id alice) (Opportunity._id internship) (snd again) = 2
  /\ code (fst sibling) = 200
  /\ map Application._id (snd sibling) = [appId]
  /\ countPair (User._id alice) (Opportunity._id internship) (snd sibling) = 1.
Proof. repeat split. Qed.

(** ** The M-Pesa callback and the outstanding request *)

Lemma mpesaCallback_matched (rt : Runtime) (body : value) (db : Store) (a : Application.t)
      (tx amt : value) :
  truthy (stkResult body) = true ->
  MpesaRoutes.getItem (metadataOf body) "MpesaReceiptNumber" = Ok tx ->
  MpesaRoutes.getItem (metadataOf body) "Amount" = Ok amt ->
  findByCheckoutRequestId rt db (checkoutOf body) = Some a ->
  MpesaRoutes.mpesaCallback rt body db
  = (Saved,
     save (Application.set_mpesaCheckoutRequestId VUndefined
             (if match get (stkResult body) "ResultCode" with
                 | VNum (Num q) => Qeq_bool q 0
                 | _ => false
                 end
              then Application.set_amountPaid amt
                     (Application.set_mpesaTransactionId tx
                        (Application.set_status submitted a))
              else Application.set_status pending_payment a)) db).
Proof.
  unfold metadataOf, checkoutOf, stkResult. intros Hres Htx Hamt Hfind.
  unfold MpesaRoutes.mpesaCallback. rewrite Hres. cbn [negb].
  rewrite Htx. cbn [bind]. rewrite Hamt. cbn [bind]. rewrite Hfind.
  destruct (match get _ "ResultCode" with VNum (Num q) => Qeq_bool q 0 | _ => false end);
    reflexivity.
Qed.

Lemma save_no_match (rt : Runtime) (q : value) (a a' : Application.t) (db : Store) :
  Application._id a' = Application._id a ->
  queryMatches rt q (Application.mpesaCheckoutRequestId a') = false ->
  (forall x, In x db -> x <> a ->
             queryMatches rt q (Application.mpesaCheckoutRequestId x) = false) ->
  forall x, In x (save a' db) ->
            queryMatches rt q (Application.mpesaCheckoutRequestId x) = false.
Proof.
  intros Hid Hnew Hothers x Hx. unfold save in Hx.
  apply in_map_iff in Hx as [y [Hy Hin]].
  destruct (Application._id y =? Application._id a') eqn:E.
  - now subst x.
  - subst x. apply Hothers; trivial. intros ->.
    rewrite Hid, String.eqb_refl in E. discriminate.
Qed.

Lemma find_save_match (p : Application.t -> bool) (a a1 : Application.t) (db : Store) :
  In a db -> Application._id a1 = Application._id a -> p a1 = true ->
  (forall x, In x db -> Application._id x <> Application._id a -> p x = false) ->
  find p (save a1 db) = Some a1.
Proof.
  intros Hin Hid Hp Hothers. induction db as [|y db IH]; simpl; [contradiction|].
  destruct (Application._id y =? Application._id a1) eqn:E.
  - now rewrite Hp.
  - assert (Hy : p y = false).
    { apply Hothers; [now left|]. apply String.eqb_neq in E. congruence. }
    rewrite Hy. apply IH.
    + destruct Hin as [->|Hin]; [|exact Hin].
      rewrite Hid, String.eqb_refl in E. discriminate.
    + intros x Hx. apply Hothers. now right.
Qed.

Lemma findOwnedPending_inv (rt : Runtime) (db : Store) (id userId : string)
      (a : Application.t) :
  findOwnedPending rt db id userId = Ok (Some a) ->
  In a db /\ Application.status a = pending_payment /\ Application.userId a = userId.
Proof.
  unfold findOwnedPending. destruct (castObjectId rt id); simpl; [|discriminate].
  intros H. inversion H as [Hf]. apply find_some in Hf as [Hin Hp].
  apply andb_true_iff in Hp as [Hp Hst]. apply andb_true_iff in Hp as [_ Hu].
  apply String.eqb_eq in Hu. apply status_eqb_eq in Hst. auto.
Qed.

Lemma In_find_id (a : Application.t) (db : Store) :
  In a db -> exists x, find (fun y => Application._id y =? Application._id a) db = Some x.
Proof.
  intros Hin.
  destruct (find (fun y => Application._id y =? Application._id a) db) as [x|] eqn:E;
    [now exists x|].
  pose proof (find_none _ _ E a Hin) as H. simpl in H.
  now rewrite String.eqb_refl in H.
Qed.

(** ** Payment references *)

Lemma allDigits_string_of_uint (d : Decimal.uint) :
  allDigits (NilEmpty.string_of_uint d) = true.
Proof. induction d; simpl; auto. Qed.

Lemma allDigits_decimal (n : N) : allDigits (decimal n) = true.
Proof. apply allDigits_string_of_uint. Qed.

Lemma decimal_nonempty (n : N) : isEmpty (decimal n) = false.
Proof.
  unfold decimal. destruct n as [|p]; [reflexivity|].
  simpl. pose proof (DecimalPos.Unsigned.to_uint_nonnil p) as H.
  destruct (Pos.to_uint p); [contradiction| | | | | | | | | |]; reflexivity.
Qed.

Lemma decimal_inj (a b : N) : decimal a = decimal b -> a = b.
Proof.
  unfold decimal. intros H.
  assert (Hu : N.to_uint a = N.to_uint b).
  { pose proof (NilEmpty.usu (N.to_uint a)) as Ha.
    pose proof (NilEmpty.usu (N.to_uint b)) as Hb.
    rewrite H in Ha. congruence. }
  rewrite <- (DecimalN.Unsigned.of_to a), <- (DecimalN.Unsigned.of_to b). now rewrite Hu.
Qed.

Lemma append_inj_l (s a b : string) : s ++ a = s ++ b -> a = b.
Proof. induction s as [|c s IH]; simpl; intros H; [exact H|]. inversion H. auto. Qed.

(** Two attempts get the same reference only at the same clock reading. *)
Lemma paymentReference_inj (id : string) (t1 t2 : N) :
  Routes.paymentReference id t1 = Routes.paymentReference id t2 -> t1 = t2.
Proof.
  unfold Routes.paymentReference. intros H.
  apply (append_inj_l "APP-") in H. apply append_inj_l in H.
  apply (append_inj_l "-") in H. now apply decimal_inj.
Qed.

Lemma applicationIdOf_paymentReference (id : string) (t : N) :
  isObjectIdHex id = true -> Routes.applicationIdOf (Routes.paymentReference id t) = id.
Proof.
  intros H. unfold Routes.paymentReference.
  apply applicationIdOf_suffixed; auto using decimal_nonempty, allDigits_decimal.
Qed.

(** [POST /:id/pay] writes nothing. *)
Lemma pay_keeps_store (rt : Runtime) (env : Env) (w : World) (opps : list Opportunity.t)
      (u : User.t) (id : string) (db : Store) :
  snd (Routes.pay rt env w opps u id db) = db.
Proof.
  unfold Routes.pay, caught.
  destruct (findOwnedPending rt db id (User._id u)) as [[a|]|]; simpl; trivial.
  destruct (Routes.getPaymentLink rt env w a (populate opps a) u); reflexivity.
Qed.

(** An M-Pesa callback whose [CheckoutRequestID] matches no stored
    application changes nothing. *)
Lemma mpesaCallback_unmatched (rt : Runtime) (body : value) (db : Store) :
  (forall x, In x db ->
     queryMatches rt (get (get (get body "Body") "stkCallback") "CheckoutRequestID")
       (Application.mpesaCheckoutRequestId x) = false) ->
  snd (MpesaRoutes.mpesaCallback rt body db) = db.
Proof.
  intros Hno. unfold MpesaRoutes.mpesaCallback.
  destruct (negb (truthy (get (get body "Body") "stkCallback"))); simpl; trivial.
  match goal with
  | |- context [match ?r with Ok _ => _ | Throw _ => _ end] => destruct r as [[tx amount]|]
  end; simpl; trivial.
  destruct (findByCheckoutRequestId rt db _) as [a|] eqn:Hfind; simpl; trivial.
  apply find_some in Hfind as [Hin Hq]. rewrite (Hno a Hin) in Hq. discriminate.
Qed.







(** ** The order of the lifecycle *)

Lemma paymentStep_refl (a : Application.t) : paymentStep a a.
Proof. unfold paymentStep. auto. Qed.

Lemma paymentStep_trans (a b c : Application.t) :
  paymentStep a b -> paymentStep b c -> paymentStep a c.
Proof.
  unfold paymentStep. intros [Hab Sab] [Hbc Sbc]. split; [congruence|].
  destruct Sab as [Sab|[Sa Sb]], Sbc as [Sbc|[Sb' Sc]].
  - left. congruence.
  - right. split; congruence.
  - right. split; congruence.
  - congruence.
Qed.

(** A step of the relation never lowers the rank. *)
Lemma paymentStep_rank (a b : Application.t) :
  paymentStep a b -> (rank (Application.status a) <= rank (Application.status b))%nat.
Proof.
  intros [_ [H|[Ha Hb]]]; [rewrite H; lia|rewrite Ha, Hb; simpl; lia].
Qed.

Lemma webhook_paymentStep (rt : Runtime) (req : Routes.Delivery) (db : Store) :
  uniqueIds db ->
  Forall2 paymentStep db (snd (Routes.paystackWebhookHandler rt req db)).
Proof.
  intros Hnd.
  destruct (Routes.paystackWebhookHandler rt req db) as [o db1] eqn:H.
  destruct o;
    try (replace db1 with db;
         [apply Forall2_refl_on, paymentStep_refl
         |rewrite <- (handler_not_Saved rt req db); rewrite H; simpl; congruence]).
  destruct (handler_Saved rt req db db1 H)
    as (body & ref & a & a' & _ & _ & _ & _ & Hfind & Hst & Hset & ->).
  destruct (settled_fields rt _ _ _ a a' Hset) as (Hid & Hst' & _).
  destruct (findById_found rt db _ a Hfind) as (oid & _ & _ & Hf).
  apply find_some in Hf as [Hin _]. simpl.
  apply (save_frame paymentStep a a' db); auto using paymentStep_refl.
  unfold paymentStep. auto.
Qed.

Lemma Forall2_ids (R : Application.t -> Application.t -> Prop) (db db' : Store) :
  (forall a b, R a b -> Application._id b = Application._id a) ->
  Forall2 R db db' -> uniqueIds db -> uniqueIds db'.
Proof.
  intros HR H Hnd. unfold uniqueIds in *.
  rewrite (Forall2_map_eq Application._id db db'); trivial.
  eapply Forall2_weaken; [|exact H]. auto.
Qed.

Lemma webhooks_paymentStep (rt : Runtime) (reqs : list Routes.Delivery) (db : Store) :
  uniqueIds db ->
  Forall2 paymentStep db (run rt (map PaystackWebhook reqs) db).
Proof.
  revert db. induction reqs as [|req reqs IH]; intros db Hnd; simpl.
  - apply Forall2_refl_on, paymentStep_refl.
  - pose proof (webhook_paymentStep rt req db Hnd) as Hstep.
    eapply Forall2_trans_on; [apply paymentStep_trans|exact Hstep|].
    apply IH. eapply Forall2_ids; [|exact Hstep|exact Hnd].
    now intros a b [H _].
Qed.

Lemma mpesaCallback_step (rt : Runtime) (body : value) (db : Store) :
  uniqueIds db ->
  Forall2 callbackStep db (snd (MpesaRoutes.mpesaCallback rt body db)).
Proof.
  intros Hnd.
  assert (Hrefl : forall x, callbackStep x x) by (unfold callbackStep; auto).
  unfold MpesaRoutes.mpesaCallback.
  destruct (negb (truthy (get (get body "Body") "stkCallback"))); simpl;
    [now apply Forall2_refl_on|].
  match goal with
  | |- context [match ?r with Ok _ => _ | Throw _ => _ end] => destruct r as [[tx amount]|]
  end; simpl; [|now apply Forall2_refl_on].
  destruct (findByCheckoutRequestId rt db _) as [a|] eqn:Hfind; simpl;
    [|now apply Forall2_refl_on].
  apply find_some in Hfind as [Hin _].
  apply (save_frame callbackStep a _ db); auto.
  - now destruct (match get _ "ResultCode" with VNum (Num q) => Qeq_bool q 0 | _ => false end).
  - unfold callbackStep.
    destruct (match get _ "ResultCode" with VNum (Num q) => Qeq_bool q 0 | _ => false end);
      simpl; auto.
Qed.

Lemma adminUpdateStatus_step (rt : Runtime) (id : string) (body : value) (db : Store) :
  uniqueIds db ->
  Forall2 adminStep db (snd (Routes.adminUpdateStatus rt id body db)).
Proof.
  intros Hnd.
  assert (Hrefl : forall x, adminStep x x) by (unfold adminStep; auto).
  unfold Routes.adminUpdateStatus, caught.
  destruct (nullish body); simpl; [now apply Forall2_refl_on|].
  destruct (if truthy (get body "status") then _ else None) as [s|] eqn:Hs; simpl;
    [|now apply Forall2_refl_on].
  destruct (findById rt db id) as [[a|]|] eqn:Hfind; simpl;
    try now apply Forall2_refl_on.
  destruct (findById_found rt db _ a Hfind) as (oid & _ & _ & Hf).
  apply find_some in Hf as [Hin _].
  apply (save_frame adminStep a _ db); auto.
  unfold adminStep. simpl. split; [reflexivity|right].
  destruct (truthy (get body "status")); [|discriminate].
  repeat match type of Hs with
         | (if ?c then _ else _) = _ => destruct c
         end;
    inversion Hs; subst; simpl; auto 10.
Qed.

(** An administrator's edit with an allowed status sets that status. *)
Lemma adminUpdateStatus_sets (rt : Runtime) (id : string) (s : Status)
      (a : Application.t) (db : Store) :
  isObjectIdHex id = true ->
  find (fun x => Application._id x =? id) db = Some a ->
  In s Routes.allowed ->
  Routes.adminUpdateStatus rt id (statusBody (status_name s)) db
  = (respond 200 (Doc (Some (Application.set_status s a))),
     save (Application.set_status s a) db).
Proof.
  intros Hhex Hfind Hs. unfold Routes.adminUpdateStatus, caught, statusBody.
  rewrite (findById_hex rt db id Hhex), Hfind.
  simpl in Hs. destruct Hs as [<-|[<-|[<-|[<-|[<-|[]]]]]]; reflexivity.
Qed.

(** What an M-Pesa callback does to the status of the application it
    matches, when that application awaits payment, and to the others. *)
Lemma mpesaCallback_pending (rt : Runtime) (body : value) (db : Store)
      (a : Application.t) (tx amt : value) :
  truthy (stkResult body) = true ->
  MpesaRoutes.getItem (metadataOf body) "MpesaReceiptNumber" = Ok tx ->
  MpesaRoutes.getItem (metadataOf body) "Amount" = Ok amt ->
  findByCheckoutRequestId rt db (checkoutOf body) = Some a ->
  Application.status a = pending_payment ->
  statusOf (Application._id a) (snd (MpesaRoutes.mpesaCallback rt body db))
  = Some (if succeeded body then submitted else pending_payment)
  /\ forall id, id <> Application._id a ->
       statusOf id (snd (MpesaRoutes.mpesaCallback rt body db)) = statusOf id db.
Proof.
  intros Hres Htx Hamt Hfind Hst.
  rewrite (mpesaCallback_matched rt body db a tx amt Hres Htx Hamt Hfind). cbn [snd].
  fold (succeeded body).
  set (a' := Application.set_mpesaCheckoutRequestId VUndefined
               (if succeeded body
                then Application.set_amountPaid amt
                       (Application.set_mpesaTransactionId tx
                          (Application.set_status submitted a))
                else Application.set_status pending_payment a)).
  assert (Hid : Application._id a' = Application._id a)
    by (unfold a'; destruct (succeeded body); reflexivity).
  assert (Hst' : Application.status a'
                 = if succeeded body then submitted else pending_payment)
    by (unfold a'; destruct (succeeded body); reflexivity).
  pose proof (find_some _ _ Hfind) as [Hin _].
  split.
  - unfold statusOf. rewrite <- Hid, find_save, Hid.
    destruct (In_find_id a db Hin) as [x Hx]. rewrite Hx. cbn [option_map].
    now rewrite Hst'.
  - intros id Hne. unfold statusOf. apply find_save_other. now rewrite Hid.
Qed.

(** C3, as the code has it.  On a collection with unique ids: along any
    sequence of Paystack webhook deliveries every application keeps its
    status or goes from [pending_payment] to [submitted], so its rank
    never drops.  An M-Pesa callback that matches an application in
    [pending_payment] leaves it [submitted] when it reports success and
    in [pending_payment] when it reports a failure, and changes the
    status of no other application; one that matches no application
    changes nothing.  An administrator's edit leaves a status as it is or
    sets it to one of the five allowed statuses, and it sets the status
    it is asked for whatever the current status. *)
Theorem status_moves (rt : Runtime) (db : Store) :
  uniqueIds db ->
  (forall reqs : list Routes.Delivery,
      Forall2 paymentStep db (run rt (map PaystackWebhook reqs) db)
      /\ Forall2 (fun a b => (rank (Application.status a)
                              <= rank (Application.status b))%nat)
                 db (run rt (map PaystackWebhook reqs) db))
  /\ (forall (body : value) (a : Application.t) (tx amt : value),
         truthy (stkResult body) = true ->
         MpesaRoutes.getItem (metadataOf body) "MpesaReceiptNumber" = Ok tx ->
         MpesaRoutes.getItem (metadataOf body) "Amount" = Ok amt ->
         findByCheckoutRequestId rt db (checkoutOf body) = Some a ->
         Application.status a = pending_payment ->
         statusOf (Application._id a) (run rt [MpesaCallback body] db)
         = Some (if succeeded body then submitted else pending_payment)
         /\ forall id, id <> Application._id a ->
              statusOf id (run rt [MpesaCallback body] db) = statusOf id db)
  /\ (forall body : value,
         (forall x, In x db ->
                    queryMatches rt (checkoutOf body) (Application.mpesaCheckoutRequestId x)
                    = false) ->
         run rt [MpesaCallback body] db = db)
  /\ (forall (id : string) (body : value),
         Forall2 adminStep db (run rt [AdminStatusEdit id body] db))
  /\ (forall (id : string) (s : Status) (a : Application.t),
         isObjectIdHex id = true ->
         find (fun x => Application._id x =? id) db = Some a ->
         In s Routes.allowed ->
         statusOf id (run rt [AdminStatusEdit id (statusBody (status_name s))] db)
         = Some s).
Proof.
  intros Hnd. split; [|split; [|split; [|split]]].
  - intros reqs. split; [now apply webhooks_paymentStep|].
    eapply Forall2_weaken; [|now apply (webhooks_paymentStep rt reqs db)].
    apply paymentStep_rank.
  - intros body a tx amt Hres Htx Hamt Hfind Hst.
    now apply (mpesaCallback_pending rt body db a tx amt).
  - intros body Hno. now apply mpesaCallback_unmatched.
  - intros id body. now apply adminUpdateStatus_step.
  - intros id s a Hhex Hfind Hs. unfold run, applyOp, statusOf. cbn [fold_left].
    rewrite (adminUpdateStatus_sets rt id s a db Hhex Hfind Hs). cbn [snd].
    pose proof (find_some _ _ Hfind) as [_ Hid]. apply String.eqb_eq in Hid.
    pose proof (find_save (Application.set_status s a) db) as Hsave.
    cbn [Application._id Application.set_status] in Hsave.
    rewrite Hid in Hsave. rewrite Hsave, Hfind. reflexivity.
Qed.

Lemma status_moves_witness :
  (Forall2 paymentStep [pushedApp]
     (run host [PaystackWebhook (deliver paidRaw ""); PaystackWebhook (deliver bareRaw "")]
        [pushedApp])
   /\ Forall2 (fun a b => (rank (Application.status a) <= rank (Application.status b))%nat)
        [pushedApp]
        (run host [PaystackWebhook (deliver paidRaw ""); PaystackWebhook (deliver bareRaw "")]
           [pushedApp]))
  /\ statusOf appId (run host [MpesaCallback paidCallback] [pushedApp]) = Some submitted
  /\ statusOf appId (run host [MpesaCallback cancelledCallback] [pushedApp])
     = Some pending_payment
  /\ run host [MpesaCallback (stkCallback "ws_CO_0002" 0)] [pushedApp] = [pushedApp]
  /\ statusOf appId (run host [AdminStatusEdit appId (statusBody "shortlisted")] [pushedApp])
     = Some shortlisted.
Proof.
  assert (Hnd : uniqueIds [pushedApp]).
  { unfold uniqueIds. simpl. constructor; [simpl; tauto|constructor]. }
  destruct (status_moves host [pushedApp] Hnd) as (Hpay & Hmatched & Hunmatched & _ & Hadmin).
  split; [exact (Hpay [deliver paidRaw ""; deliver bareRaw ""])|].
  split; [|split; [|split]].
  - exact (proj1 (Hmatched paidCallback pushedApp (VStr "QK12ABCDEF") (VNum (num_of_Z 500))
                    eq_refl eq_refl eq_refl eq_refl eq_refl)).
  - exact (proj1 (Hmatched cancelledCallback pushedApp VUndefined VUndefined
                    eq_refl eq_refl eq_refl eq_refl eq_refl)).
  - apply Hunmatched. intros x [<-|[]]. reflexivity.
  - apply (Hadmin appId shortlisted pushedApp); [reflexivity|reflexivity|].
    simpl. tauto.
Defined.

(** C3, as the claim has it: an administrator's edit takes an accepted
    application back to [submitted], which ranks lower, and takes an
    application from [pending_payment] to [under_review] although it was
    never [submitted]. *)
Lemma admin_edit_reorders_status :
  statusOf appId [acceptedApp] = Some accepted
  /\ statusOf appId (run host [AdminStatusEdit appId (statusBody "submitted")] [acceptedApp])
     = Some submitted
  /\ (rank submitted < rank accepted)%nat
  /\ statusOf appId [pendingApp] = Some pending_payment
  /\ statusOf appId (run host [AdminStatusEdit appId (statusBody "under_review")] [pendingApp])
     = Some under_review.
Proof. repeat split. simpl. lia. Qed.

(** * Further properties of the routes and adapters *)

(** ** The webhook: what it needs and what it leaves alone *)

Lemma settled_frame (rt : Runtime) (id reference amount : value) (a a' : Application.t) :
  Routes.settled rt id reference amount a = Ok a' -> sameExceptPayment a a'.
Proof.
  unfold Routes.settled. intros H.
  destruct (String_ rt (coalesce id reference)) as [txid|]; simpl in H; [|discriminate].
  destruct (nullish amount).
  - inversion H; subst. unfold sameExceptPayment. simpl. repeat split.
  - destruct (Number rt amount) as [n|]; simpl in H; [|discriminate].
    inversion H; subst. unfold sameExceptPayment. simpl. repeat split.
Qed.

Lemma sameExceptPayment_refl (a : Application.t) : sameExceptPayment a a.
Proof. unfold sameExceptPayment. repeat split. Qed.

(** X1.  A delivery whose reference does not resolve to a stored
    application in [pending_payment] (unknown id, id that does not cast,
    or an application that has left [pending_payment]) does not end in
    [save] and leaves the store as it was. *)
Theorem webhook_needs_pending_application (rt : Runtime) (req : Routes.Delivery)
        (db : Store) (body : value) (ref : string) :
  Routes.parseBody rt req = Some body ->
  get (get body "data") "reference" = VStr ref ->
  (forall a, findById rt db (Routes.applicationIdOf ref) = Ok (Some a) ->
             Application.status a <> pending_payment) ->
  fst (Routes.paystackWebhookHandler rt req db) <> Saved
  /\ snd (Routes.paystackWebhookHandler rt req db) = db.
Proof.
  intros Hparse Href Hno.
  assert (Hns : fst (Routes.paystackWebhookHandler rt req db) <> Saved).
  { destruct (Routes.paystackWebhookHandler rt req db) as [o db1] eqn:H. simpl.
    intros ->.
    destruct (handler_Saved rt req db db1 H)
      as (body' & ref' & a & a' & Hparse' & _ & Href' & _ & Hfind & Hst & _).
    rewrite Hparse in Hparse'. inversion Hparse'; subst body'.
    rewrite Href in Href'. inversion Href'; subst ref'.
    exact (Hno a Hfind Hst). }
  split; [exact Hns|]. now apply handler_not_Saved.
Qed.

Lemma webhook_needs_pending_application_witness :
  fst (Routes.paystackWebhookHandler host (deliver paidRaw "") [paidApp]) <> Saved
  /\ snd (Routes.paystackWebhookHandler host (deliver paidRaw "") [paidApp]) = [paidApp].
Proof.
  apply (webhook_needs_pending_application host (deliver paidRaw "") [paidApp] paidBody
           "APP-65f0a1b2c3d4e5f6a7b8c9d1-1700000000000"); try reflexivity.
  intros a H. vm_compute in H. inversion H; subst. discriminate.
Defined.

(** X2.  On a collection with unique ids a delivery keeps the number of
    applications and changes, in any of them, at most the status, the
    payment transaction id and the amount paid. *)
Theorem webhook_frame (rt : Runtime) (req : Routes.Delivery) (db : Store) :
  uniqueIds db ->
  Forall2 sameExceptPayment db (snd (Routes.paystackWebhookHandler rt req db))
  /\ List.length (snd (Routes.paystackWebhookHandler rt req db)) = List.length db.
Proof.
  intros Hnd.
  assert (H2 : Forall2 sameExceptPayment db (snd (Routes.paystackWebhookHandler rt req db))).
  { destruct (Routes.paystackWebhookHandler rt req db) as [o db1] eqn:H.
    destruct o;
      try (replace db1 with db;
           [apply Forall2_refl_on, sameExceptPayment_refl
           |rewrite <- (handler_not_Saved rt req db); rewrite H; simpl; congruence]).
    destruct (handler_Saved rt req db db1 H)
      as (body & ref & a & a' & _ & _ & _ & _ & Hfind & Hst & Hset & ->).
    destruct (settled_fields rt _ _ _ a a' Hset) as (Hid & _ & _).
    destruct (findById_found rt db _ a Hfind) as (oid & _ & _ & Hf).
    apply find_some in Hf as [Hin _]. simpl.
    apply (save_frame sameExceptPayment a a' db); auto using sameExceptPayment_refl.
    eapply settled_frame; eauto. }
  split; [exact H2|]. symmetry. eapply Forall2_length; eauto.
Qed.

Lemma webhook_frame_witness :
  Forall2 sameExceptPayment [pendingApp]
    (snd (Routes.paystackWebhookHandler host (deliver paidRaw "") [pendingApp]))
  /\ List.length (snd (Routes.paystackWebhookHandler host (deliver paidRaw "") [pendingApp]))
     = List.length [pendingApp].
Proof.
  apply (webhook_frame host (deliver paidRaw "") [pendingApp]).
  unfold uniqueIds. simpl. constructor; [simpl; tauto|constructor].
Defined.

(** ** Submissions *)

(** X4.  Both flows turn down, with 400 and without a write, a submission
    for an open opportunity by a user whose application for it has left
    [pending_payment]. *)
Theorem already_applied (rt : Runtime) (env : Env) (w : World) (opps : list Opportunity.t)
      (req : Submission) (db : Store) (o : Opportunity.t) (oid : string)
      (e : Application.t) :
  Opportunity_findById rt opps (opportunityId req) = Ok (Some o) ->
  Opportunity.isActive o = true ->
  castObjectId rt (opportunityId req) = Some oid ->
  findByUserAndOpportunity db (User._id (user req)) oid = Some e ->
  Application.status e <> pending_payment ->
  Routes.createApplication rt env w opps req db
  = (respond 400 (Message "You have already applied"), db)
  /\ MpesaRoutes.createApplication rt w opps req db
     = (respond 400 (Message "You have already applied"), db).
Proof.
  intros Hopp Hactive Hcast Hfind Hst.
  assert (Hcheck : checkSubmission rt w opps req db
                   = Ok (inl (respond 400 (Message "You have already applied")))).
  { unfold checkSubmission. rewrite Hopp. simpl. rewrite Hactive, Hcast. simpl.
    rewrite Hfind.
    destruct (status_eqb (Application.status e) pending_payment) eqn:E; [|reflexivity].
    apply status_eqb_eq in E. contradiction. }
  unfold Routes.createApplication, MpesaRoutes.createApplication.
  now rewrite Hcheck.
Qed.

Lemma already_applied_witness :
  Routes.createApplication host (envWith "sk_live_1") (world secondId 1700000060000)
    [internship] submission [paidApp]
  = (respond 400 (Message "You have already applied"), [paidApp])
  /\ MpesaRoutes.createApplication host (world secondId 1700000060000) [internship]
       submission [paidApp]
     = (respond 400 (Message "You have already applied"), [paidApp]).
Proof.
  apply (already_applied host (envWith "sk_live_1") (world secondId 1700000060000)
           [internship] submission [paidApp] internship (Opportunity._id internship)
           paidApp); try reflexivity.
  discriminate.
Defined.

(** X6.  A submission answered 400 or 404, in either flow, stores nothing. *)
Theorem rejected_submission_stores_nothing (rt : Runtime) (env : Env) (w : World)
        (opps : list Opportunity.t) (req : Submission) (db : Store) :
  (code (fst (Routes.createApplication rt env w opps req db)) = 400
   \/ code (fst (Routes.createApplication rt env w opps req db)) = 404 ->
   snd (Routes.createApplication rt env w opps req db) = db)
  /\ (code (fst (MpesaRoutes.createApplication rt w opps req db)) = 400
      \/ code (fst (MpesaRoutes.createApplication rt w opps req db)) = 404 ->
      snd (MpesaRoutes.createApplication rt w opps req db) = db).
Proof.
  unfold Routes.createApplication, MpesaRoutes.createApplication.
  destruct (checkSubmission rt w opps req db)
    as [[early|[[[[o existing] oid] resumeUrl] letterUrl]]|]; simpl; auto.
  split.
  - destruct (Routes.getPaymentLink rt env w _ (Some o) (user req)); simpl;
      intros [H|H]; discriminate H.
  - destruct (negb (truthy (phoneNumber req))); simpl; [intros [H|H]; discriminate H|].
    destruct (initiateSTKPush w _) as [stk|]; simpl; [|intros [H|H]; discriminate H].
    destruct (nullish stk); simpl; intros [H|H]; discriminate H.
Qed.

Lemma rejected_submission_stores_nothing_witness :
  snd (Routes.createApplication host (envWith "sk_live_1") (world secondId 1700000060000)
         [attachment] attachmentSubmission [pendingApp]) = [pendingApp]
  /\ snd (MpesaRoutes.createApplication host (world secondId 1700000060000)
            [attachment] attachmentSubmission [pendingApp]) = [pendingApp].
Proof.
  split.
  - apply (proj1 (rejected_submission_stores_nothing host (envWith "sk_live_1")
                    (world secondId 1700000060000) [attachment] attachmentSubmission
                    [pendingApp])).
    left. reflexivity.
  - apply (proj2 (rejected_submission_stores_nothing host (envWith "sk_live_1")
                    (world secondId 1700000060000) [attachment] attachmentSubmission
                    [pendingApp])).
    left. reflexivity.
Defined.

Lemma In_save (e a : Application.t) (db : Store) :
  In e db -> Application._id a = Application._id e -> In a (save a db).
Proof.
  intros Hin Hid. unfold save. apply in_map_iff. exists e. split; [|exact Hin].
  rewrite Hid. now rewrite String.eqb_refl.
Qed.

(** X7.  Once the checks and the uploads of [POST /] are through, the
    Paystack flow stores an application for the pair, in
    [pending_payment] and with the uploaded resume, before it asks for the
    payment link; when the provider then fails, the answer is 500 and the
    application stays stored. *)
Theorem submission_stored_before_payment (rt : Runtime) (env : Env) (w : World)
        (opps : list Opportunity.t) (req : Submission) (db : Store)
        (o : Opportunity.t) (existing : option Application.t) (oid resumeUrl : string)
        (letterUrl : value) :
  checkSubmission rt w opps req db = Ok (inr (o, existing, oid, resumeUrl, letterUrl)) ->
  exists a,
    In a (snd (Routes.createApplication rt env w opps req db))
    /\ pairOf a = (User._id (user req), oid)
    /\ Application.status a = pending_payment
    /\ Application.resumeUrl a = resumeUrl
    /\ match Routes.getPaymentLink rt env w a (Some o) (user req) with
       | Ok link =>
           fst (Routes.createApplication rt env w opps req db)
           = respond 200 (PaymentRequired a link
                            (coalesce (Opportunity.applicationFee o) (VNum (num_of_Z 350))))
       | Throw e =>
           fst (Routes.createApplication rt env w opps req db) = respond 500 (ErrMessage e)
       end.
Proof.
  intros Hcheck.
  destruct (checkSubmission_passed _ _ _ _ _ _ _ _ _ _ Hcheck) as [Hex Hpending].
  unfold Routes.createApplication. rewrite Hcheck.
  destruct existing as [e|].
  - rewrite (Hpending e eq_refl). cbn [status_eqb].
    symmetry in Hex. apply find_pair_some in Hex as [Hin Hpair].
    match goal with
    | |- context [Routes.getPaymentLink rt env w ?x _ _] => exists x
    end.
    split.
    + destruct (Routes.getPaymentLink rt env w _ (Some o) (user req)); simpl;
        apply (In_save e); trivial.
    + split; [exact Hpair|]. split; [exact (Hpending e eq_refl)|]. split; [reflexivity|].
      destruct (Routes.getPaymentLink rt env w _ (Some o) (user req)); reflexivity.
  - match goal with
    | |- context [Routes.getPaymentLink rt env w ?x _ _] => exists x
    end.
    split.
    + destruct (Routes.getPaymentLink rt env w _ (Some o) (user req)); simpl;
        unfold create; apply in_or_app; right; now left.
    + repeat split.
      destruct (Routes.getPaymentLink rt env w _ (Some o) (user req)); reflexivity.
Qed.

Lemma submission_stored_before_payment_witness :
  exists a,
    In a (snd (Routes.createApplication host (envWith "sk_live_1")
                 (outage appId 1700000000000) [internship] submission []))
    /\ pairOf a = (User._id alice, Opportunity._id internship)
    /\ Application.status a = pending_payment
    /\ Application.resumeUrl a = "https://blobs.example/internship-platform/resumes"
    /\ match Routes.getPaymentLink host (envWith "sk_live_1") (outage appId 1700000000000)
               a (Some internship) alice with
       | Ok link =>
           fst (Routes.createApplication host (envWith "sk_live_1")
                  (outage appId 1700000000000) [internship] submission [])
           = respond 200 (PaymentRequired a link
                            (coalesce (Opportunity.applicationFee internship)
                                      (VNum (num_of_Z 350))))
       | Throw e =>
           fst (Routes.createApplication host (envWith "sk_live_1")
                  (outage appId 1700000000000) [internship] submission [])
           = respond 500 (ErrMessage e)
       end.
Proof.
  apply (submission_stored_before_payment host (envWith "sk_live_1")
           (outage appId 1700000000000) [internship] submission [] internship None
           (Opportunity._id internship)
           "https://blobs.example/internship-platform/resumes" VNull).
  reflexivity.
Defined.

(** X8.  In both flows a submission for an open attachment without a
    recommendation letter, the resume being there and no earlier
    application standing in the way, is answered 400 with the message
    that the letter is required, whatever the world would answer, and
    stores nothing. *)
Theorem attachment_requires_letter (rt : Runtime) (env : Env) (w : World)
        (opps : list Opportunity.t) (req : Submission) (db : Store)
        (o : Opportunity.t) (oid resumeFile : string) :
  Opportunity_findById rt opps (opportunityId req) = Ok (Some o) ->
  Opportunity.isActive o = true ->
  Opportunity.type o = "attachment" ->
  castObjectId rt (opportunityId req) = Some oid ->
  (forall e, findByUserAndOpportunity db (User._id (user req)) oid = Some e ->
             Application.status e = pending_payment) ->
  resume req = Some resumeFile ->
  recommendationLetter req = None ->
  Routes.createApplication rt env w opps req db
  = (respond 400 (Message "Recommendation letter is required for attachments"), db)
  /\ MpesaRoutes.createApplication rt w opps req db
     = (respond 400 (Message "Recommendation letter is required for attachments"), db).
Proof.
  intros Hopp Hactive Htype Hcast Hex Hresume Hletter.
  assert (Hcheck : checkSubmission rt w opps req db
                   = Ok (inl (respond 400
                               (Message "Recommendation letter is required for attachments")))).
  { unfold checkSubmission. rewrite Hopp. simpl. rewrite Hactive, Hcast. simpl.
    destruct (findByUserAndOpportunity db (User._id (user req)) oid) as [e|] eqn:E.
    - rewrite (Hex e eq_refl). simpl. rewrite Hresume, Htype, Hletter. reflexivity.
    - rewrite Hresume, Htype, Hletter. reflexivity. }
  unfold Routes.createApplication, MpesaRoutes.createApplication.
  now rewrite Hcheck.
Qed.

Lemma attachment_requires_letter_witness :
  Routes.createApplication host (envWith "sk_live_1") (world secondId 1700000060000)
    [attachment] attachmentSubmission []
  = (respond 400 (Message "Recommendation letter is required for attachments"), [])
  /\ MpesaRoutes.createApplication host (world secondId 1700000060000) [attachment]
       attachmentSubmission []
     = (respond 400 (Message "Recommendation letter is required for attachments"), []).
Proof.
  apply (attachment_requires_letter host (envWith "sk_live_1")
           (world secondId 1700000060000) [attachment] attachmentSubmission []
           attachment (Opportunity._id attachment) "%PDF-1.7 resume");
    try reflexivity.
  intros e H. discriminate H.
Defined.

(** ** Withdrawal and the lock of the review *)

Lemma findOwned_inv (rt : Runtime) (db : Store) (id userId : string) (a : Application.t) :
  findOwned rt db id userId = Ok (Some a) ->
  exists oid, castObjectId rt id = Some oid /\ Application._id a = oid
              /\ Application.userId a = userId /\ In a db.
Proof.
  unfold findOwned. destruct (castObjectId rt id) as [oid|]; simpl; [|discriminate].
  intros H. inversion H as [Hf]. apply find_some in Hf as [Hin Hp].
  apply andb_true_iff in Hp as [H1 H2]. apply String.eqb_eq in H1, H2.
  exists oid. auto.
Qed.

Lemma find_deleteById_none (id : string) (p : Application.t -> bool) (db : Store) :
  (forall x, p x = true -> Application._id x = id) ->
  find p (deleteById id db) = None.
Proof.
  intros Hp. unfold deleteById. induction db as [|x db IH]; simpl; [reflexivity|].
  destruct (Application._id x =? id) eqn:E; simpl; [exact IH|].
  destruct (p x) eqn:Px; [|exact IH].
  apply Hp in Px. apply String.eqb_neq in E. contradiction.
Qed.

(** X9.  [DELETE /:id] by the owner of an application in
    [pending_payment] or [submitted] answers 200 and removes exactly that
    application: it can no longer be found, every application with
    another id stays, and, pairs being unique, the (user, opportunity)
    pair is free for a new submission. *)
Theorem withdrawal_removes_application (rt : Runtime) (u : User.t) (id : string)
        (db : Store) (a : Application.t) :
  onePerPair db ->
  findOwned rt db id (User._id u) = Ok (Some a) ->
  Application.status a = pending_payment \/ Application.status a = submitted ->
  Routes.withdrawApplication rt u id db
  = (respond 200 (Message "Application withdrawn"), deleteById (Application._id a) db)
  /\ ~ In a (deleteById (Application._id a) db)
  /\ (forall x, In x db -> Application._id x <> Application._id a ->
                In x (deleteById (Application._id a) db))
  /\ findOwned rt (deleteById (Application._id a) db) id (User._id u) = Ok None
  /\ findByUserAndOpportunity (deleteById (Application._id a) db)
       (Application.userId a) (Application.opportunityId a) = None.
Proof.
  intros Hpairs Hfind Hst.
  destruct (findOwned_inv rt db id _ a Hfind) as (oid & Hcast & Hid & Huser & Hin).
  split.
  { unfold Routes.withdrawApplication, caught. rewrite Hfind. simpl.
    destruct Hst as [-> | ->]; reflexivity. }
  split.
  { unfold deleteById. intros H. apply filter_In in H as [_ H].
    now rewrite String.eqb_refl in H. }
  split.
  { intros x Hx Hne. unfold deleteById. apply filter_In. split; [exact Hx|].
    apply String.eqb_neq in Hne. now rewrite Hne. }
  split.
  { unfold findOwned. rewrite Hcast. simpl. rewrite find_deleteById_none; [reflexivity|].
    intros x Hx. apply andb_true_iff in Hx as [Hx _]. apply String.eqb_eq in Hx. congruence. }
  destruct (findByUserAndOpportunity (deleteById (Application._id a) db)
              (Application.userId a) (Application.opportunityId a)) as [x|] eqn:E;
    [|reflexivity].
  exfalso. apply find_pair_some in E as [Hx Hpair].
  unfold deleteById in Hx. apply filter_In in Hx as [Hx Hne].
  assert (x = a) as ->.
  { apply (NoDup_map_In_eq pairOf db); trivial. }
  now rewrite String.eqb_refl in Hne.
Qed.

Lemma withdrawal_removes_application_witness :
  Routes.withdrawApplication host alice appId [paidApp]
  = (respond 200 (Message "Application withdrawn"),
     deleteById (Application._id paidApp) [paidApp])
  /\ ~ In paidApp (deleteById (Application._id paidApp) [paidApp])
  /\ (forall x, In x [paidApp] -> Application._id x <> Application._id paidApp ->
                In x (deleteById (Application._id paidApp) [paidApp]))
  /\ findOwned host (deleteById (Application._id paidApp) [paidApp]) appId (User._id alice)
     = Ok None
  /\ findByUserAndOpportunity (deleteById (Application._id paidApp) [paidApp])
       (Application.userId paidApp) (Application.opportunityId paidApp) = None.
Proof.
  apply (withdrawal_removes_application host alice appId [paidApp] paidApp).
  - unfold onePerPair. simpl. constructor; [simpl; tauto|constructor].
  - reflexivity.
  - right. reflexivity.
Defined.

(** X10.  Once an application has left [pending_payment] and [submitted],
    its owner can neither edit nor withdraw it: [PATCH /:id] and
    [DELETE /:id] both answer 400 and the store is unchanged. *)
Theorem review_locks_application (rt : Runtime) (u : User.t) (id : string) (body : value)
        (db : Store) (a : Application.t) :
  findOwned rt db id (User._id u) = Ok (Some a) ->
  Application.status a <> pending_payment ->
  Application.status a <> submitted ->
  Routes.updateApplication rt u id body db
  = (respond 400 (Message "Application can no longer be updated"), db)
  /\ Routes.withdrawApplication rt u id db
     = (respond 400 (Message "Application cannot be withdrawn"), db).
Proof.
  intros Hfind Hp Hs.
  unfold Routes.updateApplication, Routes.withdrawApplication, caught. rewrite Hfind. simpl.
  destruct (Application.status a); try contradiction; split; reflexivity.
Qed.

Lemma review_locks_application_witness :
  Routes.updateApplication host alice appId patchBody [reviewedApp]
  = (respond 400 (Message "Application can no longer be updated"), [reviewedApp])
  /\ Routes.withdrawApplication host alice appId [reviewedApp]
     = (respond 400 (Message "Application cannot be withdrawn"), [reviewedApp]).
Proof.
  apply (review_locks_application host alice appId patchBody [reviewedApp] reviewedApp);
    [reflexivity|discriminate|discriminate].
Defined.

(** ** The administrator's edit *)

Lemma sameExceptStatus_refl (a : Application.t) : sameExceptStatus a a.
Proof. unfold sameExceptStatus. now destruct a. Qed.

(** X11.  On a collection with unique ids the administrator's edit keeps
    the number of applications and changes nothing but a status: cover
    letter, documents and payment fields are as they were.  A request for
    [pending_payment] is answered 400 and changes nothing. *)
Theorem admin_edit_frame (rt : Runtime) (id : string) (body : value) (db : Store) :
  uniqueIds db ->
  Forall2 sameExceptStatus db (snd (Routes.adminUpdateStatus rt id body db))
  /\ List.length (snd (Routes.adminUpdateStatus rt id body db)) = List.length db
  /\ Routes.adminUpdateStatus rt id backToPending db
     = (respond 400
          (Message "Invalid status. Use: submitted, under_review, shortlisted, rejected, accepted"),
        db).
Proof.
  intros Hnd.
  assert (H2 : Forall2 sameExceptStatus db (snd (Routes.adminUpdateStatus rt id body db))).
  { unfold Routes.adminUpdateStatus, caught.
    destruct (nullish body); simpl; [apply Forall2_refl_on, sameExceptStatus_refl|].
    destruct (if truthy (get body "status") then _ else None) as [s|]; simpl;
      [|apply Forall2_refl_on, sameExceptStatus_refl].
    destruct (findById rt db id) as [[a|]|] eqn:Hfind; simpl;
      try apply Forall2_refl_on, sameExceptStatus_refl.
    destruct (findById_found rt db _ a Hfind) as (oid & _ & _ & Hf).
    apply find_some in Hf as [Hin _].
    apply (save_frame sameExceptStatus a _ db); auto using sameExceptStatus_refl.
    unfold sameExceptStatus. now destruct a. }
  split; [exact H2|]. split; [symmetry; eapply Forall2_length; eauto|reflexivity].
Qed.

Lemma admin_edit_frame_witness :
  Forall2 sameExceptStatus [paidApp]
    (snd (Routes.adminUpdateStatus host appId (statusBody "under_review") [paidApp]))
  /\ List.length (snd (Routes.adminUpdateStatus host appId (statusBody "under_review")
                         [paidApp])) = List.length [paidApp]
  /\ Routes.adminUpdateStatus host appId backToPending [paidApp]
     = (respond 400
          (Message "Invalid status. Use: submitted, under_review, shortlisted, rejected, accepted"),
        [paidApp]).
Proof.
  apply (admin_edit_frame host appId (statusBody "under_review") [paidApp]).
  unfold uniqueIds. simpl. constructor; [simpl; tauto|constructor].
Defined.

(** ** References, there and back *)

(** X12.  Every reference the routes hand out for an application comes
    back from the webhook's two replaces as the id of that application:
    the one of [getPaymentLink], the one of [POST /:id/charge-mpesa], the
    bare [APP-<id>] put into the callback URL, and the account reference
    of the M-Pesa flow. *)
Theorem reference_round_trip (rt : Runtime) (env : Env) (t : N) (a : Application.t)
        (o : option Opportunity.t) (u : User.t) (phone : string) (phoneNumber : value) :
  isObjectIdHex (Application._id a) = true ->
  Routes.applicationIdOf (Paystack.reference (Routes.paymentRequest env t a o u))
  = Application._id a
  /\ Routes.applicationIdOf
       (Paystack.charge_reference (Routes.chargeRequest rt t a o u phone))
     = Application._id a
  /\ Routes.applicationIdOf (stk_reference (MpesaRoutes.stkRequest phoneNumber a o))
     = Application._id a
  /\ Paystack.callbackUrl (Routes.paymentRequest env t a o u)
     = Routes.baseUrl env ++ "?payment=done&reference="
       ++ MpesaRoutes.accountReference (Application._id a).
Proof.
  intros Hhex. repeat split.
  - now apply applicationIdOf_paymentReference.
  - now apply applicationIdOf_paymentReference.
  - now apply applicationIdOf_plain.
Qed.

Lemma reference_round_trip_witness :
  Routes.applicationIdOf
    (Paystack.reference (Routes.paymentRequest (envWith "sk_live_1") 1700000000000
                           pendingApp (Some internship) alice))
  = Application._id pendingApp
  /\ Routes.applicationIdOf
       (Paystack.charge_reference
          (Routes.chargeRequest host 1700000000000 pendingApp (Some internship) alice
             "0712345678"))
     = Application._id pendingApp
  /\ Routes.applicationIdOf
       (stk_reference (MpesaRoutes.stkRequest (VStr "0712345678") pendingApp
                         (Some internship)))
     = Application._id pendingApp
  /\ Paystack.callbackUrl (Routes.paymentRequest (envWith "sk_live_1") 1700000000000
                             pendingApp (Some internship) alice)
     = Routes.baseUrl (envWith "sk_live_1") ++ "?payment=done&reference="
       ++ MpesaRoutes.accountReference (Application._id pendingApp).
Proof.
  apply (reference_round_trip host (envWith "sk_live_1") 1700000000000 pendingApp
           (Some internship) alice "0712345678" (VStr "0712345678")).
  reflexivity.
Defined.

(** X13.  References do not collide: two payment references are equal
    only for the same application and the same clock reading. *)
Theorem payment_references_distinct (id1 id2 : string) (t1 t2 : N) :
  isObjectIdHex id1 = true -> isObjectIdHex id2 = true ->
  Routes.paymentReference id1 t1 = Routes.paymentReference id2 t2 ->
  id1 = id2 /\ t1 = t2.
Proof.
  intros H1 H2 E.
  assert (Hid : id1 = id2).
  { rewrite <- (applicationIdOf_paymentReference id1 t1 H1),
            <- (applicationIdOf_paymentReference id2 t2 H2).
    now rewrite E. }
  split; [exact Hid|]. subst id2. now apply (paymentReference_inj id1).
Qed.

Lemma payment_references_distinct_witness :
  appId = appId /\ 1700000000000%N = 1700000000000%N.
Proof.
  apply (payment_references_distinct appId appId 1700000000000 1700000000000);
    reflexivity.
Defined.

(** ** Payment links *)

Lemma initializeTransaction_Ok (rt : Runtime) (env : Env)
      (post : Paystack.InitBody -> result value) (args : Paystack.InitArgs)
      (link ref : value) :
  Paystack.initializeTransaction rt env post args = Ok (link, ref) ->
  truthy link = true /\ Paystack.configured (PAYSTACK_SECRET_KEY env) <> None.
Proof.
  unfold Paystack.initializeTransaction, Paystack.initBody. intros H.
  destruct (Paystack.configured (PAYSTACK_SECRET_KEY env)); [|discriminate].
  split; [|discriminate].
  destruct (Paystack.amountInSmallest rt (Paystack.amount args)); simpl in H;
    [|discriminate].
  destruct (post _) as [data|]; simpl in H; [|discriminate].
  destruct (nullish data); [discriminate|].
  destruct (truthy (get data "status")); simpl in H.
  - destruct (truthy (get (get data "data") "authorization_url")) eqn:E; simpl in H.
    + inversion H; subst. exact E.
    + destruct (String_ rt _); discriminate.
  - destruct (String_ rt _); discriminate.
Qed.

(** X14.  A 200 answer of [POST /] or of [POST /:id/pay] in the Paystack
    flow always carries a payment link that is truthy, and is only given
    when the secret key is configured; without the key the adapter raises
    [PAYSTACK_SECRET_KEY is not set] whatever the provider would answer. *)
Theorem payment_link_is_there (rt : Runtime) (env : Env) (w : World)
        (opps : list Opportunity.t) (req : Submission) (u : User.t) (id : string)
        (db : Store) :
  (code (fst (Routes.createApplication rt env w opps req db)) = 200 ->
   exists a link amount,
     payload (fst (Routes.createApplication rt env w opps req db))
     = PaymentRequired a link amount
     /\ truthy link = true
     /\ Paystack.configured (PAYSTACK_SECRET_KEY env) <> None)
  /\ (code (fst (Routes.pay rt env w opps u id db)) = 200 ->
      exists link,
        payload (fst (Routes.pay rt env w opps u id db)) = PaymentLink link
        /\ truthy link = true
        /\ Paystack.configured (PAYSTACK_SECRET_KEY env) <> None)
  /\ (Paystack.configured (PAYSTACK_SECRET_KEY env) = None ->
      forall args,
        Paystack.initializeTransaction rt env (post w) args
        = Throw (Error "PAYSTACK_SECRET_KEY is not set")).
Proof.
  repeat split.
  - unfold Routes.createApplication.
    destruct (checkSubmission rt w opps req db)
      as [[early|[[[[o existing] oid] resumeUrl] letterUrl]]|] eqn:Hcheck; simpl.
    + unfold checkSubmission in Hcheck.
      destruct (Opportunity_findById rt opps (opportunityId req)) as [[o'|]|];
        simpl in Hcheck; try discriminate;
        [|inversion Hcheck; subst; simpl; intros H; discriminate H].
      destruct (negb (Opportunity.isActive o'));
        [inversion Hcheck; subst; simpl; intros H; discriminate H|].
      destruct (castObjectId rt (opportunityId req)); simpl in Hcheck; [|discriminate].
      destruct (match findByUserAndOpportunity db _ _ with Some _ => _ | None => false end);
        [inversion Hcheck; subst; simpl; intros H; discriminate H|].
      destruct (resume req);
        [|inversion Hcheck; subst; simpl; intros H; discriminate H].
      destruct (_ && _);
        [inversion Hcheck; subst; simpl; intros H; discriminate H|].
      destruct (uploadToCloudinary w _ _); simpl in Hcheck; [|discriminate].
      destruct (recommendationLetter req);
        [destruct (uploadToCloudinary w _ _); simpl in Hcheck|]; discriminate.
    + unfold Routes.getPaymentLink.
      destruct (Paystack.initializeTransaction rt env (post w) _) as [[link ref]|] eqn:Hinit;
        simpl; [|intros H; discriminate H].
      intros _. eexists _, link, _. split; [reflexivity|].
      eapply initializeTransaction_Ok; eauto.
    + intros H; discriminate H.
  - unfold Routes.pay, caught.
    destruct (findOwnedPending rt db id (User._id u)) as [[a|]|]; simpl;
      try (intros H; discriminate H).
    unfold Routes.getPaymentLink.
    destruct (Paystack.initializeTransaction rt env (post w) _) as [[link ref]|] eqn:Hinit;
      simpl; [|intros H; discriminate H].
    intros _. exists link. split; [reflexivity|].
    eapply initializeTransaction_Ok; eauto.
  - intros Hkey args. unfold Paystack.initializeTransaction, Paystack.initBody.
    now rewrite Hkey.
Qed.

Lemma payment_link_is_there_witness :
  (exists a link amount,
     payload (fst (Routes.createApplication host (envWith "sk_live_1")
                     (world appId 1700000000000) [internship] submission []))
     = PaymentRequired a link amount
     /\ truthy link = true
     /\ Paystack.configured (PAYSTACK_SECRET_KEY (envWith "sk_live_1")) <> None)
  /\ (exists link,
        payload (fst (Routes.pay host (envWith "sk_live_1") (world secondId 1700000060000)
                        [internship] alice appId [pendingApp])) = PaymentLink link
        /\ truthy link = true
        /\ Paystack.configured (PAYSTACK_SECRET_KEY (envWith "sk_live_1")) <> None)
  /\ Paystack.initializeTransaction host noKey (post (world appId 1700000000000))
       firstRequest
     = Throw (Error "PAYSTACK_SECRET_KEY is not set").
Proof.
  split; [|split].
  - apply (proj1 (payment_link_is_there host (envWith "sk_live_1")
                    (world appId 1700000000000) [internship] submission alice appId [])).
    reflexivity.
  - apply (proj1 (proj2 (payment_link_is_there host (envWith "sk_live_1")
                           (world secondId 1700000060000) [internship] submission alice
                           appId [pendingApp]))).
    reflexivity.
  - apply (proj2 (proj2 (payment_link_is_there host noKey (world appId 1700000000000)
                           [internship] submission alice appId []))).
    reflexivity.
Defined.

(** ** Paying needs an application that awaits payment *)

Lemma findOwnedPending_none (rt : Runtime) (db : Store) (id oid userId : string) :
  castObjectId rt id = Some oid ->
  (forall a, In a db -> Application._id a = oid -> Application.userId a = userId ->
             Application.status a <> pending_payment) ->
  findOwnedPending rt db id userId = Ok None.
Proof.
  intros Hcast Hno. unfold findOwnedPending. rewrite Hcast. simpl.
  destruct (find _ db) as [a|] eqn:E; [|reflexivity].
  exfalso. apply find_some in E as [Hin Hp].
  apply andb_true_iff in Hp as [Hp Hst]. apply andb_true_iff in Hp as [H1 H2].
  apply String.eqb_eq in H1, H2. apply status_eqb_eq in Hst.
  exact (Hno a Hin H1 H2 Hst).
Qed.

(** X15.  The payment routes act only on an application of the caller
    that is in [pending_payment]: when the id resolves to no such
    application, [POST /:id/pay] of either flow and
    [POST /:id/charge-mpesa] answer 404 without reaching a provider and
    without touching the store; and [POST /:id/charge-mpesa] writes
    nothing to the store whatever the request. *)
Theorem payment_routes_need_pending (rt : Runtime) (env : Env) (w : World)
        (opps : list Opportunity.t) (u : User.t) (id oid phone : string)
        (phoneNumber : value) (body : value) (db : Store) :
  castObjectId rt id = Some oid ->
  (forall a, In a db -> Application._id a = oid -> Application.userId a = User._id u ->
             Application.status a <> pending_payment) ->
  isEmpty phone = false ->
  truthy phoneNumber = true ->
  Routes.pay rt env w opps u id db
  = (respond 404 (Message "Application not found"), db)
  /\ Routes.chargeMpesaRoute rt w opps u id (VObj [("phone", VStr phone)]) db
     = (respond 404 (Message "Application not found"), db)
  /\ MpesaRoutes.pay rt w opps u id (VObj [("phoneNumber", phoneNumber)]) db
     = (respond 404 (Message "Application not found"), db)
  /\ snd (Routes.chargeMpesaRoute rt w opps u id body db) = db.
Proof.
  intros Hcast Hno Hphone Hnum.
  pose proof (findOwnedPending_none rt db id oid (User._id u) Hcast Hno) as Hfind.
  repeat split.
  - unfold Routes.pay, caught. now rewrite Hfind.
  - unfold Routes.chargeMpesaRoute, caughtOr. simpl. rewrite Hphone, Hfind. reflexivity.
  - unfold MpesaRoutes.pay, caught. simpl. rewrite Hnum. simpl. now rewrite Hfind.
  - unfold Routes.chargeMpesaRoute, caughtOr.
    destruct (nullish body); simpl; trivial.
    destruct (get body "phone"); simpl; trivial.
    destruct (isEmpty s); simpl; trivial.
    destruct (findOwnedPending rt db id (User._id u)) as [[a|]|]; simpl; trivial.
    destruct (charge w _) as [r|]; simpl; trivial.
    destruct (nullish r); reflexivity.
Qed.

Lemma payment_routes_need_pending_witness :
  Routes.pay host (envWith "sk_live_1") (world secondId 1700000060000) [internship]
    alice appId [paidApp]
  = (respond 404 (Message "Application not found"), [paidApp])
  /\ Routes.chargeMpesaRoute host (world secondId 1700000060000) [internship] alice appId
       (VObj [("phone", VStr "0712345678")]) [paidApp]
     = (respond 404 (Message "Application not found"), [paidApp])
  /\ MpesaRoutes.pay host (world secondId 1700000060000) [internship] alice appId
       (VObj [("phoneNumber", VStr "0712345678")]) [paidApp]
     = (respond 404 (Message "Application not found"), [paidApp])
  /\ snd (Routes.chargeMpesaRoute host (world secondId 1700000060000) [internship] alice
            appId (phoneBody "0712345678") [paidApp]) = [paidApp].
Proof.
  apply (payment_routes_need_pending host (envWith "sk_live_1")
           (world secondId 1700000060000) [internship] alice appId appId "0712345678"
           (VStr "0712345678") (phoneBody "0712345678") [paidApp]);
    try reflexivity.
  intros a [<-|[]] _ _. discriminate.
Defined.

(** ** The M-Pesa callback *)

Section Callback.
Variable rt : Runtime.

(** X16.  A success callback for the one application whose outstanding
    checkout request it matches saves that application as [submitted]
    with the receipt and the amount of the callback and clears the
    outstanding request; delivered again, the same callback matches
    nothing and stops without touching the store. *)
Theorem mpesa_callback_settles_once (body : value) (db : Store) (a : Application.t)
        (tx amt : value) :
  truthy (stkResult body) = true ->
  get (stkResult body) "ResultCode" = VNum (num_of_Z 0) ->
  MpesaRoutes.getItem (metadataOf body) "MpesaReceiptNumber" = Ok tx ->
  MpesaRoutes.getItem (metadataOf body) "Amount" = Ok amt ->
  findByCheckoutRequestId rt db (checkoutOf body) = Some a ->
  (forall x, In x db -> x <> a ->
             queryMatches rt (checkoutOf body) (Application.mpesaCheckoutRequestId x)
             = false) ->
  queryMatches rt (checkoutOf body) VUndefined = false ->
  exists a',
    MpesaRoutes.mpesaCallback rt body db = (Saved, save a' db)
    /\ Application._id a' = Application._id a
    /\ Application.status a' = submitted
    /\ Application.mpesaTransactionId a' = tx
    /\ Application.amountPaid a' = amt
    /\ Application.mpesaCheckoutRequestId a' = VUndefined
    /\ MpesaRoutes.mpesaCallback rt body (save a' db) = (Stopped, save a' db).
Proof.
  intros Hres Hcode Htx Hamt Hfind Hothers Hundef.
  set (a' := Application.set_mpesaCheckoutRequestId VUndefined
               (Application.set_amountPaid amt
                  (Application.set_mpesaTransactionId tx
                     (Application.set_status submitted a)))).
  exists a'. split.
  { rewrite (mpesaCallback_matched rt body db a tx amt Hres Htx Hamt Hfind).
    rewrite Hcode. reflexivity. }
  repeat split.
  assert (Hnone : findByCheckoutRequestId rt (save a' db) (checkoutOf body) = None).
  { unfold findByCheckoutRequestId.
    match goal with |- find ?p ?l = None => destruct (find p l) as [y|] eqn:E end;
      [|reflexivity].
    exfalso. apply find_some in E as [Hin Hq].
    rewrite (save_no_match rt (checkoutOf body) a a' db) in Hq; trivial; discriminate. }
  unfold MpesaRoutes.mpesaCallback.
  fold (stkResult body). rewrite Hres. cbn [negb].
  fold (metadataOf body). rewrite Htx. cbn [bind]. rewrite Hamt. cbn [bind].
  fold (checkoutOf body). now rewrite Hnone.
Qed.

(** X17.  A callback that reports a failure for an application in
    [pending_payment] clears the outstanding checkout request and changes
    nothing else: the application stays in [pending_payment], so a new
    attempt can be started. *)
Theorem mpesa_failure_keeps_pending (body : value) (db : Store) (a : Application.t)
        (tx amt : value) :
  truthy (stkResult body) = true ->
  match get (stkResult body) "ResultCode" with
  | VNum (Num q) => Qeq_bool q 0
  | _ => false
  end = false ->
  MpesaRoutes.getItem (metadataOf body) "MpesaReceiptNumber" = Ok tx ->
  MpesaRoutes.getItem (metadataOf body) "Amount" = Ok amt ->
  findByCheckoutRequestId rt db (checkoutOf body) = Some a ->
  Application.status a = pending_payment ->
  MpesaRoutes.mpesaCallback rt body db
  = (Saved, save (Application.set_mpesaCheckoutRequestId VUndefined a) db)
  /\ sameExceptCheckout a (Application.set_mpesaCheckoutRequestId VUndefined a)
  /\ Application.status (Application.set_mpesaCheckoutRequestId VUndefined a)
     = pending_payment.
Proof.
  intros Hres Hcode Htx Hamt Hfind Hst.
  rewrite (mpesaCallback_matched rt body db a tx amt Hres Htx Hamt Hfind), Hcode.
  replace (Application.set_status pending_payment a) with a
    by (destruct a; simpl in *; now subst).
  repeat split; trivial.
Qed.

(** X18.  On a collection with unique ids an M-Pesa callback keeps the
    number of applications and changes, in any of them, at most the
    status, the receipt, the amount and the outstanding checkout
    request. *)
Theorem mpesa_callback_frame (body : value) (db : Store) :
  uniqueIds db ->
  Forall2 sameExceptMpesa db (snd (MpesaRoutes.mpesaCallback rt body db))
  /\ List.length (snd (MpesaRoutes.mpesaCallback rt body db)) = List.length db.
Proof.
  intros Hnd.
  assert (Hrefl : forall x, sameExceptMpesa x x) by (unfold sameExceptMpesa; repeat split).
  assert (H2 : Forall2 sameExceptMpesa db (snd (MpesaRoutes.mpesaCallback rt body db))).
  { unfold MpesaRoutes.mpesaCallback.
    destruct (negb (truthy (get (get body "Body") "stkCallback"))); simpl;
      [now apply Forall2_refl_on|].
    match goal with
    | |- context [match ?r with Ok _ => _ | Throw _ => _ end] =>
        destruct r as [[tx amount]|]
    end; simpl; [|now apply Forall2_refl_on].
    destruct (findByCheckoutRequestId rt db _) as [a|] eqn:Hfind; simpl;
      [|now apply Forall2_refl_on].
    apply find_some in Hfind as [Hin _].
    apply (save_frame sameExceptMpesa a _ db); auto.
    - now destruct (match get _ "ResultCode" with
                    | VNum (Num q) => Qeq_bool q 0
                    | _ => false
                    end).
    - unfold sameExceptMpesa.
      destruct (match get _ "ResultCode" with
                | VNum (Num q) => Qeq_bool q 0
                | _ => false
                end); simpl; repeat split. }
  split; [exact H2|]. symmetry. eapply Forall2_length; eauto.
Qed.

End Callback.

Lemma mpesa_callback_settles_once_witness :
  exists a',
    MpesaRoutes.mpesaCallback host paidCallback [pushedApp] = (Saved, save a' [pushedApp])
    /\ Application._id a' = Application._id pushedApp
    /\ Application.status a' = submitted
    /\ Application.mpesaTransactionId a' = VStr "QK12ABCDEF"
    /\ Application.amountPaid a' = VNum (num_of_Z 500)
    /\ Application.mpesaCheckoutRequestId a' = VUndefined
    /\ MpesaRoutes.mpesaCallback host paidCallback (save a' [pushedApp])
       = (Stopped, save a' [pushedApp]).
Proof.
  apply (mpesa_callback_settles_once host paidCallback [pushedApp] pushedApp
           (VStr "QK12ABCDEF") (VNum (num_of_Z 500))); try reflexivity.
  intros x [<-|[]] H. contradiction.
Defined.

Lemma mpesa_failure_keeps_pending_witness :
  MpesaRoutes.mpesaCallback host cancelledCallback [pushedApp]
  = (Saved, save (Application.set_mpesaCheckoutRequestId VUndefined pushedApp) [pushedApp])
  /\ sameExceptCheckout pushedApp
       (Application.set_mpesaCheckoutRequestId VUndefined pushedApp)
  /\ Application.status (Application.set_mpesaCheckoutRequestId VUndefined pushedApp)
     = pending_payment.
Proof.
  apply (mpesa_failure_keeps_pending host cancelledCallback [pushedApp] pushedApp
           VUndefined VUndefined); reflexivity.
Defined.

Lemma mpesa_callback_frame_witness :
  Forall2 sameExceptMpesa [pushedApp]
    (snd (MpesaRoutes.mpesaCallback host paidCallback [pushedApp]))
  /\ List.length (snd (MpesaRoutes.mpesaCallback host paidCallback [pushedApp]))
     = List.length [pushedApp].
Proof.
  apply (mpesa_callback_frame host paidCallback [pushedApp]).
  unfold uniqueIds. simpl. constructor; [simpl; tauto|constructor].
Defined.

(** X19.  Attempt and confirmation compose in the M-Pesa flow: when
    [POST /:id/pay] has stored the checkout request id that the provider
    answered for a pending application, a success callback carrying that
    id (which matches no other application) leaves the application
    [submitted], with the amount of the callback and no outstanding
    request. *)
Theorem mpesa_pay_then_callback (rt : Runtime) (w : World) (opps : list Opportunity.t)
        (u : User.t) (id : string) (phoneNumber stk : value) (db : Store)
        (a : Application.t) (callback tx amt : value) :
  findOwnedPending rt db id (User._id u) = Ok (Some a) ->
  truthy phoneNumber = true ->
  initiateSTKPush w (MpesaRoutes.stkRequest phoneNumber a (populate opps a)) = Ok stk ->
  nullish stk = false ->
  checkoutOf callback = get stk "CheckoutRequestID" ->
  queryMatches rt (checkoutOf callback) (get stk "CheckoutRequestID") = true ->
  (forall x, In x db -> Application._id x <> Application._id a ->
             queryMatches rt (checkoutOf callback) (Application.mpesaCheckoutRequestId x)
             = false) ->
  truthy (stkResult callback) = true ->
  get (stkResult callback) "ResultCode" = VNum (num_of_Z 0) ->
  MpesaRoutes.getItem (metadataOf callback) "MpesaReceiptNumber" = Ok tx ->
  MpesaRoutes.getItem (metadataOf callback) "Amount" = Ok amt ->
  let attempted :=
    snd (MpesaRoutes.pay rt w opps u id (VObj [("phoneNumber", phoneNumber)]) db) in
  let confirmed := snd (MpesaRoutes.mpesaCallback rt callback attempted) in
  exists a',
    find (fun x => Application._id x =? Application._id a) confirmed = Some a'
    /\ Application.status a' = submitted
    /\ Application.amountPaid a' = amt
    /\ Application.mpesaTransactionId a' = tx
    /\ Application.mpesaCheckoutRequestId a' = VUndefined.
Proof.
  intros Hfind Hphone Hstk Hnull Hq Hmatch Hothers Hres Hcode Htx Hamt attempted confirmed.
  destruct (findOwnedPending_inv rt db id _ a Hfind) as (Hin & Hst & _).
  set (a1 := Application.set_mpesaCheckoutRequestId (get stk "CheckoutRequestID") a).
  assert (Hatt : attempted = save a1 db).
  { unfold attempted, MpesaRoutes.pay, caught. simpl. rewrite Hphone. simpl.
    rewrite Hfind. simpl. rewrite Hstk. simpl. rewrite Hnull. reflexivity. }
  assert (Hfound : findByCheckoutRequestId rt attempted (checkoutOf callback) = Some a1).
  { rewrite Hatt. unfold findByCheckoutRequestId.
    apply (find_save_match _ a a1 db); trivial. }
  set (a' := Application.set_mpesaCheckoutRequestId VUndefined
               (Application.set_amountPaid amt
                  (Application.set_mpesaTransactionId tx
                     (Application.set_status submitted a1)))).
  assert (Hconf : confirmed = save a' attempted).
  { unfold confirmed.
    rewrite (mpesaCallback_matched rt callback attempted a1 tx amt Hres Htx Hamt Hfound).
    rewrite Hcode. reflexivity. }
  exists a'. split; [|repeat split].
  rewrite Hconf, Hatt.
  change (Application._id a) with (Application._id a').
  rewrite find_save.
  change (Application._id a') with (Application._id a1).
  rewrite find_save.
  change (Application._id a1) with (Application._id a).
  destruct (In_find_id a db Hin) as [x Hx]. now rewrite Hx.
Qed.

Lemma mpesa_pay_then_callback_witness :
  exists a',
    find (fun x => Application._id x =? Application._id pendingApp)
      (snd (MpesaRoutes.mpesaCallback host paidCallback
              (snd (MpesaRoutes.pay host (world secondId 1700000060000) [internship]
                      alice appId (VObj [("phoneNumber", VStr "0712345678")])
                      [pendingApp]))))
    = Some a'
    /\ Application.status a' = submitted
    /\ Application.amountPaid a' = VNum (num_of_Z 500)
    /\ Application.mpesaTransactionId a' = VStr "QK12ABCDEF"
    /\ Application.mpesaCheckoutRequestId a' = VUndefined.
Proof.
  apply (mpesa_pay_then_callback host (world secondId 1700000060000) [internship] alice
           appId (VStr "0712345678") (VObj [("CheckoutRequestID", VStr "ws_CO_0001")])
           [pendingApp] pendingApp paidCallback (VStr "QK12ABCDEF")
           (VNum (num_of_Z 500))); try reflexivity.
  intros x [<-|[]] H. now contradiction H.
Defined.

(** ** The M-Pesa charge of the Paystack adapter *)

Lemma digit_not_space (c : ascii) : isDigit c = true -> Charge.isSpace c = false.
Proof.
  unfold isDigit, Charge.isSpace. intros H.
  remember (nat_of_ascii c) as n. clear Heqn.
  apply andb_true_iff in H as [H1 H2]. apply Nat.leb_le in H1, H2.
  destruct (Nat.leb_spec 9 n), (Nat.leb_spec n 13), (Nat.eqb_spec n 32),
    (Nat.eqb_spec n 160); simpl; try reflexivity; lia.
Qed.

Lemma removeSpaces_digits (s : string) : allDigits s = true -> Charge.removeSpaces s = s.
Proof.
  induction s as [|c s IH]; simpl; [reflexivity|]. intros H.
  apply andb_true_iff in H as [Hc Hs]. rewrite (digit_not_space c Hc). now rewrite IH.
Qed.

Lemma dropLeadingPlus_digits (s : string) :
  allDigits s = true -> Charge.dropLeadingPlus s = s.
Proof.
  destruct s as [|c s]; simpl; [reflexivity|]. intros H.
  apply andb_true_iff in H as [Hc _].
  destruct (Ascii.eqb_spec c "+"%char) as [->|]; [discriminate Hc|reflexivity].
Qed.

(** X20.  The four ways of writing a subscriber number [s] (local with
    a leading 0, bare, with the country code, with a plus before the
    country code, also with a blank after it) all become [254s]. *)
Theorem phone_forms_agree (s : string) :
  allDigits s = true ->
  startsWith s "0" = false ->
  startsWith s "254" = false ->
  Charge.normalized ("0" ++ s) = "254" ++ s
  /\ Charge.normalized s = "254" ++ s
  /\ Charge.normalized ("254" ++ s) = "254" ++ s
  /\ Charge.normalized ("+254" ++ s) = "254" ++ s
  /\ Charge.normalized ("+254 " ++ s) = "254" ++ s.
Proof.
  intros Hd H0 H254.
  assert (Hpre : forall t, String.prefix "" t = true) by (intros []; reflexivity).
  unfold Charge.normalized, startsWith in *. repeat split.
  - simpl. rewrite (removeSpaces_digits s Hd). simpl. now rewrite Hpre.
  - rewrite (removeSpaces_digits s Hd), (dropLeadingPlus_digits s Hd), H0, H254.
    reflexivity.
  - simpl. rewrite (removeSpaces_digits s Hd). simpl. now rewrite Hpre.
  - simpl. rewrite (removeSpaces_digits s Hd). simpl. now rewrite Hpre.
  - simpl. rewrite (removeSpaces_digits s Hd). simpl. now rewrite Hpre.
Qed.

Lemma phone_forms_agree_witness :
  Charge.normalized ("0" ++ "712345678") = "254" ++ "712345678"
  /\ Charge.normalized "712345678" = "254" ++ "712345678"
  /\ Charge.normalized ("254" ++ "712345678") = "254" ++ "712345678"
  /\ Charge.normalized ("+254" ++ "712345678") = "254" ++ "712345678"
  /\ Charge.normalized ("+254 " ++ "712345678") = "254" ++ "712345678".
Proof. apply (phone_forms_agree "712345678"); reflexivity. Defined.

Lemma noSpaces_removeSpaces (s : string) : noSpaces (Charge.removeSpaces s) = true.
Proof.
  unfold noSpaces. induction s as [|c s IH]; simpl; [reflexivity|].
  destruct (Charge.isSpace c) eqn:E; simpl; [exact IH|]. now rewrite E, IH.
Qed.

Lemma removeSpaces_noSpaces (s : string) : noSpaces s = true -> Charge.removeSpaces s = s.
Proof.
  unfold noSpaces. induction s as [|c s IH]; simpl; [reflexivity|]. intros H.
  apply andb_true_iff in H as [Hc Hs]. apply negb_true_iff in Hc.
  rewrite Hc. now rewrite IH.
Qed.

Lemma noSpaces_tail (c : ascii) (s : string) : noSpaces (String c s) = true -> noSpaces s = true.
Proof. unfold noSpaces. simpl. intros H. now apply andb_true_iff in H as [_ H]. Qed.

Lemma noSpaces_dropLeadingPlus (s : string) :
  noSpaces s = true -> noSpaces (Charge.dropLeadingPlus s) = true.
Proof.
  destruct s as [|c s]; simpl; [trivial|]. intros H.
  destruct (Ascii.eqb c "+"%char); [now apply (noSpaces_tail c)|exact H].
Qed.

Lemma startsWith_inv (p r : string) :
  startsWith r p = true -> exists t, r = p ++ t.
Proof.
  unfold startsWith. revert r. induction p as [|a p IH]; intros r H.
  - now exists r.
  - destruct r as [|b r]; [discriminate H|]. cbn [String.prefix] in H.
    destruct (ascii_dec a b) as [<-|]; [|discriminate H].
    destruct (IH r H) as [t ->]. now exists t.
Qed.

Lemma normalized_fixed (r : string) :
  noSpaces r = true -> startsWith r "254" = true -> Charge.normalized r = r.
Proof.
  intros Hns Hpre. unfold Charge.normalized. rewrite (removeSpaces_noSpaces r Hns).
  destruct (startsWith_inv "254" r Hpre) as [t ->].
  change (Charge.dropLeadingPlus ("254" ++ t)) with ("254" ++ t).
  change (startsWith ("254" ++ t) "0") with false.
  cbv iota. now rewrite Hpre.
Qed.

Lemma normalized_plus_fixed (r : string) :
  noSpaces r = true -> startsWith r "254" = true -> Charge.normalized ("+" ++ r) = r.
Proof.
  intros Hns Hpre. unfold Charge.normalized.
  change (Charge.removeSpaces ("+" ++ r)) with (String "+" (Charge.removeSpaces r)).
  rewrite (removeSpaces_noSpaces r Hns).
  change (Charge.dropLeadingPlus (String "+" r)) with r.
  destruct (startsWith_inv "254" r Hpre) as [t ->].
  change (startsWith ("254" ++ t) "0") with false.
  cbv iota. now rewrite Hpre.
Qed.

Lemma normalized_shape (phone : string) :
  startsWith (Charge.normalized phone) "254" = true
  /\ noSpaces (Charge.normalized phone) = true.
Proof.
  assert (Hpre : forall t, String.prefix "" t = true) by (intros []; reflexivity).
  assert (Hn : noSpaces (Charge.dropLeadingPlus (Charge.removeSpaces phone)) = true)
    by apply noSpaces_dropLeadingPlus, noSpaces_removeSpaces.
  unfold Charge.normalized.
  destruct (startsWith (Charge.dropLeadingPlus (Charge.removeSpaces phone)) "0") eqn:E0.
  - split; [unfold startsWith; simpl; apply Hpre|].
    destruct (Charge.dropLeadingPlus (Charge.removeSpaces phone)) as [|c n];
      [discriminate E0|].
    simpl. now apply (noSpaces_tail c).
  - destruct (startsWith (Charge.dropLeadingPlus (Charge.removeSpaces phone)) "254")
      eqn:E254; simpl.
    + now split.
    + split; [unfold startsWith; simpl; apply Hpre|exact Hn].
Qed.

(** X21.  What [chargeMpesa] makes of a phone always starts with the
    country code 254 and holds no white space, and making it again of
    the result, or of the result with the plus that is sent to the
    provider, changes nothing. *)
Theorem normalized_is_canonical (phone : string) :
  startsWith (Charge.normalized phone) "254" = true
  /\ noSpaces (Charge.normalized phone) = true
  /\ Charge.normalized (Charge.normalized phone) = Charge.normalized phone
  /\ Charge.normalized ("+" ++ Charge.normalized phone) = Charge.normalized phone.
Proof.
  destruct (normalized_shape phone) as [H1 H2]. repeat split; trivial.
  - now apply normalized_fixed.
  - now apply normalized_plus_fixed.
Qed.

Lemma truthy_or_else (a b : value) : truthy b = true -> truthy (or_else a b) = true.
Proof. unfold or_else. destruct (truthy a) eqn:E; auto. Qed.

Lemma is_string_eq (v : value) (lit : string) : is_string v lit = true -> v = VStr lit.
Proof.
  destruct v; simpl; try discriminate. intros H. apply String.eqb_eq in H. now subst.
Qed.

(** X22.  Whatever [chargeMpesa] returns has a truthy status and a
    truthy display text, and it returns only when the provider's answer
    has a truthy [status].  When that [status] is falsy and the message
    of the answer is a string or absent, it raises, and the message it
    raises is never the provider's generic [Charge attempted]: that one
    is replaced by the retry instruction, an empty one by
    [M-Pesa charge failed]. *)
Theorem charge_outcomes (rt : Runtime) (ref : string) (data : value) :
  (forall r, Charge.chargeAnswer rt ref data = Ok r ->
             truthy (get r "status") = true
             /\ truthy (get r "display_text") = true
             /\ truthy (get data "status") = true)
  /\ (forall m, nullish data = false ->
                truthy (get data "status") = false ->
                or_else (get data "message") (VStr "") = VStr m ->
                Charge.chargeAnswer rt ref data
                = Throw (Error (if m =? "Charge attempted" then Charge.retryText
                                else if isEmpty m then "M-Pesa charge failed" else m))
                /\ (if m =? "Charge attempted" then Charge.retryText
                    else if isEmpty m then "M-Pesa charge failed" else m)
                   <> "Charge attempted").
Proof.
  split.
  - intros r. unfold Charge.chargeAnswer, Charge.throwError.
    destruct (nullish data); [discriminate|].
    destruct (truthy (get data "status")) eqn:Hs; simpl.
    + destruct (is_string (get (or_else (get data "data") (VObj [])) "status") "pay_offline")
        eqn:E1; simpl.
      * intros H. inversion H; subst. simpl.
        rewrite (is_string_eq _ _ E1). repeat split. now apply truthy_or_else.
      * destruct (is_string (get (or_else (get data "data") (VObj [])) "status") "pending")
          eqn:E2; simpl.
        -- intros H. inversion H; subst. simpl.
           rewrite (is_string_eq _ _ E2). repeat split. now apply truthy_or_else.
        -- destruct (is_string (get (or_else (get data "data") (VObj [])) "status") "failed").
           ++ destruct (String_ rt _); discriminate.
           ++ intros H. inversion H; subst. simpl.
              repeat split; now apply truthy_or_else.
    + destruct (String_ rt _); discriminate.
  - intros m Hnull Hs Hraw. unfold Charge.chargeAnswer, Charge.throwError.
    rewrite Hnull, Hs, Hraw. simpl.
    destruct (m =? "Charge attempted") eqn:E; simpl.
    + split; [reflexivity|discriminate].
    + destruct m as [|c m]; simpl; [split; [reflexivity|discriminate]|].
      split; [reflexivity|]. intros Heq. rewrite Heq in E. discriminate E.
Qed.

Lemma charge_outcomes_witness :
  (truthy (get (Charge.chargeResult "APP-1" (VObj [("status", VStr "pay_offline")])
                  (VStr "pay_offline")) "status") = true
   /\ truthy (get (Charge.chargeResult "APP-1" (VObj [("status", VStr "pay_offline")])
                     (VStr "pay_offline")) "display_text") = true
   /\ truthy (get (VObj [("status", VBool true);
                         ("data", VObj [("status", VStr "pay_offline")])]) "status") = true)
  /\ (Charge.chargeAnswer host "APP-1" chargeAttempted = Throw (Error Charge.retryText)
      /\ Charge.retryText <> "Charge attempted").
Proof.
  split.
  - apply (proj1 (charge_outcomes host "APP-1"
                    (VObj [("status", VBool true);
                           ("data", VObj [("status", VStr "pay_offline")])]))).
    reflexivity.
  - apply (proj2 (charge_outcomes host "APP-1" chargeAttempted) "Charge attempted");
      reflexivity.
Defined.

(** X23.  Every request [chargeMpesa] posts carries the provider
    [mpesa], the reference it was given, and a phone of the form
    [+254...] without white space and at least thirteen characters long;
    an integer amount [n] of whole units whose hundredfold is below
    [2^53] in magnitude is posted as the decimal digits of [n * 100]. *)
Theorem charge_request_wellformed (rt : Runtime) (env : Env)
        (args : Paystack.ChargeArgs) (b : Charge.Body) :
  Charge.chargeBody rt env args = Ok b ->
  startsWith (Charge.mobile_money_phone b) "+254" = true
  /\ noSpaces (Charge.mobile_money_phone b) = true
  /\ (13 <= String.length (Charge.mobile_money_phone b))%nat
  /\ Charge.mobile_money_provider b = "mpesa"
  /\ Charge.reference b = Paystack.charge_reference args
  /\ forall n : Z,
      Paystack.charge_amount args = VNum (num_of_Z n) ->
      (Z.abs (n * 100) < 2 ^ 53)%Z ->
      Charge.amount b = NilEmpty.string_of_int (Z.to_int (n * 100)).
Proof.
  unfold Charge.chargeBody. intros H.
  destruct (Paystack.configured (PAYSTACK_SECRET_KEY env)); [|discriminate].
  destruct (String.length (Charge.normalized (Paystack.charge_phone args)) <? 12)%nat
    eqn:Hlen; [discriminate|].
  apply Nat.ltb_ge in Hlen.
  destruct (normalized_shape (Paystack.charge_phone args)) as [Hpre Hns].
  destruct (Paystack.amountInSmallest rt (Paystack.charge_amount args)) as [a|] eqn:Ha;
    cbn [bind] in H; [|discriminate].
  destruct (String_ rt (VNum a)) as [text|] eqn:Htext; cbn [bind of_option] in H;
    [|discriminate].
  inversion H; subst b; clear H. cbn [Charge.mobile_money_phone Charge.amount
    Charge.mobile_money_provider Charge.reference].
  destruct (startsWith_inv "254" _ Hpre) as [t Ht].
  repeat split.
  - rewrite Ht. unfold startsWith. simpl. now destruct t.
  - unfold noSpaces in *. simpl. exact Hns.
  - cbn [append String.length]. lia.
  - intros n Hn Hsmall.
    assert (Hlimit : (Z.abs n < wholeAmountLimit)%Z).
    { unfold wholeAmountLimit. change (2 ^ 53)%Z with 9007199254740992%Z in Hsmall. lia. }
    rewrite Hn, (amountInSmallest_int rt n Hlimit) in Ha. inversion Ha; subst a.
    unfold String_, num_of_Z, inject_Z in Htext.
    apply Z.ltb_lt in Hsmall. rewrite Hsmall in Htext. congruence.
Qed.

Lemma charge_request_wellformed_witness :
  exists b,
    Charge.chargeBody host (envWith "sk_live_1") chargeArgs = Ok b
    /\ Charge.mobile_money_phone b = "+254712345678"
    /\ startsWith (Charge.mobile_money_phone b) "+254" = true
    /\ (13 <= String.length (Charge.mobile_money_phone b))%nat
    /\ Charge.amount b = "35000".
Proof.
  eexists. split; [reflexivity|]. split; [reflexivity|].
  match goal with
  | |- startsWith (Charge.mobile_money_phone ?b) _ = true /\ _ =>
      destruct (charge_request_wellformed host (envWith "sk_live_1") chargeArgs b eq_refl)
        as (H1 & _ & H3 & _ & _ & Hamount)
  end.
  split; [exact H1|]. split; [exact H3|].
  exact (Hamount 350%Z eq_refl eq_refl).
Defined.

(** X24.  [POST /:id/charge-mpesa] with the adapter behind it turns down
    a request before the provider is asked: without the secret key the
    answer is 400 with [PAYSTACK_SECRET_KEY is not set], and with the key
    a phone whose digits come to fewer than twelve is answered 400 with
    [Invalid phone number]; the store is unchanged either way. *)
Theorem charge_route_guards (rt : Runtime) (env : Env)
        (fetch : Charge.Body -> result value) (w : World) (opps : list Opportunity.t)
        (u : User.t) (id phone : string) (db : Store) (a : Application.t) :
  findOwnedPending rt db id (User._id u) = Ok (Some a) ->
  isEmpty phone = false ->
  (Paystack.configured (PAYSTACK_SECRET_KEY env) = None ->
   Routes.chargeMpesaRoute rt (withAdapter rt env fetch w) opps u id
     (VObj [("phone", VStr phone)]) db
   = (respond 400 (ErrMessageOr (Error "PAYSTACK_SECRET_KEY is not set")
                     "M-Pesa charge failed"), db))
  /\ (Paystack.configured (PAYSTACK_SECRET_KEY env) <> None ->
      (String.length (Charge.normalized (trim rt phone)) < 12)%nat ->
      Routes.chargeMpesaRoute rt (withAdapter rt env fetch w) opps u id
        (VObj [("phone", VStr phone)]) db
      = (respond 400 (ErrMessageOr (Error "Invalid phone number") "M-Pesa charge failed"),
         db)).
Proof.
  intros Hfind Hphone. split.
  - intros Hkey. unfold Routes.chargeMpesaRoute, caughtOr. simpl.
    rewrite Hphone, Hfind. simpl.
    unfold Charge.chargeMpesa, Charge.chargeBody. now rewrite Hkey.
  - intros Hkey Hlen. unfold Routes.chargeMpesaRoute, caughtOr. simpl.
    rewrite Hphone, Hfind. simpl.
    unfold Charge.chargeMpesa, Charge.chargeBody.
    destruct (Paystack.configured (PAYSTACK_SECRET_KEY env)); [|contradiction].
    apply Nat.ltb_lt in Hlen. simpl. now rewrite Hlen.
Qed.

Lemma charge_route_guards_witness :
  Routes.chargeMpesaRoute host (withAdapter host noKey payOffline
                                  (world secondId 1700000060000))
    [internship] alice appId (VObj [("phone", VStr "0712345678")]) [pendingApp]
  = (respond 400 (ErrMessageOr (Error "PAYSTACK_SECRET_KEY is not set")
                    "M-Pesa charge failed"), [pendingApp])
  /\ Routes.chargeMpesaRoute host (withAdapter host (envWith "sk_live_1") payOffline
                                     (world secondId 1700000060000))
       [internship] alice appId (VObj [("phone", VStr "07123")]) [pendingApp]
     = (respond 400 (ErrMessageOr (Error "Invalid phone number") "M-Pesa charge failed"),
        [pendingApp]).
Proof.
  split.
  - apply (proj1 (charge_route_guards host noKey payOffline (world secondId 1700000060000)
                    [internship] alice appId "0712345678" [pendingApp] pendingApp
                    eq_refl eq_refl)).
    reflexivity.
  - apply (proj2 (charge_route_guards host (envWith "sk_live_1") payOffline
                    (world secondId 1700000060000) [internship] alice appId "07123"
                    [pendingApp] pendingApp eq_refl eq_refl)).
    + discriminate.
    + simpl. lia.
Defined.

(** X25.  A charge that the provider accepts and leaves pending
    ([pay_offline] or [pending]) is a success of
    [POST /:id/charge-mpesa]: the answer is 200 with that status, the
    reference of the attempt when the provider names none, and the
    default display text when the provider gives none; the store is
    unchanged, and the reference answered resolves to the application. *)
Theorem charge_route_pending (rt : Runtime) (env : Env)
        (fetch : Charge.Body -> result value) (w : World) (opps : list Opportunity.t)
        (u : User.t) (id phone : string) (db : Store) (a : Application.t)
        (b : Charge.Body) (data : value) (status : string) :
  findOwnedPending rt db id (User._id u) = Ok (Some a) ->
  isEmpty phone = false ->
  Charge.chargeBody rt env
    (Routes.chargeRequest rt (now w) a (populate opps a) u phone) = Ok b ->
  fetch b = Ok data ->
  truthy (get data "status") = true ->
  get (get data "data") "status" = VStr status ->
  status = "pay_offline" \/ status = "pending" ->
  get (get data "data") "reference" = VUndefined ->
  get (get data "data") "display_text" = VUndefined ->
  isObjectIdHex (Application._id a) = true ->
  Routes.chargeMpesaRoute rt (withAdapter rt env fetch w) opps u id
    (VObj [("phone", VStr phone)]) db
  = (respond 200
       (ChargeStarted (VStr (Routes.paymentReference (Application._id a) (now w)))
          (VStr status) (VStr Charge.defaultText)), db)
  /\ Routes.applicationIdOf (Routes.paymentReference (Application._id a) (now w))
     = Application._id a.
Proof.
  intros Hfind Hphone Hbody Hfetch Hs Hst Hcase Href Htext Hhex.
  split; [|now apply applicationIdOf_paymentReference].
  unfold Routes.chargeMpesaRoute, caughtOr.
  cbn [nullish get lookup String.eqb Ascii.eqb Bool.eqb].
  rewrite Hphone, Hfind. cbn [bind].
  cbn [withAdapter charge now].
  unfold Charge.chargeMpesa. rewrite Hbody. cbn [bind]. rewrite Hfetch. cbn [bind].
  unfold Charge.chargeAnswer.
  assert (Hd : truthy (get data "data") = true).
  { destruct (get data "data"); simpl in Hst; try discriminate. reflexivity. }
  assert (Hn : nullish data = false).
  { destruct data; simpl in Hs; try discriminate; reflexivity. }
  assert (Hd' : or_else (get data "data") (VObj []) = get data "data").
  { unfold or_else. now rewrite Hd. }
  cbv zeta. rewrite Hn, Hs, Hd', Hst.
  assert (Hok : (is_string (VStr status) "pay_offline"
                 || is_string (VStr status) "pending") = true).
  { destruct Hcase as [-> | ->]; reflexivity. }
  rewrite Hok. cbn [andb bind].
  unfold Charge.chargeResult. rewrite Href, Htext.
  reflexivity.
Qed.

Lemma charge_route_pending_witness :
  Routes.chargeMpesaRoute host
    (withAdapter host (envWith "sk_live_1")
       (fun _ => Ok (VObj [("status", VBool true);
                           ("data", VObj [("status", VStr "pay_offline")])]))
       (world secondId 1700000060000))
    [internship] alice appId (VObj [("phone", VStr "0712345678")]) [pendingApp]
  = (respond 200
       (ChargeStarted
          (VStr (Routes.paymentReference (Application._id pendingApp) 1700000060000))
          (VStr "pay_offline") (VStr Charge.defaultText)), [pendingApp])
  /\ Routes.applicationIdOf
       (Routes.paymentReference (Application._id pendingApp) 1700000060000)
     = Application._id pendingApp.
Proof.
  eapply (charge_route_pending host (envWith "sk_live_1") _
            (world secondId 1700000060000) [internship] alice appId "0712345678"
            [pendingApp] pendingApp);
    try reflexivity.
  now left.
Defined.

(** ** The Daraja adapter: phone and timestamp *)

Lemma startsWith_app (p t : string) : startsWith (p ++ t) p = true.
Proof.
  unfold startsWith. induction p as [|a p IH]; simpl; [now destruct t|].
  destruct (ascii_dec a a); [exact IH|contradiction].
Qed.

Lemma startsWith_zero_false (s : string) :
  startsWith s "0" = false -> Daraja.dropLeadingZero s = s.
Proof.
  destruct s as [|c s]; [reflexivity|]. intros H. simpl.
  destruct (Ascii.eqb_spec c "0"%char) as [->|]; [|reflexivity].
  change (String "0" s) with ("0" ++ s) in H.
  rewrite (startsWith_app "0" s) in H. discriminate H.
Qed.

(** X26.  The phone that [initiateSTKPush] sends always starts with 254
    and formatting it again changes nothing; a local number loses its
    leading 0.  On a phone made of digits it is the number that
    [chargeMpesa] derives; a leading plus, which [chargeMpesa] drops, is
    kept here behind the 254 that is put in front. *)
Theorem stk_phone_format (p s : string) :
  startsWith (Daraja.formattedPhone p) "254" = true
  /\ Daraja.formattedPhone (Daraja.formattedPhone p) = Daraja.formattedPhone p
  /\ Daraja.formattedPhone ("0" ++ s) = "254" ++ s
  /\ Daraja.formattedPhone ("+" ++ s) = "254+" ++ s
  /\ (allDigits s = true ->
      Daraja.formattedPhone s = Charge.normalized s
      /\ Charge.normalized ("+" ++ s) = Charge.normalized s).
Proof.
  assert (H1 : startsWith (Daraja.formattedPhone p) "254" = true).
  { unfold Daraja.formattedPhone. destruct (startsWith p "254") eqn:E; [exact E|].
    apply (startsWith_app "254"). }
  split; [exact H1|]. split.
  { unfold Daraja.formattedPhone at 1. now rewrite H1. }
  split; [reflexivity|]. split; [reflexivity|].
  intros Hd. split.
  - unfold Daraja.formattedPhone, Charge.normalized.
    rewrite (removeSpaces_digits s Hd), (dropLeadingPlus_digits s Hd).
    destruct (startsWith s "0") eqn:E0.
    + destruct (startsWith_inv "0" s E0) as [t ->]. reflexivity.
    + rewrite (startsWith_zero_false s E0). now destruct (startsWith s "254").
  - unfold Charge.normalized.
    change (Charge.removeSpaces ("+" ++ s)) with (String "+" (Charge.removeSpaces s)).
    rewrite (removeSpaces_digits s Hd), (dropLeadingPlus_digits s Hd). reflexivity.
Qed.

Lemma stk_phone_format_witness :
  Daraja.formattedPhone "0712345678" = Charge.normalized "0712345678"
  /\ Charge.normalized ("+" ++ "0712345678") = Charge.normalized "0712345678".
Proof.
  apply (proj2 (proj2 (proj2 (proj2 (stk_phone_format "0712345678" "0712345678"))))).
  reflexivity.
Defined.

Lemma removeSeparators_app (a b : string) :
  Daraja.removeSeparators (a ++ b) = Daraja.removeSeparators a ++ Daraja.removeSeparators b.
Proof.
  induction a as [|c a IH]; simpl; [reflexivity|].
  destruct (_ || _); simpl; now rewrite IH.
Qed.

Lemma removeSeparators_digits (s : string) :
  allDigits s = true -> Daraja.removeSeparators s = s.
Proof.
  induction s as [|c s IH]; simpl; [reflexivity|]. intros H.
  apply andb_true_iff in H as [Hc Hs]. rewrite (IH Hs).
  destruct (Ascii.eqb_spec c "-"%char) as [->|]; [discriminate Hc|].
  destruct (Ascii.eqb_spec c ":"%char) as [->|]; [discriminate Hc|].
  destruct (Ascii.eqb_spec c "T"%char) as [->|]; [discriminate Hc|].
  destruct (Ascii.eqb_spec c "."%char) as [->|]; [discriminate Hc|].
  reflexivity.
Qed.

Lemma substring_prefix (a b : string) : substring 0 (String.length a) (a ++ b) = a.
Proof. induction a as [|c a IH]; simpl; [now destruct b|now rewrite IH]. Qed.

Lemma length_app (a b : string) :
  String.length (a ++ b) = (String.length a + String.length b)%nat.
Proof. induction a as [|c a IH]; simpl; [reflexivity|now rewrite IH]. Qed.

Lemma append_assoc (a b c : string) : (a ++ b) ++ c = a ++ b ++ c.
Proof. induction a as [|x a IH]; simpl; [reflexivity|now rewrite IH]. Qed.

(** X27.  For an instant whose ISO form has a four-digit year, the
    timestamp of the STK push is the fourteen digits year, month, day,
    hour, minute, second: separators, milliseconds and the zone letter
    are gone. *)
Theorem stk_timestamp (year month day hour minute second millis : string) :
  allDigits year = true -> String.length year = 4 ->
  allDigits month = true -> String.length month = 2 ->
  allDigits day = true -> String.length day = 2 ->
  allDigits hour = true -> String.length hour = 2 ->
  allDigits minute = true -> String.length minute = 2 ->
  allDigits second = true -> String.length second = 2 ->
  allDigits millis = true ->
  Daraja.timestamp (isoString year month day hour minute second millis)
  = year ++ month ++ day ++ hour ++ minute ++ second
  /\ String.length (Daraja.timestamp
                      (isoString year month day hour minute second millis)) = 14
  /\ allDigits (Daraja.timestamp
                  (isoString year month day hour minute second millis)) = true.
Proof.
  intros Dy Ly Dmo Lmo Dd Ld Dh Lh Dmi Lmi Ds Ls Dms.
  assert (Hlen : String.length (year ++ month ++ day ++ hour ++ minute ++ second) = 14).
  { rewrite !length_app. lia. }
  assert (H : Daraja.timestamp (isoString year month day hour minute second millis)
              = year ++ month ++ day ++ hour ++ minute ++ second).
  { unfold Daraja.timestamp, isoString.
    rewrite !removeSeparators_app.
    rewrite (removeSeparators_digits year Dy), (removeSeparators_digits month Dmo),
      (removeSeparators_digits day Dd), (removeSeparators_digits hour Dh),
      (removeSeparators_digits minute Dmi), (removeSeparators_digits second Ds),
      (removeSeparators_digits millis Dms).
    cbn [Daraja.removeSeparators Ascii.eqb Bool.eqb orb andb append].
    replace (year ++ month ++ day ++ hour ++ minute ++ second ++ millis ++ "Z")
      with ((year ++ month ++ day ++ hour ++ minute ++ second) ++ millis ++ "Z")
      by (now rewrite !append_assoc).
    rewrite <- Hlen at 1. apply substring_prefix. }
  rewrite H. split; [reflexivity|]. split; [exact Hlen|].
  assert (Happ : forall a b, allDigits a = true -> allDigits b = true ->
                             allDigits (a ++ b) = true).
  { induction a as [|c a IH]; simpl; intros b Ha Hb; [exact Hb|].
    apply andb_true_iff in Ha as [Hc Ha]. now rewrite Hc, IH. }
  repeat apply Happ; assumption.
Qed.

Lemma stk_timestamp_witness :
  Daraja.timestamp (isoString "2023" "11" "14" "22" "13" "20" "000")
  = "2023" ++ "11" ++ "14" ++ "22" ++ "13" ++ "20"
  /\ String.length (Daraja.timestamp (isoString "2023" "11" "14" "22" "13" "20" "000")) = 14
  /\ allDigits (Daraja.timestamp (isoString "2023" "11" "14" "22" "13" "20" "000")) = true.
Proof. apply (stk_timestamp "2023" "11" "14" "22" "13" "20" "000"); reflexivity. Defined.

(** ** The Daraja adapter: the cached token *)

(** Within the integers that binary64 holds exactly, the expiry is the
    integer the expression denotes. *)
Lemma expiryAt_int (t : N) (e : Z) :
  (Z.abs ((e - 60) * 1000) < 2 ^ 53)%Z ->
  (Z.abs (Z.of_N t + (e - 60) * 1000) < 2 ^ 53)%Z ->
  Daraja.expiryAt t (num_of_Z e) = num_of_Z (Z.of_N t + (e - 60) * 1000).
Proof.
  intros Hmul Hadd. unfold Daraja.expiryAt, num_of_Z at 1. cbn [rounded].
  rewrite (round64_int _ (e - 60)); cbn [rounded num_of_Z].
  - rewrite (round64_int _ ((e - 60) * 1000)); cbn [rounded num_of_Z].
    + apply round64_int; [|exact Hadd]. now rewrite inject_Z_plus.
    + now rewrite inject_Z_mult.
    + exact Hmul.
  - unfold Z.sub. now rewrite inject_Z_plus, inject_Z_opp.
  - change (2 ^ 53)%Z with 9007199254740992%Z in *. lia.
Qed.

Lemma before_int (t : N) (x : Z) :
  Daraja.before t (num_of_Z x) = (Z.of_N t <? x)%Z.
Proof.
  unfold Daraja.before, num_of_Z, Qle_bool, inject_Z. simpl.
  rewrite !Z.mul_1_r. symmetry. apply Z.ltb_antisym.
Qed.

(** X28.  A token fetched on a cache miss is returned and cached.  When
    [expires_in], as [Number] reads it (a number, or a numeric string),
    is an integer [e], and [(e - 60) * 1000] and its sum with the clock
    reading at the store stay below [2^53] in magnitude, the expiry is
    that sum; while the clock is below it the next call returns the same
    token from the cache, whatever the token endpoint would answer, and
    leaves the cache as it is. *)
Theorem token_reused_until_expiry (rt : Runtime) (settings : Daraja.Settings)
        (w1 w2 : Daraja.World) (c0 : Daraja.TokenCache) (res : Daraja.Http)
        (data tok : value) (e : Z) :
  (truthy (Daraja.cachedToken c0)
   && Daraja.before (Daraja.clockAtCheck w1) (Daraja.tokenExpiry c0)) = false ->
  Daraja.oauth w1 (credential settings w1) = Ok res ->
  Daraja.ok res = true ->
  Daraja.json res = Ok data ->
  nullish data = false ->
  get data "access_token" = tok ->
  truthy tok = true ->
  Number rt (get data "expires_in") = Some (num_of_Z e) ->
  (Z.abs ((e - 60) * 1000) < 2 ^ 53)%Z ->
  (Z.abs (Z.of_N (Daraja.clockAtStore w1) + (e - 60) * 1000) < 2 ^ 53)%Z ->
  (Z.of_N (Daraja.clockAtCheck w2) < Z.of_N (Daraja.clockAtStore w1) + (e - 60) * 1000)%Z ->
  fst (Daraja.getAccessToken rt settings w1 c0) = Ok tok
  /\ Daraja.tokenExpiry (snd (Daraja.getAccessToken rt settings w1 c0))
     = num_of_Z (Z.of_N (Daraja.clockAtStore w1) + (e - 60) * 1000)
  /\ Daraja.getAccessToken rt settings w2 (snd (Daraja.getAccessToken rt settings w1 c0))
     = (Ok tok, snd (Daraja.getAccessToken rt settings w1 c0)).
Proof.
  intros Hmiss Hauth Hok Hjson Hnull Htok Htruthy Hexp Hmul Hadd Hclock.
  assert (H1 : Daraja.getAccessToken rt settings w1 c0
               = (Ok tok,
                  {| Daraja.cachedToken := tok;
                     Daraja.tokenExpiry :=
                       num_of_Z (Z.of_N (Daraja.clockAtStore w1) + (e - 60) * 1000) |})).
  { unfold Daraja.getAccessToken. rewrite Hmiss.
    unfold credential in Hauth. rewrite Hauth, Hok. cbn [negb].
    rewrite Hjson, Hnull, Hexp. now rewrite (expiryAt_int _ e Hmul Hadd), Htok. }
  rewrite H1. cbn [fst snd Daraja.tokenExpiry]. repeat split.
  unfold Daraja.getAccessToken. cbn [Daraja.cachedToken Daraja.tokenExpiry].
  rewrite Htruthy, before_int. apply Z.ltb_lt in Hclock. now rewrite Hclock.
Qed.

Lemma token_reused_until_expiry_witness :
  fst (Daraja.getAccessToken readingDigits till
         (daraja 1700000000000%N (Ok (tokenAnswerText "tok-1" "3599")))
         Daraja.emptyCache) = Ok (VStr "tok-1")
  /\ Daraja.tokenExpiry
       (snd (Daraja.getAccessToken readingDigits till
               (daraja 1700000000000%N (Ok (tokenAnswerText "tok-1" "3599")))
               Daraja.emptyCache))
     = num_of_Z (Z.of_N 1700000000000%N + (3599%Z - 60%Z) * 1000%Z)
  /\ Daraja.getAccessToken readingDigits till (daraja 1700003538999%N (Ok refused))
       (snd (Daraja.getAccessToken readingDigits till
               (daraja 1700000000000%N (Ok (tokenAnswerText "tok-1" "3599")))
               Daraja.emptyCache))
     = (Ok (VStr "tok-1"),
        snd (Daraja.getAccessToken readingDigits till
               (daraja 1700000000000%N (Ok (tokenAnswerText "tok-1" "3599")))
               Daraja.emptyCache)).
Proof.
  apply (token_reused_until_expiry readingDigits till
           (daraja 1700000000000%N (Ok (tokenAnswerText "tok-1" "3599")))
           (daraja 1700003538999%N (Ok refused)) Daraja.emptyCache
           (tokenAnswerText "tok-1" "3599")
           (VObj [("access_token", VStr "tok-1"); ("expires_in", VStr "3599")])
           (VStr "tok-1") 3599%Z); try reflexivity.
Defined.

(** X29.  Once the clock has reached the expiry of the cached token the
    token is not served any more: the token endpoint is asked; when it
    refuses, the call raises [M-Pesa auth failed] and the cache is left
    as it was, and when it answers, the call returns the new token and
    stores it with its own expiry, which is the clock reading at the
    store plus [(e - 60) * 1000] when [Number] reads [expires_in] as the
    integer [e] and both that product and the sum stay below [2^53] in
    magnitude. *)
Theorem token_refreshed_after_expiry (rt : Runtime) (settings : Daraja.Settings)
        (w : Daraja.World) (c : Daraja.TokenCache) (x : Z) :
  Daraja.tokenExpiry c = num_of_Z x ->
  (x <= Z.of_N (Daraja.clockAtCheck w))%Z ->
  (forall res, Daraja.oauth w (credential settings w) = Ok res ->
               Daraja.ok res = false ->
               Daraja.getAccessToken rt settings w c
               = (Throw (Error "M-Pesa auth failed"), c))
  /\ (forall res data e,
         Daraja.oauth w (credential settings w) = Ok res ->
         Daraja.ok res = true ->
         Daraja.json res = Ok data ->
         nullish data = false ->
         Number rt (get data "expires_in") = Some (num_of_Z e) ->
         (Z.abs ((e - 60) * 1000) < 2 ^ 53)%Z ->
         (Z.abs (Z.of_N (Daraja.clockAtStore w) + (e - 60) * 1000) < 2 ^ 53)%Z ->
         Daraja.getAccessToken rt settings w c
         = (Ok (get data "access_token"),
            {| Daraja.cachedToken := get data "access_token";
               Daraja.tokenExpiry :=
                 num_of_Z (Z.of_N (Daraja.clockAtStore w) + (e - 60) * 1000) |})).
Proof.
  intros Hexp Hclock.
  assert (Hmiss : (truthy (Daraja.cachedToken c)
                   && Daraja.before (Daraja.clockAtCheck w) (Daraja.tokenExpiry c)) = false).
  { rewrite Hexp, before_int. apply Z.ltb_ge in Hclock. rewrite Hclock.
    apply andb_false_r. }
  split.
  - intros res Hauth Hok. unfold Daraja.getAccessToken. rewrite Hmiss.
    unfold credential in Hauth. now rewrite Hauth, Hok.
  - intros res data e Hauth Hok Hjson Hnull He Hmul Hadd. unfold Daraja.getAccessToken.
    rewrite Hmiss. unfold credential in Hauth. rewrite Hauth, Hok. cbn [negb].
    rewrite Hjson, Hnull, He. now rewrite (expiryAt_int _ e Hmul Hadd).
Qed.

Lemma token_refreshed_after_expiry_witness :
  Daraja.getAccessToken readingDigits till (daraja 1700003539000%N (Ok refused))
    {| Daraja.cachedToken := VStr "tok-1";
       Daraja.tokenExpiry := num_of_Z 1700003539000%Z |}
  = (Throw (Error "M-Pesa auth failed"),
     {| Daraja.cachedToken := VStr "tok-1";
        Daraja.tokenExpiry := num_of_Z 1700003539000%Z |})
  /\ Daraja.getAccessToken readingDigits till
       (daraja 1700003539000%N (Ok (tokenAnswerText "tok-2" "3599")))
       {| Daraja.cachedToken := VStr "tok-1";
          Daraja.tokenExpiry := num_of_Z 1700003539000%Z |}
     = (Ok (VStr "tok-2"),
        {| Daraja.cachedToken := VStr "tok-2";
           Daraja.tokenExpiry :=
             num_of_Z (Z.of_N 1700003539000%N + (3599%Z - 60%Z) * 1000%Z) |}).
Proof.
  split.
  - apply (proj1 (token_refreshed_after_expiry readingDigits till
                    (daraja 1700003539000%N (Ok refused))
                    {| Daraja.cachedToken := VStr "tok-1";
                       Daraja.tokenExpiry := num_of_Z 1700003539000%Z |}
                    1700003539000%Z eq_refl (Z.le_refl _)) refused); reflexivity.
  - apply (proj2 (token_refreshed_after_expiry readingDigits till
                    (daraja 1700003539000%N (Ok (tokenAnswerText "tok-2" "3599")))
                    {| Daraja.cachedToken := VStr "tok-1";
                       Daraja.tokenExpiry := num_of_Z 1700003539000%Z |}
                    1700003539000%Z eq_refl (Z.le_refl _))
             (tokenAnswerText "tok-2" "3599")
             (VObj [("access_token", VStr "tok-2"); ("expires_in", VStr "3599")])
             3599%Z); reflexivity.
Defined.

(** ** Saved opportunities *)

Lemma spliceFirst_None (id : string) (l : list string) :
  Opportunities.spliceFirst id l = None <-> ~ In id l.
Proof.
  induction l as [|s l IH]; simpl; [tauto|].
  destruct (s =? id) eqn:E.
  - apply String.eqb_eq in E. split; [discriminate|]. intros H. exfalso. auto.
  - apply String.eqb_neq in E.
    destruct (Opportunities.spliceFirst id l); simpl.
    + split; [discriminate|]. intros H. exfalso. apply H. right.
      destruct (in_dec string_dec id l) as [Hin|Hn]; [assumption|].
      apply IH in Hn. discriminate.
    + split; [|reflexivity]. intros _ [H|H]; [congruence|]. now apply IH.
Qed.

Lemma spliceFirst_Some (id : string) (l l' : list string) :
  Opportunities.spliceFirst id l = Some l' ->
  exists a b, l = (a ++ id :: b)%list /\ l' = (a ++ b)%list /\ ~ In id a.
Proof.
  revert l'. induction l as [|s l IH]; simpl; intros l' H; [discriminate|].
  destruct (s =? id) eqn:E.
  - apply String.eqb_eq in E. inversion H; subst.
    exists [], l'. simpl. tauto.
  - apply String.eqb_neq in E.
    destruct (Opportunities.spliceFirst id l) as [r|]; simpl in H; [|discriminate].
    inversion H; subst. destruct (IH r eq_refl) as (a & b & -> & -> & Hn).
    exists (s :: a), b. simpl. repeat split. intros [H'|H']; [congruence|auto].
Qed.

Lemma toggle_spec (id : string) (l : list string) :
  NoDup l ->
  NoDup (snd (Opportunities.toggle id l))
  /\ (fst (Opportunities.toggle id l) = true <-> ~ In id l)
  /\ (In id (snd (Opportunities.toggle id l)) <-> ~ In id l)
  /\ (forall x, x <> id -> In x (snd (Opportunities.toggle id l)) <-> In x l).
Proof.
  intros Hnd. unfold Opportunities.toggle.
  destruct (Opportunities.spliceFirst id l) as [l'|] eqn:E; simpl.
  - destruct (spliceFirst_Some _ _ _ E) as (a & b & -> & -> & Hn).
    pose proof (NoDup_remove_1 _ _ _ Hnd) as Hnd'.
    pose proof (NoDup_remove_2 _ _ _ Hnd) as Hout.
    assert (Hin : In id (a ++ id :: b)%list)
      by (apply in_or_app; right; left; reflexivity).
    split; [assumption|]. split; [|split].
    + split; [discriminate|]. intros Hno. exfalso. auto.
    + split; intros Hx; exfalso; auto.
    + intros x Hx. split; intros Hi; apply in_app_or in Hi; apply in_or_app.
      * simpl. tauto.
      * simpl in Hi. destruct Hi as [Hi|[Hi|Hi]]; auto. congruence.
  - apply spliceFirst_None in E. split; [now apply NoDup_snoc|]. split; [|split].
    + tauto.
    + split; [auto|]. intros _. apply in_or_app. right. left. reflexivity.
    + intros x Hx. split; intros Hi.
      * apply in_app_or in Hi. destruct Hi as [Hi|[Hi|[]]]; [assumption|congruence].
      * apply in_or_app. now left.
Qed.

Lemma find_saveAccount (u' : Opportunities.Account) (userId : string)
      (users : list Opportunities.Account) (u : Opportunities.Account) :
  find (fun x => Opportunities._id x =? userId) users = Some u ->
  Opportunities._id u' = userId ->
  find (fun x => Opportunities._id x =? userId) (Opportunities.saveAccount u' users)
  = Some u'.
Proof.
  intros Hfind Hid. subst userId.
  induction users as [|x users IH]; [discriminate|].
  cbn [find Opportunities.saveAccount map] in *.
  destruct (Opportunities._id x =? Opportunities._id u') eqn:E.
  - now rewrite String.eqb_refl.
  - rewrite E. auto.
Qed.

Lemma saveAccount_others (u' : Opportunities.Account)
      (users : list Opportunities.Account) (x : Opportunities.Account) :
  In x users -> Opportunities._id x <> Opportunities._id u' ->
  In x (Opportunities.saveAccount u' users).
Proof.
  intros Hin Hne. unfold Opportunities.saveAccount. apply in_map_iff.
  exists x. split; [|assumption]. apply String.eqb_neq in Hne. now rewrite Hne.
Qed.

(** X5.  [POST /:id/save] for an existing opportunity and a known user
    whose saved list has no duplicate answers [saved: true] exactly when
    the opportunity was not in the list, and afterwards the opportunity is
    in the stored list exactly in that case; the stored list still has no
    duplicate, every other saved id is kept, and the accounts of the other
    users stay in the collection. *)
Theorem save_toggles_membership (rt : Runtime) (opps : list Opportunity.t)
        (userId id : string) (users : list Opportunities.Account)
        (opp : Opportunity.t) (u : Opportunities.Account) :
  Opportunity_findById rt opps id = Ok (Some opp) ->
  find (fun x => Opportunities._id x =? userId) users = Some u ->
  NoDup (match Opportunities.savedOpportunities u with Some l => l | None => [] end) ->
  exists (flag : bool) (l' : list string),
    Opportunities.saveOpportunity rt opps userId id users
    = (Opportunities.SavedFlag flag,
       Opportunities.saveAccount
         {| Opportunities._id := userId; Opportunities.savedOpportunities := Some l' |}
         users)
    /\ find (fun x => Opportunities._id x =? userId)
            (snd (Opportunities.saveOpportunity rt opps userId id users))
       = Some {| Opportunities._id := userId;
                 Opportunities.savedOpportunities := Some l' |}
    /\ NoDup l'
    /\ (flag = true <->
        ~ In (Opportunity._id opp)
             (match Opportunities.savedOpportunities u with Some l => l | None => [] end))
    /\ (In (Opportunity._id opp) l' <-> flag = true)
    /\ (forall x, x <> Opportunity._id opp ->
                  In x l' <->
                  In x (match Opportunities.savedOpportunities u with
                        | Some l => l | None => [] end))
    /\ (forall x, In x users -> Opportunities._id x <> userId ->
                  In x (snd (Opportunities.saveOpportunity rt opps userId id users))).
Proof.
  intros Hopp Hfind Hnd.
  set (l := match Opportunities.savedOpportunities u with Some l => l | None => [] end) in *.
  assert (Hid : Opportunities._id u = userId).
  { apply find_some in Hfind as [_ H]. now apply String.eqb_eq in H. }
  destruct (toggle_spec (Opportunity._id opp) l Hnd) as (H1 & H2 & H3 & H4).
  exists (fst (Opportunities.toggle (Opportunity._id opp) l)),
         (snd (Opportunities.toggle (Opportunity._id opp) l)).
  assert (Hrun : Opportunities.saveOpportunity rt opps userId id users
                 = (Opportunities.SavedFlag (fst (Opportunities.toggle (Opportunity._id opp) l)),
                    Opportunities.saveAccount
                      {| Opportunities._id := userId;
                         Opportunities.savedOpportunities :=
                           Some (snd (Opportunities.toggle (Opportunity._id opp) l)) |}
                      users)).
  { unfold Opportunities.saveOpportunity. rewrite Hopp, Hfind. cbv zeta.
    now rewrite Hid. }
  rewrite Hrun. cbn [snd]. repeat split; auto.
  - now apply (find_saveAccount _ userId users u).
  - apply H2.
  - apply H2.
  - intros H. apply H2. now apply H3.
  - intros H. apply H3. now apply H2.
  - now apply H4.
  - now apply H4.
  - intros x Hin Hne. now apply saveAccount_others.
Qed.

Lemma save_toggles_membership_witness :
  exists (flag : bool) (l' : list string),
    Opportunities.saveOpportunity host [internship] (User._id alice)
      (Opportunity._id internship) [aliceAccount None]
    = (Opportunities.SavedFlag flag,
       Opportunities.saveAccount
         {| Opportunities._id := User._id alice;
            Opportunities.savedOpportunities := Some l' |}
         [aliceAccount None])
    /\ find (fun x => Opportunities._id x =? User._id alice)
            (snd (Opportunities.saveOpportunity host [internship] (User._id alice)
                    (Opportunity._id internship) [aliceAccount None]))
       = Some {| Opportunities._id := User._id alice;
                 Opportunities.savedOpportunities := Some l' |}
    /\ NoDup l'
    /\ (flag = true <-> ~ In (Opportunity._id internship) [])
    /\ (In (Opportunity._id internship) l' <-> flag = true)
    /\ (forall x, x <> Opportunity._id internship -> In x l' <-> In x [])
    /\ (forall x, In x [aliceAccount None] -> Opportunities._id x <> User._id alice ->
                  In x (snd (Opportunities.saveOpportunity host [internship]
                               (User._id alice) (Opportunity._id internship)
                               [aliceAccount None]))).
Proof.
  apply (save_toggles_membership host [internship] (User._id alice)
           (Opportunity._id internship) [aliceAccount None] internship
           (aliceAccount None)).
  - reflexivity.
  - reflexivity.
  - constructor.
Defined.

Lemma spliceFirst_snoc (id : string) (l : list string) :
  ~ In id l -> Opportunities.spliceFirst id (l ++ [id])%list = Some l.
Proof.
  induction l as [|s l IH]; simpl; intros Hn.
  - now rewrite String.eqb_refl.
  - destruct (s =? id) eqn:E.
    + apply String.eqb_eq in E. exfalso. auto.
    + rewrite IH by tauto. reflexivity.
Qed.

Lemma saveOpportunity_run (rt : Runtime) (opps : list Opportunity.t)
      (userId id : string) (users : list Opportunities.Account)
      (opp : Opportunity.t) (u : Opportunities.Account) :
  Opportunity_findById rt opps id = Ok (Some opp) ->
  find (fun x => Opportunities._id x =? userId) users = Some u ->
  Opportunities.saveOpportunity rt opps userId id users
  = (Opportunities.SavedFlag (fst (Opportunities.toggle (Opportunity._id opp) (savedOf u))),
     Opportunities.saveAccount
       {| Opportunities._id := userId;
          Opportunities.savedOpportunities :=
            Some (snd (Opportunities.toggle (Opportunity._id opp) (savedOf u))) |}
       users).
Proof.
  intros Hopp Hfind.
  assert (Hid : Opportunities._id u = userId).
  { apply find_some in Hfind as [_ H]. now apply String.eqb_eq in H. }
  unfold Opportunities.saveOpportunity, savedOf. rewrite Hopp, Hfind. cbv zeta.
  now rewrite Hid.
Qed.

(** X30.  Saving and unsaving compose to nothing: for an opportunity that
    is not in the user's saved list, the first [POST /:id/save] answers
    [saved: true], the second answers [saved: false], and the list stored
    for the user after the second call is the list from before the
    first. *)
Theorem save_then_unsave (rt : Runtime) (opps : list Opportunity.t)
        (userId id : string) (users : list Opportunities.Account)
        (opp : Opportunity.t) (u : Opportunities.Account) :
  Opportunity_findById rt opps id = Ok (Some opp) ->
  find (fun x => Opportunities._id x =? userId) users = Some u ->
  ~ In (Opportunity._id opp) (savedOf u) ->
  let first := Opportunities.saveOpportunity rt opps userId id users in
  let second := Opportunities.saveOpportunity rt opps userId id (snd first) in
  fst first = Opportunities.SavedFlag true
  /\ fst second = Opportunities.SavedFlag false
  /\ find (fun x => Opportunities._id x =? userId) (snd second)
     = Some {| Opportunities._id := userId;
               Opportunities.savedOpportunities := Some (savedOf u) |}.
Proof.
  intros Hopp Hfind Hout first second.
  assert (Ht : Opportunities.toggle (Opportunity._id opp) (savedOf u)
               = (true, (savedOf u ++ [Opportunity._id opp])%list)).
  { unfold Opportunities.toggle.
    now rewrite (proj2 (spliceFirst_None _ _) Hout). }
  assert (H1 : first
               = (Opportunities.SavedFlag true,
                  Opportunities.saveAccount
                    {| Opportunities._id := userId;
                       Opportunities.savedOpportunities :=
                         Some (savedOf u ++ [Opportunity._id opp])%list |} users)).
  { unfold first. rewrite (saveOpportunity_run rt opps userId id users opp u Hopp Hfind).
    now rewrite Ht. }
  assert (Hfind1 : find (fun x => Opportunities._id x =? userId) (snd first)
                   = Some {| Opportunities._id := userId;
                             Opportunities.savedOpportunities :=
                               Some (savedOf u ++ [Opportunity._id opp])%list |}).
  { rewrite H1. cbn [snd]. now apply (find_saveAccount _ userId users u). }
  assert (H2 : second
               = (Opportunities.SavedFlag false,
                  Opportunities.saveAccount
                    {| Opportunities._id := userId;
                       Opportunities.savedOpportunities := Some (savedOf u) |}
                    (snd first))).
  { unfold second.
    rewrite (saveOpportunity_run rt opps userId id (snd first) opp _ Hopp Hfind1).
    unfold savedOf at 1 3. cbn [Opportunities.savedOpportunities].
    unfold Opportunities.toggle. now rewrite (spliceFirst_snoc _ _ Hout). }
  rewrite H1 at 1. rewrite H2. cbn [fst snd]. repeat split.
  eapply find_saveAccount; [exact Hfind1|reflexivity].
Qed.

Lemma save_then_unsave_witness :
  let first := Opportunities.saveOpportunity host [internship] (User._id alice)
                 (Opportunity._id internship) [aliceAccount (Some [appId])] in
  let second := Opportunities.saveOpportunity host [internship] (User._id alice)
                  (Opportunity._id internship) (snd first) in
  fst first = Opportunities.SavedFlag true
  /\ fst second = Opportunities.SavedFlag false
  /\ find (fun x => Opportunities._id x =? User._id alice) (snd second)
     = Some {| Opportunities._id := User._id alice;
               Opportunities.savedOpportunities := Some [appId] |}.
Proof.
  apply (save_then_unsave host [internship] (User._id alice)
           (Opportunity._id internship) [aliceAccount (Some [appId])] internship
           (aliceAccount (Some [appId]))).
  - reflexivity.
  - reflexivity.
  - simpl. intros [H|[]]. discriminate H.
Defined.

(** ** The invariant of the Paystack flow *)

Lemma frame_keeps_invariant (db db' : Store) :
  Forall2 (fun x y => Application._id y = Application._id x /\ pairOf y = pairOf x) db db' ->
  uniqueIds db /\ onePerPair db -> uniqueIds db' /\ onePerPair db'.
Proof.
  intros H [Hids Hpairs]. unfold uniqueIds, onePerPair in *.
  rewrite (Forall2_map_eq Application._id db db'),
          (Forall2_map_eq pairOf db db'); [tauto| |];
    (eapply Forall2_weaken; [|exact H]); simpl; tauto.
Qed.

Lemma deleteById_keeps_NoDup {B : Type} (key : Application.t -> B) (id : string)
      (db : Store) :
  NoDup (map key db) -> NoDup (map key (deleteById id db)).
Proof.
  unfold deleteById. induction db as [|x db IH]; simpl; intros H; [constructor|].
  apply NoDup_cons_iff in H as [Hx Hdb].
  destruct (Application._id x =? id); simpl; [auto|].
  constructor; [|auto]. intros Hin. apply Hx.
  apply in_map_iff in Hin as (y & Hy & Hin). apply filter_In in Hin as [Hin _].
  apply in_map_iff. eauto.
Qed.

Lemma webhook_keeps_fields (rt : Runtime) (req : Routes.Delivery) (db : Store) :
  uniqueIds db ->
  Forall2 sameExceptPayment db (snd (Routes.paystackWebhookHandler rt req db)).
Proof.
  intros Hnd.
  destruct (Routes.paystackWebhookHandler rt req db) as [o db1] eqn:H.
  destruct o;
    try (replace db1 with db;
         [apply Forall2_refl_on, sameExceptPayment_refl
         |rewrite <- (handler_not_Saved rt req db); rewrite H; simpl; congruence]).
  destruct (handler_Saved rt req db db1 H)
    as (body & ref & a & a' & _ & _ & _ & _ & Hfind & Hst & Hset & ->).
  destruct (settled_fields rt _ _ _ a a' Hset) as (Hid & _ & _).
  destruct (findById_found rt db _ a Hfind) as (oid & _ & _ & Hf).
  apply find_some in Hf as [Hin _]. simpl.
  apply (save_frame sameExceptPayment a a' db); auto using sameExceptPayment_refl.
  eapply settled_frame; eauto.
Qed.

Lemma update_keeps_fields (rt : Runtime) (u : User.t) (id : string) (body : value)
      (db : Store) :
  uniqueIds db ->
  Forall2 sameExceptCoverLetter db (snd (Routes.updateApplication rt u id body db)).
Proof.
  intros Hnd. unfold Routes.updateApplication, caught.
  destruct (findOwned rt db id (User._id u)) as [[a|]|] eqn:Hfind; simpl;
    try (apply Forall2_refl_on, sameExceptCoverLetter_refl).
  apply findOwned_found in Hfind.
  destruct (negb (status_eqb (Application.status a) pending_payment)
            && negb (status_eqb (Application.status a) submitted)); simpl;
    [apply Forall2_refl_on, sameExceptCoverLetter_refl|].
  destruct (nullish body); simpl;
    [apply Forall2_refl_on, sameExceptCoverLetter_refl|].
  destruct (get body "coverLetter") eqn:Hc;
    (apply (save_frame sameExceptCoverLetter a); trivial;
     [apply sameExceptCoverLetter_refl
     |try apply sameExceptCoverLetter_refl; apply sameExceptCoverLetter_set]).
Qed.

Lemma admin_keeps_fields (rt : Runtime) (id : string) (body : value) (db : Store) :
  uniqueIds db ->
  Forall2 sameExceptStatus db (snd (Routes.adminUpdateStatus rt id body db)).
Proof.
  intros Hnd. unfold Routes.adminUpdateStatus, caught.
  destruct (nullish body); simpl; [apply Forall2_refl_on, sameExceptStatus_refl|].
  destruct (if truthy (get body "status") then _ else None) as [s|]; simpl;
    [|apply Forall2_refl_on, sameExceptStatus_refl].
  destruct (findById rt db id) as [[a|]|] eqn:Hfind; simpl;
    try apply Forall2_refl_on, sameExceptStatus_refl.
  destruct (findById_found rt db _ a Hfind) as (oid & _ & _ & Hf).
  apply find_some in Hf as [Hin _].
  apply (save_frame sameExceptStatus a _ db); auto using sameExceptStatus_refl.
  unfold sameExceptStatus. now destruct a.
Qed.

Lemma charge_keeps_store (rt : Runtime) (w : World) (opps : list Opportunity.t)
      (u : User.t) (id : string) (body : value) (db : Store) :
  snd (Routes.chargeMpesaRoute rt w opps u id body db) = db.
Proof.
  unfold Routes.chargeMpesaRoute, caughtOr.
  destruct (nullish body); simpl; trivial.
  destruct (get body "phone"); simpl; trivial.
  destruct (isEmpty s); simpl; trivial.
  destruct (findOwnedPending rt db id (User._id u)) as [[a|]|]; simpl; trivial.
  destruct (charge w _) as [r|]; simpl; trivial.
  destruct (nullish r); reflexivity.
Qed.

Lemma withdraw_keeps_invariant (rt : Runtime) (u : User.t) (id : string) (db : Store) :
  uniqueIds db /\ onePerPair db ->
  uniqueIds (snd (Routes.withdrawApplication rt u id db))
  /\ onePerPair (snd (Routes.withdrawApplication rt u id db)).
Proof.
  intros Hinv. unfold Routes.withdrawApplication, caught.
  destruct (findOwned rt db id (User._id u)) as [[a|]|]; simpl; trivial.
  destruct (negb _); simpl; trivial.
  destruct Hinv. unfold uniqueIds, onePerPair.
  split; now apply deleteById_keeps_NoDup.
Qed.

(** X3.  Every route of the Paystack flow that can write keeps the
    collection well formed: when the ids are unique and no two
    applications share a (user, opportunity) pair before a request, the
    same holds after it, for [POST /] (the store handing out an unused
    id), the webhook, [POST /:id/pay], [POST /:id/charge-mpesa],
    [PATCH /:id], [DELETE /:id] and the administrator's status edit. *)
Theorem paystack_flow_keeps_one_per_pair (rt : Runtime) (env : Env) (w : World)
        (opps : list Opportunity.t) (db : Store) :
  uniqueIds db -> onePerPair db ->
  let kept (db' : Store) := uniqueIds db' /\ onePerPair db' in
  (forall req, ~ In (newId w) (map Application._id db) ->
               kept (snd (Routes.createApplication rt env w opps req db)))
  /\ (forall req, kept (snd (Routes.paystackWebhookHandler rt req db)))
  /\ (forall u id, kept (snd (Routes.pay rt env w opps u id db)))
  /\ (forall u id body, kept (snd (Routes.chargeMpesaRoute rt w opps u id body db)))
  /\ (forall u id body, kept (snd (Routes.updateApplication rt u id body db)))
  /\ (forall u id, kept (snd (Routes.withdrawApplication rt u id db)))
  /\ (forall id body, kept (snd (Routes.adminUpdateStatus rt id body db))).
Proof.
  intros Hids Hpairs kept. unfold kept. repeat apply conj.
  - intros req Hfresh. now apply createApplication_one_per_pair.
  - intros req. apply (frame_keeps_invariant db); [|tauto].
    eapply Forall2_weaken; [|apply webhook_keeps_fields; exact Hids].
    unfold sameExceptPayment, pairOf. intros x y H. simpl in H.
    destruct H as (H1 & H2 & H3 & _). split; congruence.
  - intros u id. rewrite pay_keeps_store. tauto.
  - intros u id body. rewrite charge_keeps_store. tauto.
  - intros u id body. apply (frame_keeps_invariant db); [|tauto].
    eapply Forall2_weaken; [|apply update_keeps_fields; exact Hids].
    unfold sameExceptCoverLetter, pairOf. intros x y H. simpl in H.
    destruct H as (H1 & H2 & H3 & _). split; congruence.
  - intros u id. apply withdraw_keeps_invariant. tauto.
  - intros id body. apply (frame_keeps_invariant db); [|tauto].
    eapply Forall2_weaken; [|apply admin_keeps_fields; exact Hids].
    unfold sameExceptStatus, pairOf. intros x y H. simpl in H.
    rewrite H. now destruct x.
Qed.

Lemma paystack_flow_keeps_one_per_pair_witness :
  let kept (db' : Store) := uniqueIds db' /\ onePerPair db' in
  (forall req, ~ In (newId (world secondId 1700000060000)) (map Application._id [pendingApp]) ->
               kept (snd (Routes.createApplication host (envWith "sk_live_1")
                            (world secondId 1700000060000) [internship] req [pendingApp])))
  /\ (forall req, kept (snd (Routes.paystackWebhookHandler host req [pendingApp])))
  /\ (forall u id, kept (snd (Routes.pay host (envWith "sk_live_1")
                                (world secondId 1700000060000) [internship] u id
                                [pendingApp])))
  /\ (forall u id body,
         kept (snd (Routes.chargeMpesaRoute host (world secondId 1700000060000)
                      [internship] u id body [pendingApp])))
  /\ (forall u id body, kept (snd (Routes.updateApplication host u id body [pendingApp])))
  /\ (forall u id, kept (snd (Routes.withdrawApplication host u id [pendingApp])))
  /\ (forall id body, kept (snd (Routes.adminUpdateStatus host id body [pendingApp]))).
Proof.
  apply (paystack_flow_keeps_one_per_pair host (envWith "sk_live_1")
           (world secondId 1700000060000) [internship] [pendingApp]).
  - unfold uniqueIds. simpl. constructor; [simpl; tauto|constructor].
  - unfold onePerPair. simpl. constructor; [simpl; tauto|constructor].
Defined.
